(** * langchain-autotools: CRUD classification, operation discovery, invocation

    A shallow embedding of [langchain_autotools/langchain_autotools.py]:
    the pattern classifier [CrudControls], the tool [AutoTool] with its
    invocation adapter [_run], and the wrapper [AutoToolWrapper] with
    [_build_operations]; and of [langchain_autotools/utilities.py], the
    variant of the classifier and of the wrapper that looks for words in the
    member names.

    Python's standard library is outside the repository.  The regular
    expression engine ([re.compile], [Pattern.match]) and the JSON codec
    ([json.loads], [json.dumps]) are parameters of the development, so every
    theorem holds for whatever engine and codec the program runs with;
    [fnmatch] is written out (its POSIX behaviour, where [os.path.normcase]
    is the identity).  Small reference instances of the two parameters are
    given at the end of the definitions, to run the model on closed inputs. *)

From Stdlib Require Import String Ascii List Bool Arith ZArith Lia.
From Stdlib Require Import DecimalString DecimalFacts DecimalPos DecimalZ.
Import ListNotations.
Open Scope string_scope.

Set Implicit Arguments.
Set Warnings "-register-all".

(** ** Exceptions and outcomes *)

(** The exception classes the program meets.  [AttributeError] is the one
    class [_run] has a handler for; [JSONDecodeError] and [re.error] never
    leave the functions that catch them and appear as [None] results of the
    codec and of the engine.  [OtherError] is any other class that does not
    derive from [AttributeError], named by its class name. *)
Inductive ExnClass : Type :=
| AttributeError
| TypeError
| KeyError
| ValidationError
| OtherError (name : string).

Definition is_AttributeError (e : ExnClass) : bool :=
  match e with AttributeError => true | _ => false end.

Inductive Outcome (A : Type) : Type :=
| Return (a : A)
| Raise (e : ExnClass).

Arguments Return {A} a.
Arguments Raise {A} e.

Definition bind {A B : Type} (m : Outcome A) (k : A -> Outcome B) : Outcome B :=
  match m with
  | Return a => k a
  | Raise e => Raise e
  end.

Notation "x <- m ;; k" := (bind m (fun x => k))
  (at level 61, m at next level, right associativity).

(** [try: body except AttributeError: handler] *)
Definition try_except_AttributeError {A : Type}
    (body : Outcome A) (handler : Outcome A) : Outcome A :=
  match body with
  | Return a => Return a
  | Raise e => if is_AttributeError e then handler else Raise e
  end.

(** ** Python values *)

(** The values that flow through the adapter.  A dict has string keys (the
    keys of keyword arguments and of JSON objects) and keeps insertion order.
    [PyIter] is an iterator or generator that is not a list, tuple, dict, str
    or bytes: it produces [produced] and then either stops ([failure = None])
    or raises; [repr] is what [str] gives for it.  [PyObj] is any other
    object, known by its [str].  Floats are not represented. *)
Inductive PyVal : Type :=
| PyNone
| PyBool (b : bool)
| PyInt (z : Z)
| PyStr (s : string)
| PyBytes (b : string)
| PyList (items : list PyVal)
| PyTuple (items : list PyVal)
| PyDict (entries : list (string * PyVal))
| PyIter (repr : string) (produced : list PyVal) (failure : option ExnClass)
| PyObj (repr : string).

Definition Kwargs : Type := list (string * PyVal).

(** ** Strings *)

Definition dquote : ascii := "034"%char.
Definition squote : ascii := "039"%char.

Fixpoint chars (s : string) : list ascii :=
  match s with
  | EmptyString => []
  | String c s' => c :: chars s'
  end.

Fixpoint of_chars (l : list ascii) : string :=
  match l with
  | [] => EmptyString
  | c :: l' => String c (of_chars l')
  end.

(** [s.startswith(p)] *)
Definition startswith (s p : string) : bool := String.prefix p s.

(** [c in s] for a character [c] *)
Definition char_in (c : ascii) (s : string) : bool :=
  existsb (Ascii.eqb c) (chars s).

(** [s[2:-1]] *)
Definition slice_2_m1 (s : string) : string :=
  substring 2 (String.length s - 3) s.

(** [k in d] and [d.get(k)] on an insertion-ordered dict *)
Definition has_key {V : Type} (k : string) (d : list (string * V)) : bool :=
  existsb (fun kv => String.eqb k (fst kv)) d.

Fixpoint lookup {V : Type} (k : string) (d : list (string * V)) : option V :=
  match d with
  | [] => None
  | (k', v) :: d' => if String.eqb k k' then Some v else lookup k d'
  end.

(** ** fnmatch *)

(** [fnmatch.fnmatch(name, pat)] on a POSIX platform: the pattern is cut into
    tokens as [fnmatch.translate] does and the whole name must match.  [*] is
    any run of characters, [?] one character, [[seq]] one character of [seq]
    and [[!seq]] one character not in it; a [[] that is never closed stands
    for itself.  Inside a set, [lo-hi] is a range, empty when it runs
    backwards. *)
Inductive GlobTok : Type :=
| GStar
| GAny
| GLit (c : ascii)
| GSet (negated : bool) (items : list (ascii * ascii)).

(** The end of a set: the text up to the next [] ] and what follows it. *)
Fixpoint until_close (p : list ascii) : option (list ascii * list ascii) :=
  match p with
  | [] => None
  | c :: p' =>
      if Ascii.eqb c "]" then Some ([], p')
      else match until_close p' with
           | Some (stuff, rest) => Some (c :: stuff, rest)
           | None => None
           end
  end.

(** The body of a set after an opening [[]: an optional [!], then a
    [] ] taken literally when it comes first. *)
Definition set_body (p : list ascii) : option (list ascii * list ascii) :=
  let (bang, p1) :=
    match p with
    | c :: p' => if Ascii.eqb c "!" then ([c], p') else ([], p)
    | [] => ([], p)
    end in
  let (first, p2) :=
    match p1 with
    | c :: p' => if Ascii.eqb c "]" then ([c], p') else ([], p1)
    | [] => ([], p1)
    end in
  match until_close p2 with
  | Some (stuff, rest) => Some ((bang ++ first ++ stuff)%list, rest)
  | None => None
  end.

Fixpoint set_items (stuff : list ascii) : list (ascii * ascii) :=
  match stuff with
  | [] => []
  | lo :: rest =>
      match rest with
      | dash :: hi :: rest' =>
          if Ascii.eqb dash "-" then (lo, hi) :: set_items rest'
          else (lo, lo) :: set_items rest
      | _ => (lo, lo) :: set_items rest
      end
  end.

Definition glob_set (stuff : list ascii) : GlobTok :=
  match stuff with
  | c :: stuff' =>
      if Ascii.eqb c "!" then GSet true (set_items stuff')
      else GSet false (set_items stuff)
  | [] => GSet false []
  end.

Fixpoint glob_tokens (fuel : nat) (p : list ascii) : list GlobTok :=
  match fuel with
  | O => []
  | S fuel' =>
      match p with
      | [] => []
      | c :: p' =>
          if Ascii.eqb c "*" then GStar :: glob_tokens fuel' p'
          else if Ascii.eqb c "?" then GAny :: glob_tokens fuel' p'
          else if Ascii.eqb c "[" then
            match set_body p' with
            | Some (stuff, rest) => glob_set stuff :: glob_tokens fuel' rest
            | None => GLit c :: glob_tokens fuel' p'
            end
          else GLit c :: glob_tokens fuel' p'
      end
  end.

Definition in_range (c : ascii) (r : ascii * ascii) : bool :=
  Nat.leb (nat_of_ascii (fst r)) (nat_of_ascii c) &&
  Nat.leb (nat_of_ascii c) (nat_of_ascii (snd r)).

Definition tok_match (t : GlobTok) (c : ascii) : bool :=
  match t with
  | GStar => true
  | GAny => true
  | GLit c' => Ascii.eqb c c'
  | GSet negated items => xorb negated (existsb (in_range c) items)
  end.

Fixpoint glob_match (ts : list GlobTok) (s : list ascii) : bool :=
  match ts with
  | [] => match s with [] => true | _ => false end
  | GStar :: ts' =>
      (fix skip (s : list ascii) : bool :=
         glob_match ts' s ||
         match s with
         | [] => false
         | _ :: s' => skip s'
         end) s
  | t :: ts' =>
      match s with
      | [] => false
      | c :: s' => tok_match t c && glob_match ts' s'
      end
  end.

Definition fnmatch (name pat : string) : bool :=
  glob_match (glob_tokens (String.length pat) (chars pat)) (chars name).

(** A pattern without any of the three characters that start a glob token. *)
Definition glob_free (pat : string) : bool :=
  forallb
    (fun c => negb (Ascii.eqb c "*" || Ascii.eqb c "?" || Ascii.eqb c "["))
    (chars pat).


(** ** The pattern classifier: CrudControls *)

(** The four CRUD types, the strings ['create'], ['read'], ['update'] and
    ['delete'] of the source. *)
Inductive CrudType : Type := Create | Read | Update | Delete.

Definition crud_types : list CrudType := [Create; Read; Update; Delete].

Definition CrudType_eqb (a b : CrudType) : bool :=
  match a, b with
  | Create, Create | Read, Read | Update, Update | Delete, Delete => true
  | _, _ => false
  end.

(** Module defaults.  The source writes the regex entries as raw string
    literals: the leading [r] and the quotes are Python syntax, not part of
    the string. *)
Definition AUTOTOOL_CRUD_CONTROLS_CREATE : bool := false.
Definition AUTOTOOL_CRUD_CONTROLS_READ : bool := true.
Definition AUTOTOOL_CRUD_CONTROLS_UPDATE : bool := false.
Definition AUTOTOOL_CRUD_CONTROLS_DELETE : bool := false.

Definition AUTOTOOL_CRUD_CONTROLS_CREATE_LIST : list string :=
  ["^create_[^_]+$"; "create_*"].
Definition AUTOTOOL_CRUD_CONTROLS_READ_LIST : list string :=
  ["^get_[^_]+$"; "get_*"].
Definition AUTOTOOL_CRUD_CONTROLS_UPDATE_LIST : list string :=
  ["^update_[^_]+$"; "update_*"].
Definition AUTOTOOL_CRUD_CONTROLS_DELETE_LIST : list string :=
  ["^delete_[^_]+$"; "delete_*"].

(** [_is_regex_pattern]: the pattern starts with an [r] and a double or a
    single quote, or holds one of the characters of [regex_chars]. *)
Definition regex_chars : string := ".^$*+?{}[]|\()".

Definition r_dquote : string := String "r" (String dquote EmptyString).
Definition r_squote : string := String "r" (String squote EmptyString).

Definition _is_regex_pattern (pattern : string) : bool :=
  startswith pattern r_dquote || startswith pattern r_squote ||
  existsb (fun c => char_in c pattern) (chars regex_chars).

Section Classifier.

(** [re.compile] ([None] when it raises [re.error]) and [Pattern.match]
    (whether the result is a match object).  The engine is taken to raise
    nothing but [re.error]: what a pattern beyond its resource limits makes
    it raise (CPython's [OverflowError] for a repetition count it cannot
    hold, [RecursionError]) is not caught by [compile_patterns]; the
    classifier over an engine that raises it is in [Raising], below. *)
Variable Pattern : Type.
Variable re_compile : string -> option Pattern.
Variable re_match : Pattern -> string -> bool.

(** One entry of [_compiled_patterns]: [{'regex': [...], 'glob': [...]}]. *)
Record CompiledPatterns : Type := {
  regex : list Pattern;
  glob : list string
}.

(** The model's fields, [Optional] as declared, and the private cache, a
    dict keyed by CRUD type that every instance owns. *)
Record CrudControls : Type := {
  create : option bool;
  create_list : option (list string);
  read : option bool;
  read_list : option (list string);
  update : option bool;
  update_list : option (list string);
  delete : option bool;
  delete_list : option (list string);
  _compiled_patterns : list (CrudType * CompiledPatterns)
}.

(** [getattr(self, crud_type, False)] *)
Definition flag (self : CrudControls) (crud_type : CrudType) : option bool :=
  match crud_type with
  | Create => create self
  | Read => read self
  | Update => update self
  | Delete => delete self
  end.

(** [getattr(self, crud_type + '_list', [])] *)
Definition pattern_list (self : CrudControls) (crud_type : CrudType)
  : option (list string) :=
  match crud_type with
  | Create => create_list self
  | Read => read_list self
  | Update => update_list self
  | Delete => delete_list self
  end.

(** Truth value of an [Optional[bool]]: [None] and [False] are falsy. *)
Definition truthy (b : option bool) : bool :=
  match b with
  | Some true => true
  | _ => false
  end.

Definition set_cache (self : CrudControls)
    (cache : list (CrudType * CompiledPatterns)) : CrudControls :=
  {| create := create self; create_list := create_list self;
     read := read self; read_list := read_list self;
     update := update self; update_list := update_list self;
     delete := delete self; delete_list := delete_list self;
     _compiled_patterns := cache |}.

(** [d[k] = v] and [d.get(k, default)] on the cache. *)
Fixpoint cache_set (k : CrudType) (v : CompiledPatterns)
    (d : list (CrudType * CompiledPatterns)) : list (CrudType * CompiledPatterns) :=
  match d with
  | [] => [(k, v)]
  | (k', v') :: d' =>
      if CrudType_eqb k k' then (k, v) :: d' else (k', v') :: cache_set k v d'
  end.

Fixpoint cache_get (k : CrudType) (d : list (CrudType * CompiledPatterns))
    (default : CompiledPatterns) : CompiledPatterns :=
  match d with
  | [] => default
  | (k', v) :: d' => if CrudType_eqb k k' then v else cache_get k d' default
  end.

(** [CrudControls(...)]: [validate_environment] gives every keyword that
    was not passed its module default; a keyword passed as [None] stays
    [None].  An argument is [None] here when the keyword was not passed. *)
Definition or_default {A : Type} (given : option A) (default : A) : A :=
  match given with
  | Some a => a
  | None => default
  end.

Definition CrudControls_new
    (create_kw : option (option bool)) (create_list_kw : option (option (list string)))
    (read_kw : option (option bool)) (read_list_kw : option (option (list string)))
    (update_kw : option (option bool)) (update_list_kw : option (option (list string)))
    (delete_kw : option (option bool)) (delete_list_kw : option (option (list string)))
  : CrudControls :=
  {| create := or_default create_kw (Some AUTOTOOL_CRUD_CONTROLS_CREATE);
     create_list := or_default create_list_kw (Some AUTOTOOL_CRUD_CONTROLS_CREATE_LIST);
     read := or_default read_kw (Some AUTOTOOL_CRUD_CONTROLS_READ);
     read_list := or_default read_list_kw (Some AUTOTOOL_CRUD_CONTROLS_READ_LIST);
     update := or_default update_kw (Some AUTOTOOL_CRUD_CONTROLS_UPDATE);
     update_list := or_default update_list_kw (Some AUTOTOOL_CRUD_CONTROLS_UPDATE_LIST);
     delete := or_default delete_kw (Some AUTOTOOL_CRUD_CONTROLS_DELETE);
     delete_list := or_default delete_list_kw (Some AUTOTOOL_CRUD_CONTROLS_DELETE_LIST);
     _compiled_patterns := [] |}.

(** The text a pattern is compiled from: [pattern[2:-1]] when it starts
    with an [r] and a quote, the pattern itself otherwise. *)
Definition pattern_text (pattern : string) : string :=
  if startswith pattern r_dquote || startswith pattern r_squote
  then slice_2_m1 pattern
  else pattern.

(** One turn of the inner loop of [compile_patterns], on the pair
    [(regex_patterns, glob_patterns)]. *)
Definition compile_pattern (acc : list Pattern * list string) (pattern : string)
  : list Pattern * list string :=
  let (regex_patterns, glob_patterns) := acc in
  if _is_regex_pattern pattern then
    let pattern := pattern_text pattern in
    match re_compile pattern with
    | Some compiled => ((regex_patterns ++ [compiled])%list, glob_patterns)
    | None => (regex_patterns, (glob_patterns ++ [pattern])%list)
    end
  else (regex_patterns, (glob_patterns ++ [pattern])%list).

(** The outer loop of [compile_patterns] over the CRUD types still to do.
    Iterating a list that is [None] raises [TypeError]; the entries stored
    before it stay in the cache. *)
Fixpoint compile_types (types : list CrudType) (self : CrudControls)
  : CrudControls * Outcome unit :=
  match types with
  | [] => (self, Return tt)
  | crud_type :: types' =>
      match pattern_list self crud_type with
      | None => (self, Raise TypeError)
      | Some patterns =>
          let (regex_patterns, glob_patterns) :=
            fold_left compile_pattern patterns ([], []) in
          compile_types types'
            (set_cache self
               (cache_set crud_type
                  {| regex := regex_patterns; glob := glob_patterns |}
                  (_compiled_patterns self)))
      end
  end.

Definition compile_patterns (self : CrudControls) : CrudControls * Outcome unit :=
  compile_types crud_types (set_cache self []).

Definition is_empty {A : Type} (l : list A) : bool :=
  match l with [] => true | _ => false end.

Definition matches_pattern (self : CrudControls) (func_name : string)
    (crud_type : CrudType) : CrudControls * Outcome bool :=
  let (self, compiled) :=
    if is_empty (_compiled_patterns self)
    then compile_patterns self
    else (self, Return tt) in
  match compiled with
  | Raise e => (self, Raise e)
  | Return _ =>
      if negb (truthy (flag self crud_type)) then (self, Return false)
      else
        let patterns :=
          cache_get crud_type (_compiled_patterns self)
            {| regex := []; glob := [] |} in
        if existsb (fun pattern => re_match pattern func_name) (regex patterns)
        then (self, Return true)
        else if existsb (fun pattern => fnmatch func_name pattern) (glob patterns)
        then (self, Return true)
        else (self, Return false)
  end.

End Classifier.

(** ** The client *)

(** An attribute of the wrapped SDK object: its [__doc__] (which may be
    [None]) and, when the attribute is callable, what a call does with its
    positional and keyword arguments. *)
Record Attr : Type := {
  doc : option string;
  call : option (list PyVal -> Kwargs -> Outcome PyVal)
}.

(** The SDK object as reflection sees it: the names [dir] lists, in the
    order it lists them, each with its attribute. *)
Definition SdkObject : Type := list (string * Attr).

Definition dir (sdk : SdkObject) : list string := map fst sdk.

Definition getattr (sdk : SdkObject) (name : string) : Outcome Attr :=
  match lookup name sdk with
  | Some a => Return a
  | None => Raise AttributeError
  end.

Definition callable (a : Attr) : bool :=
  match call a with
  | Some _ => true
  | None => false
  end.

(** The [client] field is typed [Any]; the program reads it as
    [self.client['client']].  It is a dict of SDK objects or something that
    cannot be subscripted. *)
Inductive Client : Type :=
| ClientDict (entries : list (string * SdkObject))
| ClientOther.

(** [client[key]] *)
Definition getitem (client : Client) (key : string) : Outcome SdkObject :=
  match client with
  | ClientDict entries =>
      match lookup key entries with
      | Some sdk => Return sdk
      | None => Raise KeyError
      end
  | ClientOther => Raise TypeError
  end.

(** ** AutoTool *)

Record AutoTool : Type := {
  client : Client;
  name : string;
  description : string
}.

(** [AutoTool(client=..., name=..., description=...)]: the field
    [description] is declared [str], so validation refuses [None]. *)
Definition AutoTool_new (client : Client) (name : string)
    (description : option string) : Outcome AutoTool :=
  match description with
  | Some text => Return {| client := client; name := name; description := text |}
  | None => Raise ValidationError
  end.

Section Adapter.

(** [json.loads] on a string ([None] when it raises [JSONDecodeError]) and
    [json.dumps(_, default=str)], which returns on every value of [PyVal].
    The decoder is taken to raise nothing but [JSONDecodeError]: what a
    text beyond its limits makes it raise ([ValueError] for an integer of
    too many digits, [RecursionError] on text nested too deep) is not caught
    by [_run]; the adapter over a decoder that raises it is in [Raising],
    below. *)
Variable json_loads : string -> option PyVal.
Variable json_dumps : PyVal -> string.

(** The first statement of [_run]: [params] from [tool_input]. *)
Definition load_params (tool_input : PyVal) : PyVal :=
  match tool_input with
  | PyDict _ => tool_input
  | PyStr text =>
      match json_loads text with
      | Some decoded => decoded
      | None => PyDict []
      end
  | _ => PyDict []
  end.

(** [func( *args, **params, **kwargs)]: unpacking something that is not a
    mapping, or a keyword that both mappings hold, raises [TypeError]
    before the call; so does calling what is not callable. *)
Definition call_member (func : Attr) (args : list PyVal) (params : PyVal)
    (kwargs : Kwargs) : Outcome PyVal :=
  match params with
  | PyDict entries =>
      if existsb (fun kv => has_key (fst kv) entries) kwargs
      then Raise TypeError
      else
        match call func with
        | Some body => body args (entries ++ kwargs)%list
        | None => Raise TypeError
        end
  | _ => Raise TypeError
  end.

(** The result before serialization: a dict as it is; an iterable that is
    not a str or bytes through [list(result)], which raises what the
    iterator raises; anything else as it is. *)
Definition normalize_result (result : PyVal) : Outcome PyVal :=
  match result with
  | PyDict _ => Return result
  | PyList items => Return (PyList items)
  | PyTuple items => Return (PyList items)
  | PyIter _ produced None => Return (PyList produced)
  | PyIter _ _ (Some e) => Raise e
  | _ => Return result
  end.

(** [run_manager] is accepted and never read; it is left out. *)
Definition _run (self : AutoTool) (tool_input : PyVal) (args : list PyVal)
    (kwargs : Kwargs) : Outcome string :=
  try_except_AttributeError
    (let params := load_params tool_input in
     sdk <- getitem (client self) "client" ;;
     func <- getattr sdk (name self) ;;
     result <- call_member func args params kwargs ;;
     result <- normalize_result result ;;
     Return (json_dumps result))
    (Return ("Invalid function name: " ++ name self)).

Definition _arun (self : AutoTool) (tool_input : PyVal) (args : list PyVal)
    (kwargs : Kwargs) : Outcome string :=
  _run self tool_input args kwargs.

End Adapter.

(** ** AutoToolWrapper *)

Section Builder.

Variable Pattern : Type.
Variable re_compile : string -> option Pattern.
Variable re_match : Pattern -> string -> bool.

Record AutoToolWrapper : Type := {
  wrapper_client : Client;
  operations : list AutoTool;
  crud_controls : CrudControls Pattern
}.

(** [any(self.crud_controls.matches_pattern(func_name, crud_type) for
    crud_type in ...)]: it stops at the first [True]. *)
Fixpoint any_matches (controls : CrudControls Pattern) (func_name : string)
    (types : list CrudType) : CrudControls Pattern * Outcome bool :=
  match types with
  | [] => (controls, Return false)
  | crud_type :: types' =>
      let (controls', matched) :=
        matches_pattern re_compile re_match controls func_name crud_type in
      match matched with
      | Raise e => (controls', Raise e)
      | Return true => (controls', Return true)
      | Return false => any_matches controls' func_name types'
      end
  end.

(** The names of [dir] that are callable and do not start with an
    underscore.  A name [dir] lists is always found by [getattr]. *)
Definition sdk_functions (sdk : SdkObject) : list string :=
  filter
    (fun func =>
       match getattr sdk func with
       | Return a => callable a
       | Raise _ => false
       end && negb (startswith func "_"))
    (dir sdk).

(** The loop of [_build_operations]: the tool is constructed first, then
    the name is classified. *)
Fixpoint build_loop (client : Client) (sdk : SdkObject) (names : list string)
    (controls : CrudControls Pattern) (operations : list AutoTool)
  : CrudControls Pattern * Outcome (list AutoTool) :=
  match names with
  | [] => (controls, Return operations)
  | func_name :: names' =>
      match getattr sdk func_name with
      | Raise e => (controls, Raise e)
      | Return func =>
          match AutoTool_new client func_name (doc func) with
          | Raise e => (controls, Raise e)
          | Return operation =>
              let (controls', should_add) :=
                any_matches controls func_name crud_types in
              match should_add with
              | Raise e => (controls', Raise e)
              | Return true =>
                  build_loop client sdk names' controls'
                    (operations ++ [operation])%list
              | Return false =>
                  build_loop client sdk names' controls' operations
              end
          end
      end
  end.

Definition _build_operations (client : Client) (controls : CrudControls Pattern)
  : CrudControls Pattern * Outcome (list AutoTool) :=
  match getitem client "client" with
  | Raise e => (controls, Raise e)
  | Return sdk => build_loop client sdk (sdk_functions sdk) controls []
  end.

(** [AutoToolWrapper(client=..., crud_controls=...)]; without the keyword
    [crud_controls] the field is a [CrudControls()] of its own. *)
Definition AutoToolWrapper_init (client : Client)
    (crud_controls_kw : option (CrudControls Pattern)) : Outcome AutoToolWrapper :=
  let controls :=
    or_default crud_controls_kw
      (CrudControls_new Pattern None None None None None None None None) in
  let (controls', built) := _build_operations client controls in
  operations <- built ;;
  Return {| wrapper_client := client;
            operations := operations;
            crud_controls := controls' |}.

Definition get_tools (self : AutoToolWrapper) : list AutoTool := operations self.

End Builder.

(** ** A reference JSON codec *)

(** The behaviour of Python's [json] module on the values of [PyVal]:
    [dumps] is [json.dumps(_, default=str)] with its default separators and
    ASCII escaping, [loads] is [json.loads] on text whose numbers are
    integers and whose escapes stay below U+0100 (what a [string] can hold);
    [loads] gives [None] on any other text.  The theorems do not depend on
    this codec; it runs the adapter on closed inputs. *)
Module PyJson.

Definition hex_digit (n : nat) : ascii :=
  if Nat.ltb n 10 then ascii_of_nat (48 + n) else ascii_of_nat (87 + n).

Definition hex2 (n : nat) : string :=
  String (hex_digit (n / 16)) (String (hex_digit (n mod 16)) EmptyString).

(** One character of a JSON string, as [ensure_ascii] writes it. *)
Definition escape_char (c : ascii) : string :=
  let n := nat_of_ascii c in
  if Ascii.eqb c dquote then String "\" (String dquote EmptyString)
  else if Ascii.eqb c "\" then "\\"
  else if Nat.eqb n 10 then "\n"
  else if Nat.eqb n 13 then "\r"
  else if Nat.eqb n 9 then "\t"
  else if Nat.eqb n 8 then "\b"
  else if Nat.eqb n 12 then "\f"
  else if Nat.ltb n 32 || Nat.ltb 126 n then "\u00" ++ hex2 n
  else String c EmptyString.

Definition encode_string (s : string) : string :=
  String dquote (String.concat EmptyString (map escape_char (chars s)))
    ++ String dquote EmptyString.

(** [str(b)] for a bytes object [b]. *)
Definition bytes_repr (b : string) : string :=
  let quote :=
    if char_in squote b && negb (char_in dquote b) then dquote else squote in
  let escape (c : ascii) : string :=
    let n := nat_of_ascii c in
    if Ascii.eqb c quote || Ascii.eqb c "\" then String "\" (String c EmptyString)
    else if Nat.eqb n 9 then "\t"
    else if Nat.eqb n 10 then "\n"
    else if Nat.eqb n 13 then "\r"
    else if Nat.ltb n 32 || Nat.ltb 126 n then "\x" ++ hex2 n
    else String c EmptyString in
  String "b" (String quote (String.concat EmptyString (map escape (chars b))))
    ++ String quote EmptyString.

Definition int_text (z : Z) : string := NilZero.string_of_int (Z.to_int z).

Fixpoint dumps (v : PyVal) : string :=
  match v with
  | PyNone => "null"
  | PyBool true => "true"
  | PyBool false => "false"
  | PyInt z => int_text z
  | PyStr s => encode_string s
  | PyBytes b => encode_string (bytes_repr b)
  | PyList items => "[" ++ String.concat ", " (map dumps items) ++ "]"
  | PyTuple items => "[" ++ String.concat ", " (map dumps items) ++ "]"
  | PyDict entries =>
      "{" ++ String.concat ", "
               (map (fun kv => encode_string (fst kv) ++ ": " ++ dumps (snd kv))
                    entries)
          ++ "}"
  | PyIter repr _ _ => encode_string repr
  | PyObj repr => encode_string repr
  end.

Definition is_ws (c : ascii) : bool :=
  let n := nat_of_ascii c in
  Nat.eqb n 32 || Nat.eqb n 9 || Nat.eqb n 10 || Nat.eqb n 13.

Fixpoint skip_ws (s : list ascii) : list ascii :=
  match s with
  | c :: s' => if is_ws c then skip_ws s' else s
  | [] => []
  end.

Definition digit_value (c : ascii) : option nat :=
  let n := nat_of_ascii c in
  if Nat.leb 48 n && Nat.leb n 57 then Some (n - 48) else None.

Definition hex_value (c : ascii) : option nat :=
  let n := nat_of_ascii c in
  if Nat.leb 48 n && Nat.leb n 57 then Some (n - 48)
  else if Nat.leb 97 n && Nat.leb n 102 then Some (n - 87)
  else if Nat.leb 65 n && Nat.leb n 70 then Some (n - 55)
  else None.

(** The digits at the head of [s], most significant first. *)
Fixpoint read_digits (s : list ascii) : Decimal.uint * list ascii :=
  match s with
  | c :: s' =>
      let more (digit : Decimal.uint -> Decimal.uint) :=
        let (d, rest) := read_digits s' in (digit d, rest) in
      match digit_value c with
      | Some 0 => more Decimal.D0
      | Some 1 => more Decimal.D1
      | Some 2 => more Decimal.D2
      | Some 3 => more Decimal.D3
      | Some 4 => more Decimal.D4
      | Some 5 => more Decimal.D5
      | Some 6 => more Decimal.D6
      | Some 7 => more Decimal.D7
      | Some 8 => more Decimal.D8
      | Some _ => more Decimal.D9
      | None => (Decimal.Nil, s)
      end
  | [] => (Decimal.Nil, s)
  end.

(** An integer without its sign: [0] or a run of digits that does not
    start with [0].  A fraction or an exponent after it makes a float. *)
Definition read_natural (s : list ascii) : option (Z * list ascii) :=
  match s with
  | c :: s' =>
      match digit_value c with
      | Some d =>
          let (z, rest) :=
            if Nat.eqb d 0 then (0%Z, s')
            else let (digits, rest) := read_digits s in (Z.of_uint digits, rest) in
          match rest with
          | c' :: _ =>
              if Ascii.eqb c' "." || Ascii.eqb c' "e" || Ascii.eqb c' "E"
              then None else Some (z, rest)
          | [] => Some (z, rest)
          end
      | None => None
      end
  | [] => None
  end.

(** The body of a string after its opening quote, up to the closing one. *)
Fixpoint read_string (s : list ascii) : option (list ascii * list ascii) :=
  let cons (c : ascii) (r : option (list ascii * list ascii)) :=
    match r with
    | Some (body, rest) => Some (c :: body, rest)
    | None => None
    end in
  match s with
  | [] => None
  | c :: s' =>
      if Ascii.eqb c dquote then Some ([], s')
      else if Ascii.eqb c "\" then
        match s' with
        | e :: s'' =>
            if Ascii.eqb e dquote then cons dquote (read_string s'')
            else if Ascii.eqb e "\" then cons "\"%char (read_string s'')
            else if Ascii.eqb e "/" then cons "/"%char (read_string s'')
            else if Ascii.eqb e "b" then cons (ascii_of_nat 8) (read_string s'')
            else if Ascii.eqb e "f" then cons (ascii_of_nat 12) (read_string s'')
            else if Ascii.eqb e "n" then cons (ascii_of_nat 10) (read_string s'')
            else if Ascii.eqb e "r" then cons (ascii_of_nat 13) (read_string s'')
            else if Ascii.eqb e "t" then cons (ascii_of_nat 9) (read_string s'')
            else if Ascii.eqb e "u" then
              match s'' with
              | h1 :: h2 :: h3 :: h4 :: s3 =>
                  match hex_value h1, hex_value h2, hex_value h3, hex_value h4 with
                  | Some 0, Some 0, Some a, Some b =>
                      cons (ascii_of_nat (16 * a + b)) (read_string s3)
                  | _, _, _, _ => None
                  end
              | _ => None
              end
            else None
        | [] => None
        end
      else if Nat.ltb (nat_of_ascii c) 32 then None
      else cons c (read_string s')
  end.

(** [d[k] = v] while a JSON object is read. *)
Fixpoint dict_put (k : string) (v : PyVal) (d : list (string * PyVal))
  : list (string * PyVal) :=
  match d with
  | [] => [(k, v)]
  | (k', v') :: d' =>
      if String.eqb k k' then (k, v) :: d' else (k', v') :: dict_put k v d'
  end.

(** A value at the head of [s]; the elements of an array after its
    opening bracket; the members of an object after its opening brace. *)
Fixpoint read_value (fuel : nat) (s : list ascii) {struct fuel}
  : option (PyVal * list ascii) :=
  match fuel with
  | O => None
  | S fuel' =>
      match s with
      | "{"%char :: s' =>
          match skip_ws s' with
          | c :: rest =>
              if Ascii.eqb c "}" then Some (PyDict [], rest)
              else read_members fuel' (c :: rest) []
          | [] => None
          end
      | "["%char :: s' =>
          match skip_ws s' with
          | c :: rest =>
              if Ascii.eqb c "]" then Some (PyList [], rest)
              else read_items fuel' (c :: rest) []
          | [] => None
          end
      | "n"%char :: "u"%char :: "l"%char :: "l"%char :: rest =>
          Some (PyNone, rest)
      | "t"%char :: "r"%char :: "u"%char :: "e"%char :: rest =>
          Some (PyBool true, rest)
      | "f"%char :: "a"%char :: "l"%char :: "s"%char :: "e"%char :: rest =>
          Some (PyBool false, rest)
      | "-"%char :: s' =>
          match read_natural s' with
          | Some (z, rest) => Some (PyInt (- z), rest)
          | None => None
          end
      | c :: s' =>
          if Ascii.eqb c dquote then
            match read_string s' with
            | Some (body, rest) => Some (PyStr (of_chars body), rest)
            | None => None
            end
          else
            match read_natural s with
            | Some (z, rest) => Some (PyInt z, rest)
            | None => None
            end
      | [] => None
      end
  end

with read_items (fuel : nat) (s : list ascii) (acc : list PyVal) {struct fuel}
  : option (PyVal * list ascii) :=
  match fuel with
  | O => None
  | S fuel' =>
      match read_value fuel' s with
      | Some (v, rest) =>
          match skip_ws rest with
          | ","%char :: rest' => read_items fuel' (skip_ws rest') (acc ++ [v])%list
          | "]"%char :: rest' => Some (PyList (acc ++ [v])%list, rest')
          | _ => None
          end
      | None => None
      end
  end

with read_members (fuel : nat) (s : list ascii) (acc : list (string * PyVal))
    {struct fuel} : option (PyVal * list ascii) :=
  match fuel with
  | O => None
  | S fuel' =>
      match s with
      | c :: s' =>
          if Ascii.eqb c dquote then
            match read_string s' with
            | Some (key, s1) =>
                match skip_ws s1 with
                | ":"%char :: s2 =>
                    match read_value fuel' (skip_ws s2) with
                    | Some (v, rest) =>
                        let acc' := dict_put (of_chars key) v acc in
                        match skip_ws rest with
                        | ","%char :: rest' => read_members fuel' (skip_ws rest') acc'
                        | "}"%char :: rest' => Some (PyDict acc', rest')
                        | _ => None
                        end
                    | None => None
                    end
                | _ => None
                end
            | None => None
            end
          else None
      | [] => None
      end
  end.

Definition loads (text : string) : option PyVal :=
  let s := skip_ws (chars text) in
  match read_value (2 * List.length s + 2) s with
  | Some (v, rest) =>
      match skip_ws rest with
      | [] => Some v
      | _ => None
      end
  | None => None
  end.

End PyJson.

(** The values JSON holds as they are: [None], booleans, integers,
    strings, lists, and dicts whose keys are all different. *)
Fixpoint unique_keys (keys : list string) : bool :=
  match keys with
  | [] => true
  | k :: keys' => negb (existsb (String.eqb k) keys') && unique_keys keys'
  end.

Fixpoint json_native (v : PyVal) : bool :=
  match v with
  | PyNone => true
  | PyBool _ => true
  | PyInt _ => true
  | PyStr _ => true
  | PyList items => forallb json_native items
  | PyDict entries =>
      unique_keys (map fst entries) &&
      forallb (fun kv => json_native (snd kv)) entries
  | _ => false
  end.

(** What may follow a value: the end of the text, or the comma, bracket or
    brace of the container it stands in. *)
Definition delimited (rest : list ascii) : bool :=
  match rest with
  | [] => true
  | c :: _ => Ascii.eqb c "," || Ascii.eqb c "]" || Ascii.eqb c "}"
  end.

(** The number of values written for a value: one for what is written
    as a scalar, one more than those of its elements for a container. *)
Fixpoint nodes (v : PyVal) : nat :=
  match v with
  | PyList items => S (list_sum (map nodes items))
  | PyTuple items => S (list_sum (map nodes items))
  | PyDict entries => S (list_sum (map (fun kv => nodes (snd kv)) entries))
  | _ => 1
  end.

(** What it is for a value to be read back from its text: with fuel for
    twice its number of values, before any delimiter. *)
Definition reads_back (v : PyVal) : Prop :=
  json_native v = true ->
  forall fuel rest, 2 * nodes v <= fuel -> delimited rest = true ->
  PyJson.read_value fuel (chars (PyJson.dumps v) ++ rest)%list = Some (v, rest).

(** ** A reference regular expression engine *)

(** The behaviour of Python's [re] on the part of its syntax the Rule Sets
    of the program and of its tests are written in: literal characters,
    [.], [^], [$], sets with ranges and negation, groups, [|], and the
    quantifiers [*], [+] and [?] (greedy or lazy, which accept the same
    names).  [compile] gives [None] where [re.compile] raises [re.error]:
    nothing to repeat, a repeated quantifier, a parenthesis or a set left
    open, a range that runs backwards.  A pattern with a backslash, an
    opening brace, a possessive quantifier or a [(?...)] group is outside
    this part of the syntax: [compile] gives [None] on it as well.  The
    theorems do not depend on this engine; it runs the classifier on closed
    inputs. *)
Module PyRe.

Inductive Regex : Type :=
| REmpty
| RChar (c : ascii)
| RAny
| RSet (negated : bool) (items : list (ascii * ascii))
| RBol
| REol
| RSeq (a b : Regex)
| RAlt (a b : Regex)
| ROpt (a : Regex)
| RStar (a : Regex).

Definition is_anchor (r : Regex) : bool :=
  match r with
  | RBol | REol => true
  | _ => false
  end.

(** The items of a set after its opening bracket and optional [^];
    [first] holds until an item has been read, when [] ] is an item. *)
Fixpoint read_set_items (s : list ascii) (first : bool)
  : option (list (ascii * ascii) * list ascii) :=
  let cons (item : ascii * ascii) (r : option (list (ascii * ascii) * list ascii)) :=
    match r with
    | Some (items, rest) => Some (item :: items, rest)
    | None => None
    end in
  match s with
  | [] => None
  | c :: s' =>
      if Ascii.eqb c "]" && negb first then Some ([], s')
      else if Ascii.eqb c "\" then None
      else
        match s' with
        | "-"%char :: that :: s'' =>
            if Ascii.eqb that "]" then Some ([(c, c); ("-"%char, "-"%char)], s'')
            else if Ascii.eqb that "\" then None
            else if Nat.ltb (nat_of_ascii that) (nat_of_ascii c) then None
            else cons (c, that) (read_set_items s'' false)
        | "-"%char :: [] => None
        | _ => cons (c, c) (read_set_items s' false)
        end
  end.

Definition read_set (s : list ascii) : option (Regex * list ascii) :=
  let (negated, s1) :=
    match s with
    | "^"%char :: s' => (true, s')
    | _ => (false, s)
    end in
  match read_set_items s1 true with
  | Some (items, rest) => Some (RSet negated items, rest)
  | None => None
  end.

(** A [?] after a quantifier makes it lazy. *)
Definition drop_lazy (s : list ascii) : list ascii :=
  match s with
  | "?"%char :: s' => s'
  | _ => s
  end.

(** The quantifier after the item [r], if there is one. *)
Definition read_quantifier (r : Regex) (s : list ascii)
  : option (Regex * list ascii) :=
  match s with
  | "*"%char :: s' =>
      if is_anchor r then None else Some (RStar r, drop_lazy s')
  | "+"%char :: s' =>
      if is_anchor r then None else Some (RSeq r (RStar r), drop_lazy s')
  | "?"%char :: s' =>
      if is_anchor r then None else Some (ROpt r, drop_lazy s')
  | _ => Some (r, s)
  end.

Fixpoint read_alt (fuel : nat) (s : list ascii) {struct fuel}
  : option (Regex * list ascii) :=
  match fuel with
  | O => None
  | S fuel' =>
      match read_seq fuel' s with
      | Some (r, "|"%char :: s') =>
          match read_alt fuel' s' with
          | Some (r', rest) => Some (RAlt r r', rest)
          | None => None
          end
      | other => other
      end
  end

with read_seq (fuel : nat) (s : list ascii) {struct fuel}
  : option (Regex * list ascii) :=
  match fuel with
  | O => None
  | S fuel' =>
      match s with
      | [] => Some (REmpty, s)
      | "|"%char :: _ => Some (REmpty, s)
      | ")"%char :: _ => Some (REmpty, s)
      | _ =>
          match read_atom fuel' s with
          | Some (a, s1) =>
              match read_quantifier a s1 with
              | Some (item, s2) =>
                  match read_seq fuel' s2 with
                  | Some (r, rest) => Some (RSeq item r, rest)
                  | None => None
                  end
              | None => None
              end
          | None => None
          end
      end
  end

with read_atom (fuel : nat) (s : list ascii) {struct fuel}
  : option (Regex * list ascii) :=
  match fuel with
  | O => None
  | S fuel' =>
      match s with
      | [] => None
      | "("%char :: "?"%char :: _ => None
      | "("%char :: s' =>
          match read_alt fuel' s' with
          | Some (r, ")"%char :: rest) => Some (r, rest)
          | _ => None
          end
      | "["%char :: s' => read_set s'
      | "."%char :: s' => Some (RAny, s')
      | "^"%char :: s' => Some (RBol, s')
      | "$"%char :: s' => Some (REol, s')
      | "*"%char :: _ => None
      | "+"%char :: _ => None
      | "?"%char :: _ => None
      | "{"%char :: _ => None
      | "\"%char :: _ => None
      | c :: s' => Some (RChar c, s')
      end
  end.

Definition compile (pattern : string) : option Regex :=
  let s := chars pattern in
  match read_alt (3 * List.length s + 3) s with
  | Some (r, []) => Some r
  | _ => None
  end.

Definition newline : ascii := ascii_of_nat 10.

(** Whether [r] matches at the head of [s] with the continuation [k] on
    what is left; [at_start] holds while nothing has been consumed. *)
Fixpoint run (r : Regex) (at_start : bool) (s : list ascii)
    (k : bool -> list ascii -> bool) : bool :=
  match r with
  | REmpty => k at_start s
  | RChar c =>
      match s with
      | x :: s' => Ascii.eqb x c && k false s'
      | [] => false
      end
  | RAny =>
      match s with
      | x :: s' => negb (Ascii.eqb x newline) && k false s'
      | [] => false
      end
  | RSet negated items =>
      match s with
      | x :: s' => xorb negated (existsb (in_range x) items) && k false s'
      | [] => false
      end
  | RBol => at_start && k at_start s
  | REol =>
      match s with
      | [] => k at_start s
      | [x] => Ascii.eqb x newline && k at_start s
      | _ => false
      end
  | RSeq a b => run a at_start s (fun at_start' s' => run b at_start' s' k)
  | RAlt a b => run a at_start s k || run b at_start s k
  | ROpt a => run a at_start s k || k at_start s
  | RStar a =>
      (fix loop (n : nat) (at_start : bool) (s : list ascii) : bool :=
         match n with
         | O => k at_start s
         | S n' =>
             run a at_start s
               (fun at_start' s' =>
                  Nat.ltb (List.length s') (List.length s) && loop n' at_start' s')
             || k at_start s
         end) (List.length s) at_start s
  end.

(** [pattern.match(text)] as a truth value. *)
Definition matches (r : Regex) (text : string) : bool :=
  run r true (chars text) (fun _ _ => true).

End PyRe.

(** ** The classifier's contract *)

Section Contract.

Variable Pattern : Type.
Variable re_compile : string -> option Pattern.
Variable re_match : Pattern -> string -> bool.

(** What one pattern of a Rule Set says about a name: a pattern sniffed
    as a regex is matched as a regex when its text compiles and as a glob
    when it does not; any other pattern is matched as a glob. *)
Definition pattern_approves (name pattern : string) : bool :=
  if _is_regex_pattern pattern then
    match re_compile (pattern_text pattern) with
    | Some compiled => re_match compiled name
    | None => fnmatch name (pattern_text pattern)
    end
  else fnmatch name pattern.

(** The two lists [compile_patterns] stores for a pattern list. *)
Definition regex_part (patterns : list string) : list Pattern :=
  flat_map
    (fun pattern =>
       if _is_regex_pattern pattern then
         match re_compile (pattern_text pattern) with
         | Some compiled => [compiled]
         | None => []
         end
       else [])
    patterns.

Definition glob_part (patterns : list string) : list string :=
  flat_map
    (fun pattern =>
       if _is_regex_pattern pattern then
         match re_compile (pattern_text pattern) with
         | Some _ => []
         | None => [pattern_text pattern]
         end
       else [pattern])
    patterns.

Definition compiled_of (patterns : list string) : CompiledPatterns Pattern :=
  {| regex := regex_part patterns; glob := glob_part patterns |}.

(** [approved(name, bucket)]: the bucket is enabled and some pattern of
    its list approves the name. *)
Definition approved (self : CrudControls Pattern) (name : string)
    (crud_type : CrudType) : bool :=
  truthy (flag self crud_type) &&
  match pattern_list self crud_type with
  | Some patterns => existsb (pattern_approves name) patterns
  | None => false
  end.

(** Every bucket has a pattern list (none of the four is [None]). *)
Definition lists_present (self : CrudControls Pattern) : bool :=
  match create_list self, read_list self, update_list self, delete_list self with
  | Some _, Some _, Some _, Some _ => true
  | _, _, _, _ => false
  end.

(** The classifier after [compile_patterns]. *)
Definition synced (self : CrudControls Pattern) : CrudControls Pattern :=
  fst (compile_patterns re_compile self).

(** The cache is empty (nothing was compiled yet) or it is the one
    [compile_patterns] derives from the Rule Sets as they are. *)
Definition in_sync (self : CrudControls Pattern) : Prop :=
  _compiled_patterns self = [] \/ self = synced self.

(** The states the classifier goes through while one wrapper is built:
    the one it was given and the compiled one. *)
Definition visited (self current : CrudControls Pattern) : Prop :=
  current = self \/ current = synced self.

End Contract.

(** The loop of [_build_operations] over a classifier given as a function
    of the name: the tool of each name is constructed, then kept when the
    name is approved. *)
Fixpoint build_with (approve : string -> bool) (client : Client) (sdk : SdkObject)
    (names : list string) (operations : list AutoTool) : Outcome (list AutoTool) :=
  match names with
  | [] => Return operations
  | func_name :: names' =>
      func <- getattr sdk func_name ;;
      operation <- AutoTool_new client func_name (doc func) ;;
      build_with approve client sdk names'
        (if approve func_name then (operations ++ [operation])%list else operations)
  end.

(** The tool of a member that has documentation text. *)
Definition tool_of (client : Client) (sdk : SdkObject) (func_name : string)
  : list AutoTool :=
  match lookup func_name sdk with
  | Some func =>
      match doc func with
      | Some text =>
          [{| client := client; name := func_name; description := text |}]
      | None => []
      end
  | None => []
  end.

(** A member that has documentation text and one that has none. *)
Definition documented (sdk : SdkObject) (func_name : string) : Prop :=
  exists func text, lookup func_name sdk = Some func /\ doc func = Some text.


(** A client is reflectable when it holds, under the key ['client'], an
    object with at least one callable member whose name has no leading
    underscore. *)
Definition reflectable (client : Client) : Prop :=
  exists sdk, getitem client "client" = Return sdk /\ sdk_functions sdk <> [].

(** The error class the specification names for a client that is not
    reflectable; the program defines no such class. *)
Definition ConfigurationError : ExnClass := OtherError "ConfigurationError".

(** Whether a keyword of [kwargs] is also a key of [entries]. *)
Definition collide (entries : list (string * PyVal)) (kwargs : Kwargs) : bool :=
  existsb (fun kv => has_key (fst kv) entries) kwargs.

(** ** The SDK of the unit tests *)

Module FakeSdk.

Definition _dummy_return (thing_id : PyVal) : PyVal :=
  PyDict [("status", PyInt 200); ("response", PyDict [("id", thing_id)])].

(** Binding of the arguments of a call to the parameters [params] of a
    method (after [self]); a missing, repeated or unknown argument raises
    [TypeError]. *)
Fixpoint bind_positional (params : list string) (args : list PyVal)
  : option (list (string * PyVal) * list string) :=
  match args, params with
  | [], _ => Some ([], params)
  | _ :: _, [] => None
  | v :: args', p :: params' =>
      match bind_positional params' args' with
      | Some (bound, free) => Some ((p, v) :: bound, free)
      | None => None
      end
  end.

Definition bind_arguments (params : list string) (args : list PyVal)
    (kwargs : Kwargs) : Outcome (list (string * PyVal)) :=
  match bind_positional params args with
  | Some (bound, free) =>
      if forallb (fun p => has_key p kwargs) free &&
         forallb (fun kv => existsb (String.eqb (fst kv)) free) kwargs
      then Return (bound ++ kwargs)%list
      else Raise TypeError
  | None => Raise TypeError
  end.

Definition method (text : string) (params : list string)
    (body : list (string * PyVal) -> PyVal) : Attr :=
  {| doc := Some text;
     call := Some (fun args kwargs =>
                     bound <- bind_arguments params args kwargs ;;
                     Return (body bound)) |}.

Definition argument (bound : list (string * PyVal)) (p : string) : PyVal :=
  match lookup p bound with
  | Some v => v
  | None => PyNone
  end.

Definition thing_method (text : string) : Attr :=
  method text ["thing_id"] (fun bound => _dummy_return (argument bound "thing_id")).

Definition as_int (v : PyVal) : option Z :=
  match v with
  | PyInt z => Some z
  | PyBool true => Some 1%Z
  | PyBool false => Some 0%Z
  | _ => None
  end.

(** The generator of [get_things_generator]: [range(count)] and
    [start_id + i] raise [TypeError] on what is not an integer, when the
    generator is first advanced. *)
Definition things_generator (bound : list (string * PyVal)) : PyVal :=
  let repr := "<generator object FakeSdk.get_things_generator>" in
  match as_int (argument bound "count") with
  | None => PyIter repr [] (Some TypeError)
  | Some count =>
      if Z.leb count 0 then PyIter repr [] None
      else
        match as_int (argument bound "start_id") with
        | None => PyIter repr [] (Some TypeError)
        | Some start_id =>
            PyIter repr
              (map (fun i => _dummy_return (PyInt (start_id + Z.of_nat i)))
                   (seq 0 (Z.to_nat count)))
              None
        end
  end.

(** The public and private members in the order of [dir]; of the names
    every object inherits only three are listed. *)
Definition sdk : SdkObject :=
  [ ("__class__",
      {| doc := None;
         call := Some (fun args kwargs =>
                         match args, kwargs with
                         | [], [] => Return (PyObj "<FakeSdk object>")
                         | _, _ => Raise TypeError
                         end) |});
    ("__dict__", {| doc := Some "dict() -> new empty dictionary"; call := None |});
    ("__doc__", {| doc := None; call := None |});
    ("_dummy_return",
      method "Hidden, never called directly. Does Things" ["thing_id"]
        (fun bound => _dummy_return (argument bound "thing_id")));
    ("confabulate_thing", thing_method "Confabulates Thing -- example of custom verbs");
    ("create_thing", thing_method "Creates Thing");
    ("delete_thing", thing_method "Deletes Thing");
    ("get_thing", thing_method "Gets Thing");
    ("get_things", method "Gets Thing" [] (fun _ => _dummy_return (PyInt 123)));
    ("get_things_generator",
      method "Generates multiple Things" ["start_id"; "count"] things_generator);
    ("post_thing", thing_method "Posts Thing");
    ("put_thing", thing_method "Puts Thing");
    ("update_thing", thing_method "Updates Thing") ].

Definition client : Client := ClientDict [("client", sdk)].

End FakeSdk.

(** ** The objects of the unit tests *)

Module UnitTests.

Abbreviation Regex := PyRe.Regex.

(** [CrudControls(read=True, create=True, update=True, update_list=[...],
    delete=True)] *)
Definition crud_controls : CrudControls Regex :=
  CrudControls_new Regex
    (Some (Some true)) None
    (Some (Some true)) None
    (Some (Some true)) (Some (Some ["put_thing"; "post_thing"; "update_thing"]))
    (Some (Some true)) None.

(** [CrudControls(read=True, read_list=['get_thing'], create=False,
    update=False, delete=False)] *)
Definition list_crud_controls : CrudControls Regex :=
  CrudControls_new Regex
    (Some (Some false)) None
    (Some (Some true)) (Some (Some ["get_thing"]))
    (Some (Some false)) None
    (Some (Some false)) None.

(** [CrudControls()] *)
Definition default_controls : CrudControls Regex :=
  CrudControls_new Regex None None None None None None None None.

(** The tool of a member of [FakeSdk]. *)
Definition tool (func_name text : string) : AutoTool :=
  {| client := FakeSdk.client; name := func_name; description := text |}.

(** The text of a JSON object with integer members. *)
Definition quoted (s : string) : string :=
  String dquote s ++ String dquote EmptyString.

Definition json_object (members : list (string * Z)) : string :=
  "{" ++ String.concat ", "
           (map (fun kv => quoted (fst kv) ++ ": " ++ PyJson.int_text (snd kv)) members)
      ++ "}".

End UnitTests.

(** [object()] as reflection sees it: the names every object inherits, of
    which three are listed; none is public. *)
Definition plain_object : SdkObject :=
  [ ("__class__",
      {| doc := Some "The base class of the class hierarchy.";
         call := Some (fun args kwargs =>
                         match args, kwargs with
                         | [], [] => Return (PyObj "<object object>")
                         | _, _ => Raise TypeError
                         end) |});
    ("__doc__", {| doc := Some "str(object='') -> str"; call := None |});
    ("__init__",
      {| doc := Some "Initialize self.  See help(type(self)) for accurate signature.";
         call := Some (fun _ _ => Return PyNone) |}) ].

(** A member whose body raises, and an SDK object whose [get_thing] is
    such a member or has no documentation text. *)
Definition raising_member (e : ExnClass) : Attr :=
  {| doc := Some "Gets Thing"; call := Some (fun _ _ => Raise e) |}.

Definition raising_client (e : ExnClass) : Client :=
  ClientDict [("client", [("get_thing", raising_member e)])].


(** The Operation Set a construction gives, or the exception it raises. *)
Definition built_operations {Pattern : Type}
    (built : Outcome (AutoToolWrapper Pattern)) : Outcome (list AutoTool) :=
  wrapper <- built ;; Return (operations wrapper).

(** ** The word-list variant: utilities.py *)

(** Three methods of [str], on strings of code points below U+0100:
    [s.lower()], [needle in hay] and [s.split(sep)] for a separator of one
    character. *)
Definition lower_char (c : ascii) : ascii :=
  let n := nat_of_ascii c in
  if (Nat.leb 65 n && Nat.leb n 90) ||
     (Nat.leb 192 n && Nat.leb n 222 && negb (Nat.eqb n 215))
  then ascii_of_nat (n + 32)
  else c.

Fixpoint lower (s : string) : string :=
  match s with
  | EmptyString => EmptyString
  | String c s' => String (lower_char c) (lower s')
  end.

Fixpoint contains (needle hay : string) : bool :=
  String.prefix needle hay ||
  match hay with
  | EmptyString => false
  | String _ hay' => contains needle hay'
  end.

Fixpoint split (sep : ascii) (s : string) : list string :=
  match s with
  | EmptyString => [EmptyString]
  | String c s' =>
      if Ascii.eqb c sep then EmptyString :: split sep s'
      else
        match split sep s' with
        | word :: words => String c word :: words
        | [] => [String c EmptyString]
        end
  end.

(** [langchain_autotools/utilities.py]: the variant of the classifier and
    of the wrapper that looks for words in the member names.  Its tool class
    is imported from a module [tool] that the sources do not hold, so the
    constructor of the tool is a parameter of the wrapper. *)
Module Utilities.

Definition AUTOTOOL_CRUD_CONTROLS_CREATE : bool := false.
Definition AUTOTOOL_CRUD_CONTROLS_READ : bool := true.
Definition AUTOTOOL_CRUD_CONTROLS_UPDATE : bool := false.
Definition AUTOTOOL_CRUD_CONTROLS_DELETE : bool := false.

Definition AUTOTOOL_CRUD_CONTROLS_CREATE_LIST : string := "create".
Definition AUTOTOOL_CRUD_CONTROLS_READ_LIST : string := "get,read,list".
Definition AUTOTOOL_CRUD_CONTROLS_UPDATE_LIST : string := "update,put,post".
Definition AUTOTOOL_CRUD_CONTROLS_DELETE_LIST : string := "delete,destroy,remove".

(** The fields after validation: the validator replaces the text of each
    list by the list of its words.  A list can be [None] only by a later
    assignment. *)
Record CrudControls : Type := {
  create : option bool;
  create_list : option (list string);
  read : option bool;
  read_list : option (list string);
  update : option bool;
  update_list : option (list string);
  delete : option bool;
  delete_list : option (list string)
}.

Definition flag (self : CrudControls) (crud_type : CrudType) : option bool :=
  match crud_type with
  | Create => create self
  | Read => read self
  | Update => update self
  | Delete => delete self
  end.

Definition word_list (self : CrudControls) (crud_type : CrudType)
  : option (list string) :=
  match crud_type with
  | Create => create_list self
  | Read => read_list self
  | Update => update_list self
  | Delete => delete_list self
  end.

(** [values.get(key, default).split(',')]: the key is in [values] once
    the fields are validated, with the field default when the keyword was not
    passed; [None.split] raises [AttributeError]. *)
Definition split_words (given : option (option string)) (default : string)
  : Outcome (list string) :=
  match or_default given (Some default) with
  | Some text => Return (split "," text)
  | None => Raise AttributeError
  end.

(** [CrudControls(...)] through the root validator [validate_environment].
    An argument is [None] when the keyword was not passed. *)
Definition validate_environment
    (create_kw : option (option bool)) (create_list_kw : option (option string))
    (read_kw : option (option bool)) (read_list_kw : option (option string))
    (update_kw : option (option bool)) (update_list_kw : option (option string))
    (delete_kw : option (option bool)) (delete_list_kw : option (option string))
  : Outcome CrudControls :=
  create_words <- split_words create_list_kw AUTOTOOL_CRUD_CONTROLS_CREATE_LIST ;;
  read_words <- split_words read_list_kw AUTOTOOL_CRUD_CONTROLS_READ_LIST ;;
  update_words <- split_words update_list_kw AUTOTOOL_CRUD_CONTROLS_UPDATE_LIST ;;
  delete_words <- split_words delete_list_kw AUTOTOOL_CRUD_CONTROLS_DELETE_LIST ;;
  Return {| create := or_default create_kw (Some AUTOTOOL_CRUD_CONTROLS_CREATE);
            create_list := Some create_words;
            read := or_default read_kw (Some AUTOTOOL_CRUD_CONTROLS_READ);
            read_list := Some read_words;
            update := or_default update_kw (Some AUTOTOOL_CRUD_CONTROLS_UPDATE);
            update_list := Some update_words;
            delete := or_default delete_kw (Some AUTOTOOL_CRUD_CONTROLS_DELETE);
            delete_list := Some delete_words |}.

(** [word.lower() in func_name.lower()] *)
Definition word_matches (func_name word : string) : bool :=
  contains (lower word) (lower func_name).

(** One of the four blocks of the loop body: the flag, then the list that
    is not [None] and holds a word of the name. *)
Definition append_matching {Tool : Type} (enabled : option bool)
    (words : option (list string)) (func_name : string) (operation : Tool)
    (operations : list Tool) : list Tool :=
  if truthy enabled then
    match words with
    | Some words =>
        if existsb (word_matches func_name) words
        then (operations ++ [operation])%list
        else operations
    | None => operations
    end
  else operations.

Section Wrapper.

(** [tool.AutoTool(client=..., name=..., description=...)] *)
Variable Tool : Type.
Variable AutoTool : Client -> string -> option string -> Outcome Tool.

Record AutoToolWrapper : Type := {
  client : Client;
  operations : list Tool;
  crud_controls : CrudControls
}.

(** The loop of [_build_operations]; a model instance is truthy, so the
    test [if self.crud_controls] always passes. *)
Fixpoint build_loop (controls : CrudControls) (client : Client) (sdk : SdkObject)
    (names : list string) (operations : list Tool) : Outcome (list Tool) :=
  match names with
  | [] => Return operations
  | func_name :: names' =>
      func <- getattr sdk func_name ;;
      operation <- AutoTool client func_name (doc func) ;;
      let operations :=
        append_matching (create controls) (create_list controls)
          func_name operation operations in
      let operations :=
        append_matching (read controls) (read_list controls)
          func_name operation operations in
      let operations :=
        append_matching (update controls) (update_list controls)
          func_name operation operations in
      let operations :=
        append_matching (delete controls) (delete_list controls)
          func_name operation operations in
      build_loop controls client sdk names' operations
  end.

Definition _build_operations (client : Client) (controls : CrudControls)
  : Outcome (list Tool) :=
  sdk <- getitem client "client" ;;
  build_loop controls client sdk (sdk_functions sdk) [].

(** [AutoToolWrapper(client=..., crud_controls=...)]; without the keyword
    [crud_controls] the field is a copy of [CrudControls()]. *)
Definition AutoToolWrapper_init (client : Client)
    (crud_controls_kw : option CrudControls) : Outcome AutoToolWrapper :=
  controls <-
    match crud_controls_kw with
    | Some controls => Return controls
    | None => validate_environment None None None None None None None None
    end ;;
  operations <- _build_operations client controls ;;
  Return {| client := client;
            operations := operations;
            crud_controls := controls |}.

Definition get_tools (self : AutoToolWrapper) : list Tool := operations self.

End Wrapper.

(** Whether the block of a bucket appends the Operation of a name, and
    how many of the four blocks do. *)
Definition bucket_approves (self : CrudControls) (func_name : string)
    (crud_type : CrudType) : bool :=
  truthy (flag self crud_type) &&
  match word_list self crud_type with
  | Some words => existsb (word_matches func_name) words
  | None => false
  end.

Definition approvals (self : CrudControls) (func_name : string) : nat :=
  List.length (filter (bucket_approves self func_name) crud_types).

End Utilities.

(** An SDK object with some members of [FakeSdk] and a member
    [forget_thing], whose name holds the word [get]; the client that holds
    it, and the tool of each of its members. *)
Definition forgetful_sdk : SdkObject :=
  [ ("_dummy_return",
      FakeSdk.method "Hidden, never called directly. Does Things" ["thing_id"]
        (fun bound => FakeSdk._dummy_return (FakeSdk.argument bound "thing_id")));
    ("create_thing", FakeSdk.thing_method "Creates Thing");
    ("delete_thing", FakeSdk.thing_method "Deletes Thing");
    ("forget_thing", FakeSdk.thing_method "Forgets Thing");
    ("get_thing", FakeSdk.thing_method "Gets Thing") ].

Definition forgetful_client : Client := ClientDict [("client", forgetful_sdk)].

Definition forgetful_tool (func_name : string) : AutoTool :=
  {| client := forgetful_client;
     name := func_name;
     description :=
       match lookup func_name forgetful_sdk with
       | Some {| doc := Some text |} => text
       | _ => EmptyString
       end |}.


(** [CrudControls()] after its first query, with [read_list] then set to
    [['post_thing']]: the cache still holds the default patterns. *)
Definition edited_controls : CrudControls PyRe.Regex :=
  set_cache
    (CrudControls_new PyRe.Regex None None None (Some (Some ["post_thing"]))
       None None None None)
    (_compiled_patterns (synced PyRe.compile UnitTests.default_controls)).


(** ** The exceptions of the libraries *)

(** [re.compile] and [json.loads] have limits of their own, and beyond
    them they raise exceptions of other classes than [re.error] and
    [JSONDecodeError], which the program does not catch.  [Raising] holds the
    functions that call them, over an engine and a decoder that can raise:
    [Return (Some _)] is a result, [Return None] the exception the program
    catches ([re.error], [JSONDecodeError]), [Raise e] an exception of
    another class. *)
Module Raising.

Section Classifier.

Variable Pattern : Type.
Variable re_compile : string -> Outcome (option Pattern).
Variable re_match : Pattern -> string -> bool.

(** One turn of the inner loop of [compile_patterns]: what [re.compile]
    raises beside [re.error] leaves the loop. *)
Definition compile_pattern (acc : list Pattern * list string) (pattern : string)
  : Outcome (list Pattern * list string) :=
  let (regex_patterns, glob_patterns) := acc in
  if _is_regex_pattern pattern then
    let pattern := pattern_text pattern in
    compiled <- re_compile pattern ;;
    match compiled with
    | Some compiled => Return ((regex_patterns ++ [compiled])%list, glob_patterns)
    | None => Return (regex_patterns, (glob_patterns ++ [pattern])%list)
    end
  else Return (regex_patterns, (glob_patterns ++ [pattern])%list).

Fixpoint compile_list (patterns : list string) (acc : list Pattern * list string)
  : Outcome (list Pattern * list string) :=
  match patterns with
  | [] => Return acc
  | pattern :: patterns' =>
      acc' <- compile_pattern acc pattern ;;
      compile_list patterns' acc'
  end.

(** The outer loop: an exception leaves the entries stored before it in
    the cache. *)
Fixpoint compile_types (types : list CrudType) (self : CrudControls Pattern)
  : CrudControls Pattern * Outcome unit :=
  match types with
  | [] => (self, Return tt)
  | crud_type :: types' =>
      match pattern_list self crud_type with
      | None => (self, Raise TypeError)
      | Some patterns =>
          match compile_list patterns ([], []) with
          | Raise e => (self, Raise e)
          | Return (regex_patterns, glob_patterns) =>
              compile_types types'
                (set_cache self
                   (cache_set crud_type
                      {| regex := regex_patterns; glob := glob_patterns |}
                      (_compiled_patterns self)))
          end
      end
  end.

Definition compile_patterns (self : CrudControls Pattern)
  : CrudControls Pattern * Outcome unit :=
  compile_types crud_types (set_cache self []).

Definition matches_pattern (self : CrudControls Pattern) (func_name : string)
    (crud_type : CrudType) : CrudControls Pattern * Outcome bool :=
  let (self, compiled) :=
    if is_empty (_compiled_patterns self)
    then compile_patterns self
    else (self, Return tt) in
  match compiled with
  | Raise e => (self, Raise e)
  | Return _ =>
      if negb (truthy (flag self crud_type)) then (self, Return false)
      else
        let patterns :=
          cache_get crud_type (_compiled_patterns self)
            {| regex := []; glob := [] |} in
        if existsb (fun pattern => re_match pattern func_name) (regex patterns)
        then (self, Return true)
        else if existsb (fun pattern => fnmatch func_name pattern) (glob patterns)
        then (self, Return true)
        else (self, Return false)
  end.

End Classifier.

Section Adapter.

Variable json_loads : string -> Outcome (option PyVal).
Variable json_dumps : PyVal -> string.

(** The first statement of [_run]; it stands inside the [try] of the
    function, so what [json.loads] raises beside [JSONDecodeError] meets the
    handler of [AttributeError]. *)
Definition load_params (tool_input : PyVal) : Outcome PyVal :=
  match tool_input with
  | PyDict _ => Return tool_input
  | PyStr text =>
      decoded <- json_loads text ;;
      match decoded with
      | Some decoded => Return decoded
      | None => Return (PyDict [])
      end
  | _ => Return (PyDict [])
  end.

Definition _run (self : AutoTool) (tool_input : PyVal) (args : list PyVal)
    (kwargs : Kwargs) : Outcome string :=
  try_except_AttributeError
    (params <- load_params tool_input ;;
     sdk <- getitem (client self) "client" ;;
     func <- getattr sdk (name self) ;;
     result <- call_member func args params kwargs ;;
     result <- normalize_result result ;;
     Return (json_dumps result))
    (Return ("Invalid function name: " ++ name self)).

End Adapter.

End Raising.

(** The engine that answers as [re_compile] where it returns, and that
    refuses the pattern where it raises. *)
Definition quiet {Pattern : Type} (re_compile : string -> Outcome (option Pattern))
    (pattern : string) : option Pattern :=
  match re_compile pattern with
  | Return compiled => compiled
  | Raise _ => None
  end.

(** [re.compile] raises nothing but [re.error] on the patterns of the four
    lists that are sniffed as regexes. *)
Definition compilable {Pattern : Type}
    (re_compile : string -> Outcome (option Pattern)) (self : CrudControls Pattern)
  : Prop :=
  forall crud_type patterns pattern,
    pattern_list self crud_type = Some patterns ->
    In pattern patterns ->
    _is_regex_pattern pattern = true ->
    exists compiled, re_compile (pattern_text pattern) = Return compiled.

Definition ValueError : ExnClass := OtherError "ValueError".
Definition OverflowError : ExnClass := OtherError "OverflowError".

(** Two limits of CPython, on the reference engine and codec.

    [re.compile] raises [OverflowError] when the count of a repetition
    [{m}], [{m,n}], [{m,}] or [{,n}] is [MAXREPEAT] or more; it does so when
    it reads the count.  [compile] has this for the first opening brace of a
    pattern, when the text before it is a pattern the reference engine
    compiles; on any other pattern it is the reference engine.

    [json.loads] raises [ValueError] when it converts an integer literal of
    more than [max_str_digits] digits (the limit of [int] on the length of
    the text of an integer, 4300 unless the interpreter is set otherwise).
    [loads] has this for the text that the reference codec decodes; on any
    other text it is the reference codec. *)
Module Limits.

Definition MAXREPEAT : N := 4294967295%N.

Definition max_str_digits : nat := 4300.

Definition is_digit (c : ascii) : bool :=
  match PyJson.digit_value c with
  | Some _ => true
  | None => false
  end.

(** The digits at the head of a text, and what follows them. *)
Fixpoint take_digits (s : list ascii) : list ascii * list ascii :=
  match s with
  | c :: s' =>
      if is_digit c then let (digits, rest) := take_digits s' in (c :: digits, rest)
      else ([], s)
  | [] => ([], [])
  end.

(** [int(digits)] *)
Definition count_of (digits : list ascii) : N :=
  fold_left
    (fun n c =>
       match PyJson.digit_value c with
       | Some d => (10 * n + N.of_nat d)%N
       | None => n
       end)
    digits 0%N.

(** The text before the first opening brace and the text after it. *)
Fixpoint first_brace (s : list ascii) : option (list ascii * list ascii) :=
  match s with
  | [] => None
  | c :: s' =>
      if Ascii.eqb c "{" then Some ([], s')
      else
        match first_brace s' with
        | Some (before, after) => Some (c :: before, after)
        | None => None
        end
  end.

(** The two counts of a repetition after its opening brace: [lo], then
    [hi] after a comma or [lo] again without one, then the closing brace. *)
Definition read_counts (s : list ascii) : option (list ascii * list ascii) :=
  let (lo, s1) := take_digits s in
  let (hi, s2) :=
    match s1 with
    | ","%char :: s1' => take_digits s1'
    | _ => (lo, s1)
    end in
  match s2 with
  | "}"%char :: _ => Some (lo, hi)
  | _ => None
  end.

Definition too_large (digits : list ascii) : bool :=
  negb (is_empty digits) && N.leb MAXREPEAT (count_of digits).

Definition compile (pattern : string) : Outcome (option PyRe.Regex) :=
  match first_brace (chars pattern) with
  | Some (before, after) =>
      match PyRe.compile (of_chars before), read_counts after with
      | Some _, Some (lo, hi) =>
          if too_large lo || too_large hi then Raise OverflowError
          else Return (PyRe.compile pattern)
      | _, _ => Return (PyRe.compile pattern)
      end
  | None => Return (PyRe.compile pattern)
  end.

(** Where a reader stands in a text: outside the strings, after [run]
    digits in a row; inside a string; inside one, after a backslash. *)
Inductive Place : Type :=
| Outside (run : nat)
| Inside
| Escaped.

(** Whether more than [max_str_digits] digits stand in a row outside the
    strings of a text. *)
Fixpoint long_literal (place : Place) (s : list ascii) : bool :=
  match s with
  | [] => false
  | c :: s' =>
      match place with
      | Outside run =>
          if is_digit c then
            Nat.ltb max_str_digits (S run) || long_literal (Outside (S run)) s'
          else if Ascii.eqb c dquote then long_literal Inside s'
          else long_literal (Outside 0) s'
      | Inside =>
          if Ascii.eqb c "\" then long_literal Escaped s'
          else if Ascii.eqb c dquote then long_literal (Outside 0) s'
          else long_literal Inside s'
      | Escaped => long_literal Inside s'
      end
  end.

Definition loads (text : string) : Outcome (option PyVal) :=
  match PyJson.loads text with
  | Some decoded =>
      if long_literal (Outside 0) (chars text) then Raise ValueError
      else Return (Some decoded)
  | None => Return None
  end.

End Limits.

(** The text of an integer of 4301 digits. *)
Definition long_integer_text : string :=
  of_chars (repeat "1"%char (S Limits.max_str_digits)).

(** [CrudControls(create_list=['a{4294967296}'])], where the create bucket
    is not enabled, and [CrudControls(read_list=['a{4294967296}'])], where
    the read bucket is. *)
Definition overflow_in_create : CrudControls PyRe.Regex :=
  CrudControls_new PyRe.Regex None (Some (Some ["a{4294967296}"]))
    None None None None None None.

Definition overflow_in_read : CrudControls PyRe.Regex :=
  CrudControls_new PyRe.Regex None None None (Some (Some ["a{4294967296}"]))
    None None None None.

(** [CrudControls(delete_list=None)] *)
Definition controls_without_delete_list : CrudControls PyRe.Regex :=
  CrudControls_new PyRe.Regex None None None None None None None (Some None).

(** [CrudControls(read_list=[P])] for the pattern [P] that is written with
    the marker, [r"*_thing"] with its quotes. *)
Definition marked_star_pattern : string :=
  String "r" (String dquote ("*_thing" ++ String dquote EmptyString)).

Definition controls_with_marked_pattern : CrudControls PyRe.Regex :=
  CrudControls_new PyRe.Regex None None None (Some (Some [marked_star_pattern]))
    None None None None.

(** * Facts *)

(** ** Strings and globs *)

Lemma chars_eq (s t : string) : chars s = chars t -> s = t.
Proof.
  revert t; induction s as [|c s IH]; intros [|d t] H; simpl in H;
    try discriminate; [reflexivity|].
  injection H as -> H. f_equal. now apply IH.
Qed.

Lemma chars_length (s : string) : List.length (chars s) = String.length s.
Proof. induction s; simpl; congruence. Qed.

(** A run of literal tokens matches exactly its own text. *)
Lemma glob_match_literal (p s : list ascii) :
  glob_match (map GLit p) s = true <-> s = p.
Proof.
  revert s; induction p as [|c p IH]; intros s; simpl.
  - destruct s; split; intro H; congruence.
  - destruct s as [|x s]; [split; intro H; discriminate|].
    rewrite andb_true_iff, Ascii.eqb_eq, IH. split.
    + intros [-> ->]; reflexivity.
    + intro H; injection H as -> ->; auto.
Qed.

Lemma glob_tokens_literal (fuel : nat) (p : list ascii) :
  List.length p <= fuel ->
  forallb (fun c => negb (Ascii.eqb c "*" || Ascii.eqb c "?" || Ascii.eqb c "[")) p = true ->
  glob_tokens fuel p = map GLit p.
Proof.
  revert p; induction fuel as [|fuel IH]; intros [|c p] Hlen Hfree; simpl in *;
    try reflexivity; try lia.
  apply andb_true_iff in Hfree as [Hc Hp].
  apply negb_true_iff in Hc.
  apply orb_false_iff in Hc as [Hc Hbr].
  apply orb_false_iff in Hc as [Hstar Hq].
  rewrite Hstar, Hq, Hbr. f_equal. apply IH; [lia|assumption].
Qed.

(** On a pattern without glob characters, [fnmatch] is equality of text. *)
Lemma fnmatch_glob_free (name pat : string) :
  glob_free pat = true -> (fnmatch name pat = true <-> name = pat).
Proof.
  intro Hfree. unfold fnmatch.
  rewrite glob_tokens_literal; [|rewrite chars_length; lia|exact Hfree].
  rewrite glob_match_literal. split; [apply chars_eq|intros ->; reflexivity].
Qed.

Lemma char_in_false (c : ascii) (s : string) :
  char_in c s = false -> forallb (fun x => negb (Ascii.eqb c x)) (chars s) = true.
Proof.
  unfold char_in. induction (chars s) as [|x l IH]; simpl; [reflexivity|].
  intro H. apply orb_false_iff in H as [Hx Hl]. now rewrite Hx, IH.
Qed.

(** A pattern that is not sniffed as a regex holds no character of
    [regex_chars]. *)
Lemma regex_char_absent (c : ascii) (pat : string) :
  In c (chars regex_chars) -> _is_regex_pattern pat = false -> char_in c pat = false.
Proof.
  unfold _is_regex_pattern. intros Hin H.
  apply orb_false_iff in H as [_ H].
  apply not_true_is_false. intro Hc.
  assert (existsb (fun c => char_in c pat) (chars regex_chars) = true)
    by (apply existsb_exists; eauto).
  congruence.
Qed.

(** A pattern that is not sniffed as a regex has no glob character. *)
Lemma not_regex_glob_free (pat : string) :
  _is_regex_pattern pat = false -> glob_free pat = true.
Proof.
  intro H.
  assert (Hstar : char_in "*" pat = false)
    by (apply regex_char_absent; [simpl; tauto|exact H]).
  assert (Hq : char_in "?" pat = false)
    by (apply regex_char_absent; [simpl; tauto|exact H]).
  assert (Hbr : char_in "[" pat = false)
    by (apply regex_char_absent; [simpl; tauto|exact H]).
  apply char_in_false in Hstar, Hq, Hbr.
  unfold glob_free. apply forallb_forall. intros x Hx.
  rewrite forallb_forall in Hstar, Hq, Hbr.
  specialize (Hstar x Hx). specialize (Hq x Hx). specialize (Hbr x Hx).
  apply negb_true_iff in Hstar, Hq, Hbr.
  rewrite Ascii.eqb_sym in Hstar. rewrite Ascii.eqb_sym in Hq.
  rewrite Ascii.eqb_sym in Hbr.
  now rewrite Hstar, Hq, Hbr.
Qed.

(** ** The reference codec reads back what it writes *)

Lemma chars_app (s t : string) : chars (s ++ t) = (chars s ++ chars t)%list.
Proof. induction s as [|c s IH]; simpl; [reflexivity|now rewrite IH]. Qed.

Lemma of_chars_chars (s : string) : of_chars (chars s) = s.
Proof. induction s as [|c s IH]; simpl; [reflexivity|now rewrite IH]. Qed.

Lemma chars_concat_cons (sep x : string) (l : list string) :
  chars (String.concat sep (x :: l)) =
  match l with
  | [] => chars x
  | _ => (chars x ++ chars sep ++ chars (String.concat sep l))%list
  end.
Proof. destruct l; simpl; [reflexivity|now rewrite !chars_app]. Qed.

Lemma chars_concat_more (sep x : string) (l : list string) :
  l <> [] ->
  chars (String.concat sep (x :: l)) =
  (chars x ++ chars sep ++ chars (String.concat sep l))%list.
Proof. intro H. rewrite chars_concat_cons. destruct l; congruence. Qed.

(** One written character is read back as itself. *)
Lemma read_string_escape (c : ascii) (tail : list ascii) :
  PyJson.read_string (chars (PyJson.escape_char c) ++ tail)%list =
  match PyJson.read_string tail with
  | Some (body, rest) => Some (c :: body, rest)
  | None => None
  end.
Proof. destruct c as [[] [] [] [] [] [] [] []]; reflexivity. Qed.

Lemma read_string_body (s : string) (rest : list ascii) :
  PyJson.read_string
    (chars (String.concat EmptyString (map PyJson.escape_char (chars s)))
     ++ dquote :: rest)%list = Some (chars s, rest).
Proof.
  induction s as [|c s IH].
  - reflexivity.
  - cbn [chars map]. rewrite chars_concat_cons.
    destruct (map PyJson.escape_char (chars s)) eqn:Hmap.
    + destruct s; [|discriminate]. rewrite read_string_escape. reflexivity.
    + cbn [chars app]. rewrite <- app_assoc, read_string_escape, IH. reflexivity.
Qed.

(** The characters of a written string: the body between two quotes. *)
Lemma encode_string_chars (s : string) (rest : list ascii) :
  (chars (PyJson.encode_string s) ++ rest)%list =
  dquote ::
    (chars (String.concat EmptyString (map PyJson.escape_char (chars s)))
     ++ dquote :: rest)%list.
Proof.
  unfold PyJson.encode_string. cbn [append chars]. rewrite chars_app.
  cbn [chars app]. now rewrite <- app_assoc.
Qed.

Lemma delimited_cases (rest : list ascii) :
  delimited rest = true ->
  rest = [] \/ exists t, rest = ","%char :: t \/ rest = "]"%char :: t \/ rest = "}"%char :: t.
Proof.
  destruct rest as [|c t]; [now left|]. simpl. intro H. right. exists t.
  apply orb_true_iff in H as [H|H]; [apply orb_true_iff in H as [H|H]|];
    apply Ascii.eqb_eq in H; subst; auto.
Qed.

Lemma read_digits_written (d : Decimal.uint) (rest : list ascii) :
  delimited rest = true ->
  PyJson.read_digits (chars (NilEmpty.string_of_uint d) ++ rest)%list = (d, rest).
Proof.
  intro Hrest. induction d; cbn [NilEmpty.string_of_uint chars app];
    try (cbn [PyJson.read_digits]; rewrite IHd; reflexivity).
  destruct (delimited_cases rest Hrest) as [-> | (t & [-> | [-> | ->]])]; reflexivity.
Qed.

(** The decimal digits of a positive number do not start with a zero. *)
Lemma to_uint_head (p : positive) (d : Decimal.uint) : Pos.to_uint p <> Decimal.D0 d.
Proof.
  intro E.
  pose proof (DecimalPos.Unsigned.of_to p) as Hof. rewrite E in Hof. simpl in Hof.
  pose proof (DecimalPos.Unsigned.to_of d) as Hto. rewrite Hof in Hto.
  simpl in Hto. rewrite E in Hto. unfold Decimal.unorm in Hto.
  destruct (Decimal.nzhead d) eqn:Hnz; try discriminate.
  - injection Hto as Hd. subst d. apply (DecimalPos.Unsigned.to_uint_nonzero p). exact E.
  - now apply (DecimalFacts.nzhead_nonzero d u).
Qed.

Lemma read_natural_written (d : Decimal.uint) (rest : list ascii) :
  d <> Decimal.Nil -> (forall d', d <> Decimal.D0 d') -> delimited rest = true ->
  PyJson.read_natural (chars (NilEmpty.string_of_uint d) ++ rest)%list =
  Some (Z.of_uint d, rest).
Proof.
  intros Hnil Hzero Hrest.
  pose proof (read_digits_written d rest Hrest) as Hdigits.
  destruct d; try (exfalso; now apply Hnil); try (exfalso; now apply (Hzero d));
    cbn [NilEmpty.string_of_uint chars app] in *;
    unfold PyJson.read_natural;
    match goal with
    | |- context [PyJson.digit_value ?c] =>
        let v := eval cbv in (PyJson.digit_value c) in
        change (PyJson.digit_value c) with v
    end;
    cbn [Nat.eqb]; rewrite Hdigits;
    destruct (delimited_cases rest Hrest) as [-> | (t & [-> | [-> | ->]])];
    reflexivity.
Qed.

Lemma of_uint_to_uint (p : positive) : Z.of_uint (Pos.to_uint p) = Z.pos p.
Proof. unfold Z.of_uint. now rewrite DecimalPos.Unsigned.of_to. Qed.

(** The digits of a positive number are read back as that number. *)
Lemma read_natural_pos (p : positive) (rest : list ascii) :
  delimited rest = true ->
  PyJson.read_natural (chars (NilEmpty.string_of_uint (Pos.to_uint p)) ++ rest)%list =
  Some (Z.pos p, rest).
Proof.
  intro Hrest. rewrite <- (of_uint_to_uint p).
  apply read_natural_written;
    [apply DecimalPos.Unsigned.to_uint_nonnil|intro d; apply (@to_uint_head p d)|exact Hrest].
Qed.

(** Case analysis on the first digit of a positive number: it exists and
    is not zero. *)
Ltac first_digit p :=
  let d := fresh "d" in
  let Hd := fresh "Hd" in
  destruct (Pos.to_uint p) as [|d|d|d|d|d|d|d|d|d|d] eqn:Hd;
  [ exfalso; now apply (DecimalPos.Unsigned.to_uint_nonnil p)
  | exfalso; now apply (@to_uint_head p d)
  | .. ].

(** A written integer is read back. *)
Lemma read_value_int (z : Z) (fuel : nat) (rest : list ascii) :
  delimited rest = true ->
  PyJson.read_value (S fuel) (chars (PyJson.int_text z) ++ rest)%list =
  Some (PyInt z, rest).
Proof.
  intro Hrest. unfold PyJson.int_text. destruct z as [|p|p].
  - destruct (delimited_cases rest Hrest) as [-> | (t & [-> | [-> | ->]])];
      reflexivity.
  - pose proof (@read_natural_pos p rest Hrest) as Hnat.
    cbn [Z.to_int NilZero.string_of_int]. unfold NilZero.string_of_uint.
    first_digit p;
      cbn [NilEmpty.string_of_uint chars app] in *;
      cbn [PyJson.read_value]; cbn [Ascii.eqb Bool.eqb dquote andb];
      rewrite Hnat; reflexivity.
  - pose proof (@read_natural_pos p rest Hrest) as Hnat.
    cbn [Z.to_int NilZero.string_of_int]. unfold NilZero.string_of_uint.
    destruct (Pos.to_uint p) eqn:Hd;
      try (exfalso; now apply (DecimalPos.Unsigned.to_uint_nonnil p));
      cbn [NilEmpty.string_of_uint chars app] in *;
      cbn [PyJson.read_value]; rewrite Hnat; reflexivity.
Qed.

(** Every written value starts with a character that is neither blank nor
    the end of a container. *)
Lemma dumps_head (v : PyVal) (t : list ascii) :
  exists c s',
    (chars (PyJson.dumps v) ++ t)%list = c :: s' /\
    PyJson.is_ws c = false /\ Ascii.eqb c "]" = false /\ Ascii.eqb c "}" = false.
Proof.
  destruct v as [|[|]|z|s|b|items|items|entries|repr produced failure|repr];
    cbn [PyJson.dumps];
    try (rewrite encode_string_chars; repeat eexists; reflexivity);
    try (repeat eexists; reflexivity).
  unfold PyJson.int_text. destruct z as [|p|p]; try (repeat eexists; reflexivity).
  cbn [Z.to_int NilZero.string_of_int]. unfold NilZero.string_of_uint.
  destruct (Pos.to_uint p); repeat eexists; reflexivity.
Qed.

Lemma skip_ws_dumps (v : PyVal) (t : list ascii) :
  PyJson.skip_ws (chars (PyJson.dumps v) ++ t)%list = (chars (PyJson.dumps v) ++ t)%list.
Proof.
  destruct (dumps_head v t) as (c & s' & -> & Hws & _). simpl. now rewrite Hws.
Qed.

Lemma skip_ws_space (t : list ascii) :
  PyJson.skip_ws (" "%char :: t) = PyJson.skip_ws t.
Proof. reflexivity. Qed.

Lemma skip_ws_mark (c : ascii) (t : list ascii) :
  PyJson.is_ws c = false -> PyJson.skip_ws (c :: t) = c :: t.
Proof. intro H. simpl. now rewrite H. Qed.

Lemma nodes_pos (v : PyVal) : 1 <= nodes v.
Proof. destruct v; simpl; lia. Qed.

Lemma nodes_In (v : PyVal) (items : list PyVal) :
  In v items -> nodes v <= list_sum (map nodes items).
Proof.
  induction items as [|x l IH]; simpl; [tauto|].
  intros [-> | H]; [lia|]. specialize (IH H). lia.
Qed.

Lemma nodes_In_snd (kv : string * PyVal) (entries : list (string * PyVal)) :
  In kv entries -> nodes (snd kv) <= list_sum (map (fun kv => nodes (snd kv)) entries).
Proof.
  induction entries as [|x l IH]; simpl; [tauto|].
  intros [-> | H]; [lia|]. specialize (IH H). lia.
Qed.

Lemma read_items_step (fuel : nat) (s : list ascii) (acc : list PyVal) :
  PyJson.read_items (S fuel) s acc =
  match PyJson.read_value fuel s with
  | Some (v, rest) =>
      match PyJson.skip_ws rest with
      | ","%char :: rest' =>
          PyJson.read_items fuel (PyJson.skip_ws rest') (acc ++ [v])%list
      | "]"%char :: rest' => Some (PyList (acc ++ [v])%list, rest')
      | _ => None
      end
  | None => None
  end.
Proof. reflexivity. Qed.

(** The elements of a written list are read back, in order. *)
Lemma read_items_written (items : list PyVal) :
  (forall v, In v items -> reads_back v) ->
  forallb json_native items = true ->
  items <> [] ->
  forall fuel acc rest, 2 * list_sum (map nodes items) + 1 <= fuel ->
  PyJson.read_items fuel
    (chars (String.concat ", " (map PyJson.dumps items)) ++ "]"%char :: rest)%list acc =
  Some (PyList (acc ++ items)%list, rest).
Proof.
  induction items as [|v l IH]; intros Hback Hnative Hne fuel acc rest Hfuel;
    [congruence|].
  destruct fuel as [|fuel]; [lia|].
  cbn [forallb] in Hnative. apply andb_true_iff in Hnative as [Hv Hl].
  cbn [map] in Hfuel.
  change (list_sum (nodes v :: map nodes l))
    with (nodes v + list_sum (map nodes l)) in Hfuel.
  pose proof (nodes_pos v) as Hpos.
  rewrite read_items_step. cbn [map].
  destruct l as [|v2 l'].
  - cbn [map String.concat]. rewrite (Hback v (or_introl eq_refl) Hv);
      [reflexivity|simpl in Hfuel; lia|reflexivity].
  - remember (v2 :: l') as l eqn:El.
    assert (Hmap : map PyJson.dumps l <> []) by (rewrite El; discriminate).
    rewrite (chars_concat_more _ _ Hmap), <- !app_assoc.
    rewrite (Hback v (or_introl eq_refl) Hv); [|lia|reflexivity].
    cbn [chars app].
    rewrite (@skip_ws_mark "," _ eq_refl), skip_ws_space.
    assert (Hskip :
      PyJson.skip_ws
        (chars (String.concat ", " (map PyJson.dumps l)) ++ "]"%char :: rest)%list =
      (chars (String.concat ", " (map PyJson.dumps l)) ++ "]"%char :: rest)%list).
    { rewrite El. cbn [map]. rewrite chars_concat_cons.
      destruct (map PyJson.dumps l');
        [|rewrite <- !app_assoc]; now rewrite skip_ws_dumps. }
    rewrite Hskip.
    rewrite IH; [now rewrite <- app_assoc| |exact Hl|rewrite El; discriminate|lia].
    intros w Hw. apply Hback. now right.
Qed.

Lemma dict_put_fresh (k : string) (v : PyVal) (acc : list (string * PyVal)) :
  has_key k acc = false -> PyJson.dict_put k v acc = (acc ++ [(k, v)])%list.
Proof.
  induction acc as [|[k' v'] acc IH]; simpl; [reflexivity|].
  intro H. apply orb_false_iff in H as [Hk Hacc].
  rewrite Hk. f_equal. now apply IH.
Qed.

Lemma unique_keys_fresh (acc : list (string * PyVal)) (kv : string * PyVal)
    (l : list (string * PyVal)) :
  unique_keys (map fst (acc ++ kv :: l)) = true -> has_key (fst kv) acc = false.
Proof.
  induction acc as [|x acc IH]; simpl; [reflexivity|].
  intro H. apply andb_true_iff in H as [Hx Hrest].
  rewrite (IH Hrest), orb_false_r.
  apply negb_true_iff in Hx. rewrite map_app, existsb_app in Hx.
  apply orb_false_iff in Hx as [_ Hx]. simpl in Hx.
  apply orb_false_iff in Hx as [Hx _]. now rewrite String.eqb_sym.
Qed.

Lemma read_members_step (fuel : nat) (s' : list ascii) (acc : list (string * PyVal)) :
  PyJson.read_members (S fuel) (dquote :: s') acc =
  match PyJson.read_string s' with
  | Some (key, s1) =>
      match PyJson.skip_ws s1 with
      | ":"%char :: s2 =>
          match PyJson.read_value fuel (PyJson.skip_ws s2) with
          | Some (v, rest) =>
              match PyJson.skip_ws rest with
              | ","%char :: rest' =>
                  PyJson.read_members fuel (PyJson.skip_ws rest')
                    (PyJson.dict_put (of_chars key) v acc)
              | "}"%char :: rest' =>
                  Some (PyDict (PyJson.dict_put (of_chars key) v acc), rest')
              | _ => None
              end
          | None => None
          end
      | _ => None
      end
  | None => None
  end.
Proof. reflexivity. Qed.

(** The text of one member of a written dict. *)
Lemma member_chars (kv : string * PyVal) (tail : list ascii) :
  (chars (PyJson.encode_string (fst kv) ++ ": " ++ PyJson.dumps (snd kv)) ++ tail)%list =
  dquote ::
    (chars (String.concat EmptyString (map PyJson.escape_char (chars (fst kv))))
     ++ dquote :: ":"%char :: " "%char :: chars (PyJson.dumps (snd kv)) ++ tail)%list.
Proof.
  rewrite !chars_app, <- !app_assoc. cbn [chars app].
  apply encode_string_chars.
Qed.

(** One member of a written dict is read back, up to what follows it. *)
Lemma read_member_written (fuel : nat) (kv : string * PyVal) (tail : list ascii)
    (acc : list (string * PyVal)) :
  reads_back (snd kv) -> json_native (snd kv) = true ->
  2 * nodes (snd kv) <= fuel -> delimited tail = true ->
  has_key (fst kv) acc = false ->
  PyJson.read_members (S fuel)
    (chars (PyJson.encode_string (fst kv) ++ ": " ++ PyJson.dumps (snd kv)) ++ tail)%list
    acc =
  match PyJson.skip_ws tail with
  | ","%char :: rest' =>
      PyJson.read_members fuel (PyJson.skip_ws rest') (acc ++ [kv])%list
  | "}"%char :: rest' => Some (PyDict (acc ++ [kv])%list, rest')
  | _ => None
  end.
Proof.
  intros Hback Hnative Hfuel Htail Hfresh. destruct kv as [k v]. cbn [fst snd] in *.
  rewrite (member_chars (k, v)). cbn [fst snd].
  rewrite read_members_step, read_string_body.
  rewrite (@skip_ws_mark ":" _ eq_refl), skip_ws_space, skip_ws_dumps.
  rewrite (Hback Hnative fuel tail Hfuel Htail).
  now rewrite of_chars_chars, (@dict_put_fresh k v acc Hfresh).
Qed.

(** The members of a written dict are read back, in order. *)
Lemma read_members_written (entries : list (string * PyVal)) :
  (forall kv, In kv entries -> reads_back (snd kv)) ->
  forallb (fun kv => json_native (snd kv)) entries = true ->
  entries <> [] ->
  forall fuel acc rest,
  unique_keys (map fst (acc ++ entries)) = true ->
  2 * list_sum (map (fun kv => nodes (snd kv)) entries) + 1 <= fuel ->
  PyJson.read_members fuel
    (chars (String.concat ", "
              (map (fun kv => (PyJson.encode_string (fst kv) ++ ": "
                              ++ PyJson.dumps (snd kv))%string) entries))
     ++ "}"%char :: rest)%list acc =
  Some (PyDict (acc ++ entries)%list, rest).
Proof.
  induction entries as [|kv l IH];
    intros Hback Hnative Hne fuel acc rest Huniq Hfuel; [congruence|].
  destruct fuel as [|fuel]; [lia|].
  cbn [forallb] in Hnative. apply andb_true_iff in Hnative as [Hv Hl].
  cbn [map] in Hfuel.
  change (list_sum (nodes (snd kv) :: map (fun kv => nodes (snd kv)) l))
    with (nodes (snd kv) + list_sum (map (fun kv => nodes (snd kv)) l)) in Hfuel.
  pose proof (nodes_pos (snd kv)) as Hpos.
  pose proof (unique_keys_fresh acc kv l Huniq) as Hfresh.
  cbn [map].
  destruct l as [|kv2 l'].
  - cbn [map String.concat].
    rewrite (@read_member_written fuel kv ("}"%char :: rest) acc
               (Hback kv (or_introl eq_refl)) Hv);
      [reflexivity|simpl in Hfuel; lia|reflexivity|exact Hfresh].
  - remember (kv2 :: l') as l eqn:El.
    assert (Hmap : map (fun kv => (PyJson.encode_string (fst kv) ++ ": "
                                  ++ PyJson.dumps (snd kv))%string) l <> [])
      by (rewrite El; discriminate).
    rewrite (chars_concat_more _ _ Hmap), <- !app_assoc.
    rewrite (@read_member_written fuel kv _ acc
               (Hback kv (or_introl eq_refl)) Hv);
      [|lia|reflexivity|exact Hfresh].
    cbn [chars app].
    rewrite (@skip_ws_mark "," _ eq_refl), skip_ws_space.
    assert (Hskip : forall t, PyJson.skip_ws
              (chars (String.concat ", "
                 (map (fun kv => (PyJson.encode_string (fst kv) ++ ": "
                                 ++ PyJson.dumps (snd kv))%string) l)) ++ t)%list =
              (chars (String.concat ", "
                 (map (fun kv => (PyJson.encode_string (fst kv) ++ ": "
                                 ++ PyJson.dumps (snd kv))%string) l)) ++ t)%list).
    { intro t. rewrite El. cbn [map]. rewrite chars_concat_cons.
      destruct (map _ l'); [|rewrite <- !app_assoc];
        now rewrite (member_chars kv2). }
    rewrite Hskip.
    rewrite IH; [now rewrite <- app_assoc| |exact Hl|rewrite El; discriminate| |lia].
    + intros w Hw. apply Hback. now right.
    + now rewrite <- app_assoc.
Qed.

Lemma read_value_list_step (fuel : nat) (s' : list ascii) :
  PyJson.read_value (S fuel) ("["%char :: s') =
  match PyJson.skip_ws s' with
  | c :: rest =>
      if Ascii.eqb c "]" then Some (PyList [], rest)
      else PyJson.read_items fuel (c :: rest) []
  | [] => None
  end.
Proof. reflexivity. Qed.

Lemma read_value_dict_step (fuel : nat) (s' : list ascii) :
  PyJson.read_value (S fuel) ("{"%char :: s') =
  match PyJson.skip_ws s' with
  | c :: rest =>
      if Ascii.eqb c "}" then Some (PyDict [], rest)
      else PyJson.read_members fuel (c :: rest) []
  | [] => None
  end.
Proof. reflexivity. Qed.

Lemma read_value_string_step (fuel : nat) (s' : list ascii) :
  PyJson.read_value (S fuel) (dquote :: s') =
  match PyJson.read_string s' with
  | Some (body, rest) => Some (PyStr (of_chars body), rest)
  | None => None
  end.
Proof. reflexivity. Qed.

(** Every JSON value is read back from its text, with fuel for twice its
    number of values, whatever delimiter follows. *)
Lemma read_value_written (n : nat) (v : PyVal) : nodes v <= n -> reads_back v.
Proof.
  revert v. induction n as [|n IH]; intros v Hn;
    [pose proof (nodes_pos v); lia|].
  intros Hnative fuel rest Hfuel Hrest.
  pose proof (nodes_pos v) as Hpos.
  destruct fuel as [|fuel]; [lia|].
  destruct v as [|[|]|z|s|b|items|items|entries|repr produced failure|repr];
    try discriminate Hnative; try reflexivity.
  - now apply read_value_int.
  - cbn [PyJson.dumps]. rewrite encode_string_chars, read_value_string_step.
    now rewrite read_string_body, of_chars_chars.
  - cbn [PyJson.dumps json_native nodes] in *.
    rewrite !chars_app, <- !app_assoc. cbn [chars app].
    rewrite read_value_list_step.
    destruct items as [|v items']; [reflexivity|].
    remember (v :: items') as items eqn:Ei.
    assert (Hwritten := @read_items_written items).
    assert (Hskip : exists c s',
              (chars (String.concat ", " (map PyJson.dumps items))
               ++ "]"%char :: rest)%list = c :: s' /\
              PyJson.is_ws c = false /\ Ascii.eqb c "]" = false).
    { rewrite Ei. cbn [map]. rewrite chars_concat_cons.
      destruct (map PyJson.dumps items'); [|rewrite <- !app_assoc];
        match goal with |- context [(chars (PyJson.dumps v) ++ ?t)%list] =>
          destruct (dumps_head v t) as (c & s' & E & Hws & Hclose & _)
        end; exists c, s'; now rewrite E. }
    destruct Hskip as (c & s' & E & Hws & Hclose).
    rewrite E, (@skip_ws_mark c s' Hws), Hclose, <- E.
    apply Hwritten; [|exact Hnative|rewrite Ei; discriminate|lia].
    intros w Hw. apply IH. pose proof (nodes_In w items Hw). lia.
  - cbn [PyJson.dumps json_native nodes] in *.
    apply andb_true_iff in Hnative as [Huniq Hnative].
    rewrite !chars_app, <- !app_assoc. cbn [chars app].
    rewrite read_value_dict_step.
    destruct entries as [|kv entries']; [reflexivity|].
    remember (kv :: entries') as entries eqn:Ee.
    assert (Hwritten := @read_members_written entries).
    assert (Hskip : exists s',
              (chars (String.concat ", "
                 (map (fun kv => (PyJson.encode_string (fst kv) ++ ": "
                                  ++ PyJson.dumps (snd kv))%string) entries))
               ++ "}"%char :: rest)%list = dquote :: s').
    { rewrite Ee. cbn [map]. rewrite chars_concat_cons.
      destruct (map _ entries'); [|rewrite <- !app_assoc];
        rewrite (member_chars kv); eexists; reflexivity. }
    destruct Hskip as (s' & E).
    rewrite E, (@skip_ws_mark dquote _ eq_refl).
    replace (Ascii.eqb dquote "}") with false by reflexivity. rewrite <- E.
    apply Hwritten; [|exact Hnative|rewrite Ee; discriminate|exact Huniq|lia].
    intros w Hw. apply IH. pose proof (nodes_In_snd w entries Hw). lia.
Qed.

Lemma list_sum_le {A : Type} (f g : A -> nat) (l : list A) :
  (forall x, In x l -> f x <= g x) ->
  list_sum (map f l) <= list_sum (map g l).
Proof.
  induction l as [|a l IH]; intro H; [reflexivity|].
  cbn [map]. change (list_sum (?x :: ?t)) with (x + list_sum t).
  pose proof (H a (or_introl eq_refl)).
  assert (list_sum (map f l) <= list_sum (map g l))
    by (apply IH; intros x Hx; apply H; now right).
  lia.
Qed.

Lemma concat_length (sep : string) (l : list string) :
  list_sum (map (fun x => List.length (chars x)) l) <=
  List.length (chars (String.concat sep l)).
Proof.
  induction l as [|x l IH]; [reflexivity|].
  cbn [map]. change (list_sum (?a :: ?t)) with (a + list_sum t).
  rewrite chars_concat_cons. destruct l as [|y l'].
  - simpl. lia.
  - rewrite !length_app. lia.
Qed.

(** A written value takes at least one character for each of its values. *)
Lemma nodes_le_text (n : nat) (v : PyVal) :
  nodes v <= n -> nodes v <= List.length (chars (PyJson.dumps v)).
Proof.
  revert v. induction n as [|n IH]; intros v Hn;
    [pose proof (nodes_pos v); lia|].
  assert (Hone : 1 <= List.length (chars (PyJson.dumps v))).
  { destruct (dumps_head v []) as (c & s' & E & _).
    rewrite List.app_nil_r in E. rewrite E. simpl. lia. }
  assert (Hitems : forall items, S (list_sum (map nodes items)) <= S n ->
            list_sum (map nodes items) <=
            List.length (chars (String.concat ", " (map PyJson.dumps items)))).
  { intros items Hi.
    etransitivity; [|apply concat_length]. rewrite map_map.
    apply list_sum_le. intros x Hx. apply IH.
    pose proof (nodes_In x items Hx). lia. }
  destruct v as [|[|]|z|s|b|items|items|entries|repr produced failure|repr];
    try exact Hone; cbn [PyJson.dumps nodes] in *.
  - rewrite !chars_app, !length_app. specialize (Hitems items Hn). simpl. lia.
  - rewrite !chars_app, !length_app. specialize (Hitems items Hn). simpl. lia.
  - rewrite !chars_app, !length_app. cbn [chars List.length].
    assert (list_sum (map (fun kv => nodes (snd kv)) entries) <=
            List.length (chars (String.concat ", "
               (map (fun kv => (PyJson.encode_string (fst kv) ++ ": "
                                ++ PyJson.dumps (snd kv))%string) entries)))).
    { etransitivity; [|apply concat_length]. rewrite map_map.
      apply list_sum_le. intros x Hx. rewrite !chars_app, !length_app.
      assert (nodes (snd x) <= List.length (chars (PyJson.dumps (snd x)))).
      { apply IH. pose proof (nodes_In_snd x entries Hx). lia. }
      lia. }
    lia.
Qed.

(** The codec reads back every JSON value it writes. *)
Lemma PyJson_reads_back (v : PyVal) :
  json_native v = true -> PyJson.loads (PyJson.dumps v) = Some v.
Proof.
  intro Hnative. unfold PyJson.loads.
  pose proof (skip_ws_dumps v []) as Hskip. rewrite List.app_nil_r in Hskip.
  rewrite Hskip.
  pose proof (@read_value_written (nodes v) v (le_n _) Hnative
                (2 * List.length (chars (PyJson.dumps v)) + 2) [])
    as Hread.
  rewrite List.app_nil_r in Hread. rewrite Hread; [reflexivity| |reflexivity].
  pose proof (@nodes_le_text (nodes v) v (le_n _)). lia.
Qed.

(** ** The classifier *)

Section ClassifierFacts.

Variable Pattern : Type.
Variable re_compile : string -> option Pattern.
Variable re_match : Pattern -> string -> bool.

Local Abbreviation Controls := (CrudControls Pattern).
Local Abbreviation compile := (compile_patterns re_compile).
Local Abbreviation matches := (matches_pattern re_compile re_match).
Local Abbreviation approves := (pattern_approves re_compile re_match).

(** The inner loop of [compile_patterns] appends, to what it was given, the
    regex part and the glob part of the list. *)
Lemma compile_pattern_fold (patterns : list string) (rs : list Pattern)
    (gs : list string) :
  fold_left (compile_pattern re_compile) patterns (rs, gs) =
  ((rs ++ regex_part re_compile patterns)%list,
   (gs ++ glob_part re_compile patterns)%list).
Proof.
  revert rs gs; induction patterns as [|p l IH]; intros rs gs; simpl.
  - now rewrite !List.app_nil_r.
  - destruct (_is_regex_pattern p).
    + destruct (re_compile (pattern_text p)); rewrite IH; simpl;
        now rewrite <- ?app_assoc.
    + rewrite IH; simpl; now rewrite <- ?app_assoc.
Qed.

(** Matching the regex part and then the glob part of a list is asking
    each pattern of the list in turn. *)
Lemma parts_approve (name : string) (patterns : list string) :
  existsb (fun pattern => re_match pattern name) (regex_part re_compile patterns)
  || existsb (fun pattern => fnmatch name pattern) (glob_part re_compile patterns)
  = existsb (approves name) patterns.
Proof.
  induction patterns as [|p l IH]; simpl; [reflexivity|].
  unfold regex_part, glob_part in *; simpl.
  rewrite !existsb_app, <- IH. unfold pattern_approves.
  destruct (_is_regex_pattern p); [destruct (re_compile (pattern_text p))|];
    simpl; rewrite ?orb_false_r;
    repeat match goal with |- context [existsb ?f ?l] => destruct (existsb f l) end;
    repeat match goal with |- context [re_match ?a ?b] => destruct (re_match a b) end;
    repeat match goal with |- context [fnmatch ?a ?b] => destruct (fnmatch a b) end;
    reflexivity.
Qed.

(** [compile_patterns] reads the Rule Sets and writes only the cache. *)
Lemma compile_types_rules (types : list CrudType) (self : Controls) :
  set_cache (fst (compile_types re_compile types self)) [] = set_cache self [].
Proof.
  revert self; induction types as [|t ts IH]; intros self; simpl; [reflexivity|].
  destruct (pattern_list self t); [|reflexivity].
  destruct (fold_left _ _ _). rewrite IH. reflexivity.
Qed.

Lemma set_cache_twice (self : Controls) (a b : list (CrudType * CompiledPatterns Pattern)) :
  set_cache (set_cache self a) b = set_cache self b.
Proof. reflexivity. Qed.

Lemma set_cache_same (self : Controls) :
  set_cache self (_compiled_patterns self) = self.
Proof. destruct self; reflexivity. Qed.

Lemma compile_again (self : Controls) :
  compile (synced re_compile self) = compile self.
Proof.
  unfold synced, compile_patterns.
  rewrite compile_types_rules, set_cache_twice. reflexivity.
Qed.

(** With every list present the compilation succeeds, and its cache has
    the four entries in the order of the CRUD types. *)
Lemma compile_present (self : Controls) (lc lr lu ld : list string) :
  create_list self = Some lc -> read_list self = Some lr ->
  update_list self = Some lu -> delete_list self = Some ld ->
  compile self =
  (set_cache self
     [(Create, compiled_of re_compile lc); (Read, compiled_of re_compile lr);
      (Update, compiled_of re_compile lu); (Delete, compiled_of re_compile ld)],
   Return tt).
Proof.
  intros Hc Hr Hu Hd. destruct self; simpl in *; subst.
  unfold compile_patterns, set_cache; simpl.
  rewrite !compile_pattern_fold. reflexivity.
Qed.

Lemma lists_present_inv (self : Controls) :
  lists_present self = true ->
  exists lc lr lu ld,
    create_list self = Some lc /\ read_list self = Some lr /\
    update_list self = Some lu /\ delete_list self = Some ld.
Proof.
  unfold lists_present.
  destruct (create_list self) as [lc|], (read_list self) as [lr|],
    (update_list self) as [lu|], (delete_list self) as [ld|]; try discriminate.
  intros _. now exists lc, lr, lu, ld.
Qed.

(** The decision of [matches_pattern] on a classifier whose lists are
    present and whose cache is empty or derived: the state after the call
    is the compiled one and the answer is [approved]. *)
Lemma matches_pattern_approved (self : Controls) (name : string) (t : CrudType) :
  lists_present self = true -> in_sync re_compile self ->
  matches self name t =
  (synced re_compile self, Return (approved re_compile re_match self name t)).
Proof.
  intros Hp Hs.
  destruct (lists_present_inv self Hp) as (lc & lr & lu & ld & Hc & Hr & Hu & Hd).
  pose proof (compile_present self Hc Hr Hu Hd) as Hcomp.
  assert (Hsync : synced re_compile self =
                  set_cache self
                    [(Create, compiled_of re_compile lc); (Read, compiled_of re_compile lr);
                     (Update, compiled_of re_compile lu); (Delete, compiled_of re_compile ld)])
    by (unfold synced; now rewrite Hcomp).
  assert (Hstep : matches self name t = matches (synced re_compile self) name t).
  { destruct Hs as [Hempty | Hfix].
    - unfold matches_pattern at 1. rewrite Hempty; simpl is_empty; cbv iota.
      rewrite Hcomp. unfold matches_pattern. rewrite Hsync. reflexivity.
    - now rewrite <- Hfix. }
  rewrite Hstep, Hsync. unfold matches_pattern, approved; simpl.
  destruct self; simpl in *; subst.
  destruct t; simpl;
    match goal with |- context [truthy ?f] => destruct (truthy f) end; simpl;
    try reflexivity; rewrite <- parts_approve;
    match goal with |- context [existsb ?f (regex_part _ ?l)] =>
      destruct (existsb f (regex_part re_compile l)) end; simpl; try reflexivity;
    match goal with |- context [existsb ?f (glob_part _ ?l)] =>
      destruct (existsb f (glob_part re_compile l)) end; reflexivity.
Qed.

Lemma flag_set_cache (self : Controls) (cache : list (CrudType * CompiledPatterns Pattern))
    (t : CrudType) :
  flag (set_cache self cache) t = flag self t.
Proof. destruct t; reflexivity. Qed.

Lemma truthy_false (b : option bool) : b <> Some true -> truthy b = false.
Proof. destruct b as [[|]|]; simpl; congruence. Qed.

(** The state a query leaves: the compiled one when the cache was empty,
    the state it found otherwise. *)
Lemma matches_pattern_state (self : Controls) (name : string) (t : CrudType) :
  fst (matches self name t) =
  if is_empty (_compiled_patterns self) then synced re_compile self else self.
Proof.
  unfold matches_pattern, synced.
  destruct (is_empty (_compiled_patterns self)).
  - destruct (compile self) as [self' [[]|e]]; simpl; [|reflexivity].
    destruct (negb _); [reflexivity|].
    destruct (existsb _ _); [reflexivity|].
    destruct (existsb _ _); reflexivity.
  - destruct (negb _); [reflexivity|].
    destruct (existsb _ _); [reflexivity|].
    destruct (existsb _ _); reflexivity.
Qed.

(** A pattern [P] of an enabled bucket that is sniffed as a regex and
    that the engine refuses: the query returns, [P]'s text is tried as a
    glob, and when [P] is the only pattern of the bucket the decision is
    exactly the glob match. *)
Lemma refused_pattern_is_tried_as_glob (self : CrudControls Pattern) (name : string)
    (t : CrudType) (patterns : list string) (P : string) :
  lists_present self = true ->
  in_sync re_compile self ->
  flag self t = Some true ->
  pattern_list self t = Some patterns ->
  In P patterns ->
  _is_regex_pattern P = true ->
  re_compile (pattern_text P) = None ->
  exists answer,
    snd (matches_pattern re_compile re_match self name t) = Return answer /\
    (fnmatch name (pattern_text P) = true -> answer = true) /\
    (patterns = [P] -> answer = fnmatch name (pattern_text P)).
Proof.
  intros Hp Hs Hflag Hlist Hin Hsniff Hfail.
  rewrite (matches_pattern_approved name t Hp Hs). simpl snd.
  eexists; split; [reflexivity|].
  assert (Hglob : approves name P = fnmatch name (pattern_text P))
    by (unfold pattern_approves; now rewrite Hsniff, Hfail).
  unfold approved. rewrite Hflag, Hlist. simpl. split.
  - intro Hm. apply existsb_exists. exists P. now rewrite Hglob.
  - intros ->. simpl. now rewrite Hglob, orb_false_r.
Qed.

(** C7.  Compiling is idempotent.  On the classifier [once] that one
    compilation leaves, a second compilation gives the same state and the
    same outcome; a query leaves [once] as it is, so the cache can be derived
    again after any number of queries; and every query has the same result
    after two compilations as after one. *)
Theorem compile_patterns_idempotent (self : CrudControls Pattern) (name : string)
    (t : CrudType) :
  compile_patterns re_compile (fst (compile_patterns re_compile self)) =
  compile_patterns re_compile self /\
  fst (matches_pattern re_compile re_match
         (fst (compile_patterns re_compile self)) name t) =
  fst (compile_patterns re_compile self) /\
  matches_pattern re_compile re_match
    (fst (compile_patterns re_compile
            (fst (compile_patterns re_compile self)))) name t =
  matches_pattern re_compile re_match
    (fst (compile_patterns re_compile self)) name t.
Proof.
  pose proof (compile_again self) as Hagain. unfold synced in Hagain.
  split; [exact Hagain|]. split.
  - rewrite matches_pattern_state. unfold synced. rewrite Hagain.
    now destruct (is_empty _).
  - now rewrite Hagain.
Qed.

End ClassifierFacts.

(** ** The operation builder *)

Section BuilderFacts.

Variable Pattern : Type.
Variable re_compile : string -> option Pattern.
Variable re_match : Pattern -> string -> bool.

Local Abbreviation Controls := (CrudControls Pattern).
Local Abbreviation approved_by self :=
  (fun name => existsb (approved re_compile re_match self name) crud_types).

(** Two classifiers with the same Rule Sets decide alike. *)
Lemma same_rules (a b : Controls) :
  set_cache a [] = set_cache b [] ->
  lists_present a = lists_present b /\
  forall name t, approved re_compile re_match a name t = approved re_compile re_match b name t.
Proof.
  destruct a, b; unfold set_cache; simpl. intro H. injection H as -> -> -> -> -> -> -> ->.
  split; [reflexivity|]. intros name t. destruct t; reflexivity.
Qed.

Lemma synced_rules (self : Controls) :
  set_cache (synced re_compile self) [] = set_cache self [].
Proof.
  unfold synced, compile_patterns.
  now rewrite compile_types_rules, set_cache_twice.
Qed.

Lemma synced_in_sync (self : Controls) : in_sync re_compile (synced re_compile self).
Proof.
  right. unfold synced at 2. now rewrite compile_again.
Qed.

Lemma visited_query (self current : Controls) (name : string) (t : CrudType) :
  lists_present self = true -> in_sync re_compile self -> visited re_compile self current ->
  matches_pattern re_compile re_match current name t =
  (synced re_compile self, Return (approved re_compile re_match self name t)).
Proof.
  intros Hp Hs [-> | ->].
  - now apply matches_pattern_approved.
  - destruct (same_rules (synced_rules self)) as [Hp' Ha'].
    rewrite matches_pattern_approved;
      [|now rewrite Hp'|apply synced_in_sync].
    rewrite Ha'. f_equal. unfold synced at 1. now rewrite compile_again.
Qed.

Lemma any_matches_approved (self current : Controls) (name : string)
    (types : list CrudType) :
  lists_present self = true -> in_sync re_compile self -> visited re_compile self current ->
  exists current',
    any_matches re_compile re_match current name types =
    (current', Return (existsb (approved re_compile re_match self name) types)) /\
    visited re_compile self current'.
Proof.
  intros Hp Hs. revert current.
  induction types as [|t ts IH]; intros current Hv; simpl.
  - now exists current.
  - rewrite (visited_query name t Hp Hs Hv).
    destruct (approved re_compile re_match self name t); simpl.
    + eexists; split; [reflexivity|]. now right.
    + apply IH. now right.
Qed.

(** The loop of [_build_operations] is [build_with] on the classifier's
    contract. *)
Lemma build_loop_contract (self : Controls) (client : Client) (sdk : SdkObject)
    (names : list string) :
  lists_present self = true -> in_sync re_compile self ->
  forall current operations, visited re_compile self current ->
  snd (build_loop re_compile re_match client sdk names current operations) =
  build_with (approved_by self) client sdk names operations.
Proof.
  intros Hp Hs.
  induction names as [|n names IH]; intros current ops Hv;
    cbn [build_loop build_with]; [reflexivity|].
  destruct (getattr sdk n) as [func|e]; cbn [bind snd]; [|reflexivity].
  destruct (AutoTool_new client n (doc func)) as [op|e]; cbn [bind snd]; [|reflexivity].
  destruct (any_matches_approved n crud_types Hp Hs Hv) as (current' & Hany & Hv').
  rewrite Hany.
  destruct (existsb _ crud_types); now apply IH.
Qed.

(** Construction of the wrapper, on the classifier's contract. *)
Lemma init_contract (self : Controls) (client : Client) :
  lists_present self = true -> in_sync re_compile self ->
  AutoToolWrapper_init re_compile re_match client (Some self) =
  match getitem client "client" with
  | Raise e => Raise e
  | Return sdk =>
      match build_with (approved_by self) client sdk (sdk_functions sdk) [] with
      | Raise e => Raise e
      | Return operations =>
          Return {| wrapper_client := client;
                    operations := operations;
                    crud_controls :=
                      fst (_build_operations re_compile re_match client self) |}
      end
  end.
Proof.
  intros Hp Hs. unfold AutoToolWrapper_init, _build_operations. simpl or_default.
  destruct (getitem client "client") as [sdk|e]; [|reflexivity].
  pose proof (build_loop_contract client sdk (sdk_functions sdk) Hp Hs
                [] (or_introl eq_refl)) as Hloop.
  destruct (build_loop _ _ _ _ _ _ _) as [current' built]. simpl in *.
  rewrite Hloop. destruct (build_with _ _ _ _ _); reflexivity.
Qed.

End BuilderFacts.

(** ** Reflection and the tools that are built *)

Lemma lookup_In_dir {V : Type} (k : string) (d : list (string * V)) (v : V) :
  lookup k d = Some v -> In k (map fst d).
Proof.
  induction d as [|[k' v'] d IH]; simpl; [discriminate|].
  destruct (String.eqb_spec k k') as [->|Hne]; [now left|].
  intro H. right. now apply IH.
Qed.

(** The names that survive the filter are the callable members without a
    leading underscore. *)
Lemma sdk_functions_In (sdk : SdkObject) (func_name : string) :
  In func_name (sdk_functions sdk) <->
  exists func, lookup func_name sdk = Some func /\ callable func = true /\
               startswith func_name "_" = false.
Proof.
  unfold sdk_functions, getattr. rewrite filter_In. split.
  - intros [_ H]. apply andb_true_iff in H as [Hc Hu].
    destruct (lookup func_name sdk) as [func|]; [|discriminate].
    exists func. now rewrite negb_true_iff in Hu.
  - intros (func & Hl & Hc & Hu). split; [now apply lookup_In_dir with func|].
    now rewrite Hl, Hc, Hu.
Qed.

(** With every name documented, the loop returns the tools of the approved
    names after the ones it was given. *)
Lemma build_with_documented (approve : string -> bool) (client : Client)
    (sdk : SdkObject) (names : list string) :
  (forall n, In n names -> documented sdk n) ->
  forall operations,
  build_with approve client sdk names operations =
  Return (operations ++ flat_map (tool_of client sdk) (filter approve names))%list.
Proof.
  induction names as [|n names IH]; intros Hdoc ops; simpl.
  - now rewrite List.app_nil_r.
  - destruct (Hdoc n (or_introl eq_refl)) as (func & text & Hl & Hd).
    unfold getattr. rewrite Hl. simpl. rewrite Hd. simpl.
    rewrite IH by (intros m Hm; apply Hdoc; now right).
    destruct (approve n); [|reflexivity].
    simpl. unfold tool_of at 2. rewrite Hl, Hd. now rewrite <- app_assoc.
Qed.


Lemma filter_none {A : Type} (f : A -> bool) (l : list A) :
  (forall y, In y l -> f y = false) -> filter f l = [].
Proof.
  induction l as [|a l IH]; intro H; simpl; [reflexivity|].
  rewrite (H a (or_introl eq_refl)). apply IH. intros y Hy. apply H. now right.
Qed.

Lemma filter_single {A : Type} (f : A -> bool) (x : A) (l : list A) :
  NoDup l -> In x l -> (forall y, f y = true <-> y = x) -> filter f l = [x].
Proof.
  intros Hnd Hin Hf. induction l as [|a l IH]; simpl; [destruct Hin|].
  inversion Hnd as [|? ? Hnotin Hnd']; subst.
  destruct Hin as [-> | Hin].
  - rewrite (proj2 (Hf x) eq_refl). f_equal.
    apply filter_none. intros y Hy. apply not_true_is_false. intro Hfy.
    apply Hf in Hfy. congruence.
  - destruct (f a) eqn:Hfa.
    + apply Hf in Hfa. congruence.
    + now apply IH.
Qed.

(** ** Construction of the wrapper *)

Section WrapperFacts.

Variable Pattern : Type.
Variable re_compile : string -> option Pattern.
Variable re_match : Pattern -> string -> bool.

Local Abbreviation Controls := (CrudControls Pattern).
Local Abbreviation init := (AutoToolWrapper_init re_compile re_match).
Local Abbreviation approved_by self :=
  (fun name => existsb (approved re_compile re_match self name) crud_types).

(** With read the only enabled bucket and the single literal pattern
    [get_thing] in it, the classifier approves that name and no other. *)
Lemma only_get_thing_approved (self : Controls) (func_name : string) :
  read self = Some true -> read_list self = Some ["get_thing"] ->
  create self <> Some true -> update self <> Some true -> delete self <> Some true ->
  approved_by self func_name = true <-> func_name = "get_thing".
Proof.
  intros Hr Hrl Hc Hu Hd. unfold approved; simpl.
  rewrite (truthy_false Hc), (truthy_false Hu), (truthy_false Hd), Hr, Hrl.
  simpl. rewrite !orb_false_r.
  unfold pattern_approves.
  replace (_is_regex_pattern "get_thing") with false by reflexivity.
  now apply fnmatch_glob_free.
Qed.

(** C8.  With read enabled, [read_list = ['get_thing']] and the three other
    buckets disabled, the wrapper built over a client that has a callable
    member [get_thing] holds exactly one Operation, named [get_thing]:
    the pattern is compared with the whole name, so [get_things] and every
    other member stay out. *)
Theorem literal_read_list_selects_get_thing (self : CrudControls Pattern) (client : Client)
    (sdk : SdkObject) (get_thing : Attr) :
  getitem client "client" = Return sdk ->
  NoDup (dir sdk) ->
  lookup "get_thing" sdk = Some get_thing ->
  callable get_thing = true ->
  (forall n, In n (sdk_functions sdk) -> documented sdk n) ->
  lists_present self = true ->
  in_sync re_compile self ->
  read self = Some true ->
  read_list self = Some ["get_thing"] ->
  create self <> Some true ->
  update self <> Some true ->
  delete self <> Some true ->
  exists wrapper,
    AutoToolWrapper_init re_compile re_match client (Some self) = Return wrapper /\
    map name (operations wrapper) = ["get_thing"].
Proof.
  intros Hget Hnd Hl Hcall Hdoc Hp Hs Hr Hrl Hc Hu Hd.
  rewrite (init_contract re_match client Hp Hs), Hget.
  rewrite (@build_with_documented _ client sdk (sdk_functions sdk) Hdoc).
  eexists; split; [reflexivity|]. cbn [operations app].
  assert (Hin : In "get_thing" (sdk_functions sdk))
    by (apply sdk_functions_In; now exists get_thing).
  rewrite (@filter_single _ (approved_by self) "get_thing" (sdk_functions sdk)).
  - destruct (Hdoc _ Hin) as (func & text & Hl' & Hd').
    simpl. unfold tool_of. now rewrite Hl', Hd'.
  - now apply NoDup_filter.
  - exact Hin.
  - intro y. now apply only_get_thing_approved.
Qed.

(** C3, as the program has it.  For a client that is not reflectable, the
    construction of the wrapper either fails at [self.client['client']] with
    the [KeyError] or [TypeError] of that subscript, before any Operation is
    built, or it succeeds with an empty Operation Set (the object under
    ['client'] has no public callable member).  No Operation Set is left
    half built. *)
Theorem client_without_public_members (client : Client)
    (controls : option (CrudControls Pattern)) :
  ~ reflectable client ->
  match AutoToolWrapper_init re_compile re_match client controls with
  | Raise e => (e = KeyError \/ e = TypeError) /\ getitem client "client" = Raise e
  | Return wrapper =>
      operations wrapper = [] /\ exists sdk, getitem client "client" = Return sdk
  end.
Proof.
  intro Hnot. unfold AutoToolWrapper_init, _build_operations.
  destruct (getitem client "client") as [sdk|e] eqn:Hget.
  - assert (Hnone : sdk_functions sdk = []).
    { destruct (sdk_functions sdk) as [|n l] eqn:Hf; [reflexivity|].
      exfalso. apply Hnot. exists sdk. split; [exact Hget|]. rewrite Hf. discriminate. }
    rewrite Hnone. simpl. split; [reflexivity|now exists sdk].
  - simpl. split; [|reflexivity].
    unfold getitem in Hget. destruct client as [entries|].
    + destruct (lookup "client" entries); [discriminate|]. injection Hget as <-. now left.
    + injection Hget as <-. now right.
Qed.


End WrapperFacts.

(** ** The invocation adapter *)

Section AdapterFacts.

Variable json_loads : string -> option PyVal.
Variable json_dumps : PyVal -> string.

Local Abbreviation run := (_run json_loads json_dumps).

(** [_run] once the member is resolved: the two keyword mappings are
    unpacked side by side into one call. *)
Lemma run_resolved (self : AutoTool) (tool_input : PyVal) (args : list PyVal)
    (kwargs : Kwargs) (sdk : SdkObject) (func : Attr) :
  getitem (client self) "client" = Return sdk ->
  getattr sdk (name self) = Return func ->
  run self tool_input args kwargs =
  try_except_AttributeError
    (result <- call_member func args (load_params json_loads tool_input) kwargs ;;
     result <- normalize_result result ;;
     Return (json_dumps result))
    (Return ("Invalid function name: " ++ name self)).
Proof.
  intros Hget Hattr. unfold _run.
  rewrite Hget. cbn [bind]. rewrite Hattr. reflexivity.
Qed.

(** C1, as the program has it.  When the input mapping and [kwargs] share a
    key, the member is not called and the invocation raises [TypeError];
    when they share none, the member is called with [args] and with the
    entries of the input mapping followed by those of [kwargs]. *)
Theorem keyword_mappings_are_unpacked_side_by_side (self : AutoTool)
    (tool_input : PyVal) (args : list PyVal) (kwargs : Kwargs) (sdk : SdkObject)
    (func : Attr) (body : list PyVal -> Kwargs -> Outcome PyVal)
    (entries : list (string * PyVal)) :
  getitem (client self) "client" = Return sdk ->
  getattr sdk (name self) = Return func ->
  call func = Some body ->
  load_params json_loads tool_input = PyDict entries ->
  _run json_loads json_dumps self tool_input args kwargs =
  if collide entries kwargs then Raise TypeError
  else
    try_except_AttributeError
      (result <- body args (entries ++ kwargs)%list ;;
       result <- normalize_result result ;;
       Return (json_dumps result))
      (Return ("Invalid function name: " ++ name self)).
Proof.
  intros Hget Hattr Hcall Hparams.
  rewrite (run_resolved self tool_input args kwargs Hget Hattr).
  unfold call_member, collide. rewrite Hparams, Hcall.
  destruct (existsb _ kwargs); reflexivity.
Qed.

(** What [_run] does with an exception of the member: every class but
    [AttributeError] leaves the adapter; [AttributeError] is answered with
    the text for a name that does not resolve. *)
Lemma run_member_raises (self : AutoTool) (tool_input : PyVal) (args : list PyVal)
    (kwargs : Kwargs) (sdk : SdkObject) (func : Attr) (e : ExnClass) :
  getitem (client self) "client" = Return sdk ->
  getattr sdk (name self) = Return func ->
  call_member func args (load_params json_loads tool_input) kwargs = Raise e ->
  run self tool_input args kwargs =
  if is_AttributeError e then Return ("Invalid function name: " ++ name self)
  else Raise e.
Proof.
  intros Hget Hattr Hraise.
  rewrite (run_resolved self tool_input args kwargs Hget Hattr), Hraise.
  reflexivity.
Qed.


(** The asynchronous entry point is the synchronous one. *)
Remark arun_is_run (self : AutoTool) (tool_input : PyVal) (args : list PyVal)
    (kwargs : Kwargs) :
  _arun json_loads json_dumps self tool_input args kwargs =
  _run json_loads json_dumps self tool_input args kwargs.
Proof. reflexivity. Qed.

End AdapterFacts.

(** C2.  The member [get_thing] resolves on the client and its body raises
    [AttributeError]: the invocation does not raise, it returns the text for
    a name that does not resolve. *)
Theorem attribute_error_of_member_is_masked :
  _run PyJson.loads PyJson.dumps
    {| client := raising_client AttributeError; name := "get_thing";
       description := "Gets Thing" |}
    (PyDict [("thing_id", PyInt 123)]) [] [] =
  Return "Invalid function name: get_thing".
Proof. reflexivity. Qed.

(** ** Further properties of the classifier, the builder and the adapter *)

Section FurtherFacts.

Variable Pattern : Type.
Variable re_compile : string -> option Pattern.
Variable re_match : Pattern -> string -> bool.
Variable json_loads : string -> option PyVal.
Variable json_dumps : PyVal -> string.

Local Abbreviation Controls := (CrudControls Pattern).
Local Abbreviation run := (_run json_loads json_dumps).
Local Abbreviation approved_by self :=
  (fun name => existsb (approved re_compile re_match self name) crud_types).


(** X2.  A pattern that is not sniffed as a regex approves the name equal
    to it and no other name. *)
Theorem plain_pattern_approves_equal_name (name pattern : string) :
  _is_regex_pattern pattern = false ->
  (pattern_approves re_compile re_match name pattern = true <-> name = pattern).
Proof.
  intro Hplain. unfold pattern_approves. rewrite Hplain.
  apply fnmatch_glob_free. now apply not_regex_glob_free.
Qed.

(** X3.  An exception of the member whose class is not [AttributeError]
    leaves the adapter as it is. *)
Theorem member_exception_propagates (self : AutoTool) (tool_input : PyVal)
    (args : list PyVal) (kwargs : Kwargs) (sdk : SdkObject) (func : Attr)
    (e : ExnClass) :
  getitem (client self) "client" = Return sdk ->
  getattr sdk (name self) = Return func ->
  call_member func args (load_params json_loads tool_input) kwargs = Raise e ->
  is_AttributeError e = false ->
  _run json_loads json_dumps self tool_input args kwargs = Raise e.
Proof.
  intros Hget Hattr Hraise Hclass.
  rewrite (run_member_raises json_loads json_dumps self tool_input args kwargs
             Hget Hattr Hraise).
  now rewrite Hclass.
Qed.

(** X4.  Input text that does not decode is treated as no input at all. *)
Theorem malformed_text_is_no_arguments (self : AutoTool) (text : string)
    (args : list PyVal) (kwargs : Kwargs) :
  json_loads text = None ->
  _run json_loads json_dumps self (PyStr text) args kwargs =
  _run json_loads json_dumps self PyNone args kwargs.
Proof.
  intro Hbad. unfold _run, load_params. now rewrite Hbad.
Qed.

(** X5.  A member that returns a JSON dict: the text the adapter returns
    decodes to it, with a codec that reads back the JSON values it writes. *)
Theorem dict_result_round_trips (self : AutoTool) (tool_input : PyVal)
    (args : list PyVal) (kwargs : Kwargs) (sdk : SdkObject) (func : Attr)
    (entries : list (string * PyVal)) :
  (forall v, json_native v = true -> json_loads (json_dumps v) = Some v) ->
  getitem (client self) "client" = Return sdk ->
  getattr sdk (name self) = Return func ->
  call_member func args (load_params json_loads tool_input) kwargs =
    Return (PyDict entries) ->
  json_native (PyDict entries) = true ->
  exists text,
    _run json_loads json_dumps self tool_input args kwargs = Return text /\
    json_loads text = Some (PyDict entries).
Proof.
  intros Hcodec Hget Hattr Hcall Hnative.
  rewrite (run_resolved json_loads json_dumps self tool_input args kwargs Hget Hattr),
    Hcall.
  cbn [bind normalize_result try_except_AttributeError].
  eexists. split; [reflexivity|now apply Hcodec].
Qed.

Lemma tool_names (client : Client) (sdk : SdkObject) (names : list string) :
  (forall n, In n names -> documented sdk n) ->
  map name (flat_map (tool_of client sdk) names) = names.
Proof.
  induction names as [|n l IH]; intro Hdoc; [reflexivity|].
  destruct (Hdoc n (or_introl eq_refl)) as (func & text & Hl & Hd).
  cbn [flat_map]. unfold tool_of at 1. rewrite Hl, Hd. cbn [app map name].
  f_equal. apply IH. intros m Hm. apply Hdoc. now right.
Qed.

(** X6.  The Operation Set follows the order of reflection and holds one
    Operation for each approved name that reflection lists. *)
Theorem operations_follow_reflection_order (self : CrudControls Pattern)
    (client : Client) (sdk : SdkObject) :
  getitem client "client" = Return sdk ->
  lists_present self = true ->
  in_sync re_compile self ->
  (forall n, In n (sdk_functions sdk) -> documented sdk n) ->
  exists wrapper,
    AutoToolWrapper_init re_compile re_match client (Some self) = Return wrapper /\
    map name (operations wrapper) =
    filter (fun n => existsb (approved re_compile re_match self n) crud_types)
      (sdk_functions sdk).
Proof.
  intros Hget Hp Hs Hdoc.
  rewrite (init_contract re_match client Hp Hs), Hget.
  rewrite (@build_with_documented _ client sdk (sdk_functions sdk) Hdoc).
  eexists; split; [reflexivity|]. cbn [operations app].
  apply tool_names. intros n Hn. apply Hdoc.
  now apply filter_In in Hn as [Hn _].
Qed.

End FurtherFacts.

(** ** The claims on the objects of the unit tests *)

(** C1 fails as stated: [get_thing] is invoked with [thing_id] both in the
    input mapping and in [kwargs]; the invocation raises [TypeError] and does
    not return what the member gives for the value of [kwargs]. *)
Lemma keyword_collision_raises :
  _run PyJson.loads PyJson.dumps (UnitTests.tool "get_thing" "Gets Thing")
    (PyDict [("thing_id", PyInt 123)]) [] [("thing_id", PyInt 456)]
  = Raise TypeError /\
  _run PyJson.loads PyJson.dumps (UnitTests.tool "get_thing" "Gets Thing")
    (PyDict [("thing_id", PyInt 123)]) [] [("thing_id", PyInt 456)]
  <> Return (PyJson.dumps (FakeSdk._dummy_return (PyInt 456))).
Proof. split; [reflexivity|discriminate]. Qed.

(** C1 on [get_things_generator], with [start_id] in the input mapping and
    [count] in [kwargs]: the member receives both. *)
Lemma keyword_mappings_witness :
  _run PyJson.loads PyJson.dumps
    (UnitTests.tool "get_things_generator" "Generates multiple Things")
    (PyDict [("start_id", PyInt 100)]) [] [("count", PyInt 2)]
  = Return (PyJson.dumps (PyList [FakeSdk._dummy_return (PyInt 100);
                                  FakeSdk._dummy_return (PyInt 101)])).
Proof.
  rewrite (@keyword_mappings_are_unpacked_side_by_side PyJson.loads PyJson.dumps
             (UnitTests.tool "get_things_generator" "Generates multiple Things")
             (PyDict [("start_id", PyInt 100)]) [] [("count", PyInt 2)]
             FakeSdk.sdk _ _ [("start_id", PyInt 100)]
             eq_refl eq_refl eq_refl eq_refl).
  reflexivity.
Defined.

(** C3 fails as stated: a client that cannot be subscripted is not
    reflectable and the construction raises [TypeError]; a client that holds
    an [object()], which has no public member, is not reflectable and the
    construction succeeds, with no Operation. *)
Lemma unreflectable_client_counterexample :
  (~ reflectable ClientOther /\
   AutoToolWrapper_init PyRe.compile PyRe.matches ClientOther None = Raise TypeError /\
   TypeError <> ConfigurationError) /\
  (~ reflectable (ClientDict [("client", plain_object)]) /\
   exists wrapper,
     AutoToolWrapper_init PyRe.compile PyRe.matches
       (ClientDict [("client", plain_object)]) None
     = Return wrapper /\ operations wrapper = []).
Proof.
  split; split.
  - intros (sdk & H & _). discriminate.
  - split; [reflexivity|discriminate].
  - intros (sdk & H & Hf). injection H as <-. now apply Hf.
  - eexists. split; reflexivity.
Qed.

Lemma client_without_public_members_witness :
  ~ reflectable (ClientDict [("mistake", FakeSdk.sdk)]) /\
  AutoToolWrapper_init PyRe.compile PyRe.matches
    (ClientDict [("mistake", FakeSdk.sdk)]) (Some UnitTests.default_controls)
  = Raise KeyError.
Proof.
  assert (H : ~ reflectable (ClientDict [("mistake", FakeSdk.sdk)]))
    by (intros (sdk & H & _); discriminate).
  split; [exact H|].
  pose proof (@client_without_public_members _ PyRe.compile PyRe.matches
                (ClientDict [("mistake", FakeSdk.sdk)])
                (Some UnitTests.default_controls) H) as Hc.
  destruct (AutoToolWrapper_init _ _ _ _) as [wrapper|e].
  - destruct Hc as (_ & sdk & Hsdk). discriminate.
  - destruct Hc as (_ & He). injection He as <-. reflexivity.
Defined.

(** Every public callable member of [FakeSdk] has a docstring. *)
Lemma FakeSdk_documented (n : string) :
  In n (sdk_functions FakeSdk.sdk) -> documented FakeSdk.sdk n.
Proof.
  intro Hn. simpl in Hn.
  repeat (destruct Hn as [<- | Hn]; [eexists; eexists; split; reflexivity|]).
  destruct Hn.
Defined.

Lemma FakeSdk_dir_NoDup : NoDup (dir FakeSdk.sdk).
Proof.
  simpl. repeat (constructor; [simpl; intuition discriminate|]). constructor.
Defined.

(** C8 on the wrapper of [test_only_get_thing]. *)
Lemma literal_read_list_witness :
  (In "get_things" (sdk_functions FakeSdk.sdk) /\
   In "get_thing" (sdk_functions FakeSdk.sdk) /\
   In "create_thing" (sdk_functions FakeSdk.sdk)) /\
  exists wrapper,
    AutoToolWrapper_init PyRe.compile PyRe.matches FakeSdk.client
      (Some UnitTests.list_crud_controls) = Return wrapper /\
    map name (operations wrapper) = ["get_thing"].
Proof.
  split; [simpl; tauto|].
  apply (@literal_read_list_selects_get_thing _ PyRe.compile PyRe.matches
           UnitTests.list_crud_controls FakeSdk.client FakeSdk.sdk
           (FakeSdk.thing_method "Gets Thing")).
  - reflexivity.
  - exact FakeSdk_dir_NoDup.
  - reflexivity.
  - reflexivity.
  - exact FakeSdk_documented.
  - reflexivity.
  - left; reflexivity.
  - reflexivity.
  - reflexivity.
  - discriminate.
  - discriminate.
  - discriminate.
Defined.




(** ** The unit tests *)

(** [test_operations_is_populated], [test_no_hidden_methods] and the names
    the other tests look up: the Operations of the first wrapper. *)
Example test_operations :
  exists wrapper,
    AutoToolWrapper_init PyRe.compile PyRe.matches FakeSdk.client
      (Some UnitTests.crud_controls) = Return wrapper /\
    map name (operations wrapper) =
      ["create_thing"; "delete_thing"; "get_thing"; "get_things";
       "get_things_generator"; "post_thing"; "put_thing"; "update_thing"] /\
    forallb (fun op => negb (startswith (name op) "_")) (operations wrapper) = true.
Proof. eexists. repeat split; reflexivity. Qed.

(** [test_get_thing] *)
Example test_get_thing :
  _run PyJson.loads PyJson.dumps (UnitTests.tool "get_thing" "Gets Thing")
    (PyStr (UnitTests.json_object [("thing_id", 123%Z)])) [] []
  = Return (PyJson.dumps (FakeSdk._dummy_return (PyInt 123))).
Proof. reflexivity. Qed.

(** [test_get_things_no_input] *)
Example test_get_things_no_input :
  _run PyJson.loads PyJson.dumps (UnitTests.tool "get_things" "Gets Thing")
    PyNone [] []
  = Return (PyJson.dumps (FakeSdk._dummy_return (PyInt 123))).
Proof. reflexivity. Qed.

(** [test_create_thing_kwarg_input] *)
Example test_create_thing_kwarg_input :
  _run PyJson.loads PyJson.dumps (UnitTests.tool "create_thing" "Creates Thing")
    PyNone [] [("thing_id", PyInt 123)]
  = Return (PyJson.dumps (FakeSdk._dummy_return (PyInt 123))).
Proof. reflexivity. Qed.

(** [test_confabulate_thing] *)
Example test_confabulate_thing :
  exists wrapper,
    AutoToolWrapper_init PyRe.compile PyRe.matches FakeSdk.client
      (Some (CrudControls_new PyRe.Regex None None None
               (Some (Some ["confabulate_thing"])) None None None None))
    = Return wrapper /\
    map name (operations wrapper) = ["confabulate_thing"].
Proof. eexists. split; reflexivity. Qed.

(** The default pattern [get_*], compiled as a regular expression, accepts
    every text that starts with [get]: the star repeats the underscore,
    and [match] asks for nothing after it. *)
Lemma get_star_accepts_get (rest : string) :
  pattern_approves PyRe.compile PyRe.matches ("get" ++ rest) "get_*" = true.
Proof.
  unfold pattern_approves.
  replace (_is_regex_pattern "get_*") with true by reflexivity.
  replace (PyRe.compile (pattern_text "get_*"))
    with (Some (PyRe.RSeq (PyRe.RChar "g")
                  (PyRe.RSeq (PyRe.RChar "e")
                     (PyRe.RSeq (PyRe.RChar "t")
                        (PyRe.RSeq (PyRe.RStar (PyRe.RChar "_")) PyRe.REmpty)))))
    by reflexivity.
  unfold PyRe.matches. cbn [append chars PyRe.run Ascii.eqb Bool.eqb andb].
  destruct (List.length (chars rest)); [reflexivity|apply orb_true_r].
Qed.

(** X7.  With [CrudControls()], the default patterns of the read bucket
    are sniffed and compiled as regexes: the cache of the bucket holds two
    regexes and no glob.  As a regex [get_*] accepts every name that starts
    with [get], so the read bucket approves every such name, [getaway]
    among them, which the glob [get_*] does not match; and the wrapper of the
    test SDK holds three Operations. *)
Theorem default_controls_on_FakeSdk :
  (forall pattern, In pattern AUTOTOOL_CRUD_CONTROLS_READ_LIST ->
     _is_regex_pattern pattern = true /\
     exists compiled, PyRe.compile (pattern_text pattern) = Some compiled) /\
  (forall rest,
     approved PyRe.compile PyRe.matches UnitTests.default_controls ("get" ++ rest) Read
     = true) /\
  fnmatch "getaway" "get_*" = false /\
  exists wrapper,
    AutoToolWrapper_init PyRe.compile PyRe.matches FakeSdk.client None
    = Return wrapper /\
    map name (operations wrapper) = ["get_thing"; "get_things"; "get_things_generator"] /\
    exists first second,
      cache_get Read (_compiled_patterns (crud_controls wrapper))
        {| regex := []; glob := [] |}
      = {| regex := [first; second]; glob := [] |}.
Proof.
  split; [|split; [|split]].
  - intros pattern [<- | [<- | []]]; (split; [reflexivity|eexists; reflexivity]).
  - intro rest. unfold approved.
    change (flag UnitTests.default_controls Read) with (Some true).
    change (pattern_list UnitTests.default_controls Read)
      with (Some ["^get_[^_]+$"; "get_*"]).
    cbn [truthy andb existsb]. rewrite get_star_accepts_get.
    now rewrite orb_true_r.
  - reflexivity.
  - eexists. split; [reflexivity|]. split; [reflexivity|].
    eexists. eexists. reflexivity.
Qed.


Lemma plain_pattern_witness :
  _is_regex_pattern "get_thing" = false /\
  pattern_approves PyRe.compile PyRe.matches "get_thing" "get_thing" = true.
Proof.
  split; [reflexivity|].
  now apply (@plain_pattern_approves_equal_name _ PyRe.compile PyRe.matches
               "get_thing" "get_thing" eq_refl).
Defined.

Lemma member_exception_witness :
  _run PyJson.loads PyJson.dumps
    {| client := raising_client (OtherError "ValueError"); name := "get_thing";
       description := "Gets Thing" |}
    PyNone [] []
  = Raise (OtherError "ValueError").
Proof.
  apply (@member_exception_propagates PyJson.loads PyJson.dumps
           {| client := raising_client (OtherError "ValueError");
              name := "get_thing"; description := "Gets Thing" |}
           PyNone [] [] _ _ (OtherError "ValueError")
           eq_refl eq_refl eq_refl eq_refl).
Defined.

Lemma malformed_text_witness :
  PyJson.loads "thing_id=123" = None /\
  _run PyJson.loads PyJson.dumps (UnitTests.tool "get_things" "Gets Thing")
    (PyStr "thing_id=123") [] []
  = _run PyJson.loads PyJson.dumps (UnitTests.tool "get_things" "Gets Thing")
      PyNone [] [].
Proof.
  split; [reflexivity|].
  apply (@malformed_text_is_no_arguments PyJson.loads PyJson.dumps
           (UnitTests.tool "get_things" "Gets Thing") "thing_id=123" [] []
           eq_refl).
Defined.

Lemma dict_result_witness :
  exists text,
    _run PyJson.loads PyJson.dumps (UnitTests.tool "get_thing" "Gets Thing")
      (PyStr (UnitTests.json_object [("thing_id", 123%Z)])) [] []
    = Return text /\
    PyJson.loads text = Some (FakeSdk._dummy_return (PyInt 123)).
Proof.
  apply (@dict_result_round_trips PyJson.loads PyJson.dumps
           (UnitTests.tool "get_thing" "Gets Thing")
           (PyStr (UnitTests.json_object [("thing_id", 123%Z)])) [] []
           FakeSdk.sdk _
           [("status", PyInt 200); ("response", PyDict [("id", PyInt 123)])]
           PyJson_reads_back eq_refl eq_refl eq_refl eq_refl).
Defined.

Lemma reflection_order_witness :
  exists wrapper,
    AutoToolWrapper_init PyRe.compile PyRe.matches FakeSdk.client
      (Some UnitTests.crud_controls) = Return wrapper /\
    map name (operations wrapper) =
      ["create_thing"; "delete_thing"; "get_thing"; "get_things";
       "get_things_generator"; "post_thing"; "put_thing"; "update_thing"].
Proof.
  destruct (@operations_follow_reflection_order _ PyRe.compile PyRe.matches
              UnitTests.crud_controls FakeSdk.client FakeSdk.sdk
              eq_refl eq_refl (or_introl eq_refl) FakeSdk_documented)
    as (wrapper & Hinit & Hnames).
  exists wrapper. split; [exact Hinit|]. rewrite Hnames. reflexivity.
Defined.

(** * Further properties *)

(** ** Patterns: sniffing, the raw-string marker, leading stars *)

Lemma append_length (a b : string) :
  String.length (a ++ b) = String.length a + String.length b.
Proof. induction a; simpl; congruence. Qed.

Lemma substring_prefix (a b : string) :
  substring 0 (String.length a) (a ++ b) = a.
Proof. induction a as [|c a IH]; simpl; [now destruct b|now rewrite IH]. Qed.

(** [s[2:-1]] gives what stands between the first two characters and the
    last one. *)
Lemma slice_2_m1_body (c1 c2 last : ascii) (body : string) :
  slice_2_m1 (String c1 (String c2 (body ++ String last EmptyString))) = body.
Proof.
  unfold slice_2_m1. cbn [String.length].
  rewrite append_length. cbn [String.length].
  replace (S (S (String.length body + 1)) - 3) with (String.length body) by lia.
  cbn [substring]. apply substring_prefix.
Qed.

Lemma glob_char_is_regex_char (pattern : string) :
  glob_free pattern = false -> _is_regex_pattern pattern = true.
Proof.
  intro H. destruct (_is_regex_pattern pattern) eqn:Hs; [reflexivity|].
  apply not_regex_glob_free in Hs. congruence.
Qed.

Lemma chars_of_chars (l : list ascii) : chars (of_chars l) = l.
Proof. induction l; simpl; congruence. Qed.

(** A star followed by literal tokens matches the texts that end with
    the literals. *)
Lemma glob_match_star_literal (p s : list ascii) :
  glob_match (GStar :: map GLit p) s = true <-> exists pre, s = (pre ++ p)%list.
Proof.
  cbn [glob_match].
  induction s as [|x s IH].
  - rewrite orb_false_r, glob_match_literal. split.
    + intros <-. now exists [].
    + intros (pre & H). symmetry in H. apply app_eq_nil in H as [_ H]. now symmetry.
  - rewrite orb_true_iff, glob_match_literal, IH. split.
    + intros [<- | (pre & ->)]; [now exists []|now exists (x :: pre)].
    + intros ([|y pre] & H); [left; exact H|].
      injection H as -> ->. right. now exists pre.
Qed.

Section PatternFacts.

Variable Pattern : Type.
Variable re_compile : string -> option Pattern.
Variable re_match : Pattern -> string -> bool.

Local Abbreviation approves := (pattern_approves re_compile re_match).

(** X8.  A pattern that holds one of the glob characters [*], [?] and [[]
    and whose text compiles is matched as a regular expression, never as a
    glob: the three characters are among those that make a pattern a regex. *)
Theorem wildcard_pattern_is_matched_as_regex (name pattern : string)
    (compiled : Pattern) :
  glob_free pattern = false ->
  re_compile (pattern_text pattern) = Some compiled ->
  pattern_approves re_compile re_match name pattern = re_match compiled name.
Proof.
  intros Hglob Hcompiled. unfold pattern_approves.
  now rewrite (glob_char_is_regex_char pattern Hglob), Hcompiled.
Qed.

(** X9.  A pattern that starts with an [r] and a quote is compiled from
    the text between these two characters and its last character, whatever
    the last character is; when that text does not compile it is the glob. *)
Theorem raw_marker_drops_the_last_character (name body : string) (quote last : ascii) :
  quote = dquote \/ quote = squote ->
  pattern_text (String "r" (String quote (body ++ String last EmptyString))) = body /\
  pattern_approves re_compile re_match name
    (String "r" (String quote (body ++ String last EmptyString))) =
  match re_compile body with
  | Some compiled => re_match compiled name
  | None => fnmatch name body
  end.
Proof.
  intro Hquote.
  assert (Hmark : startswith (String "r" (String quote (body ++ String last EmptyString)))
                    r_dquote
                  || startswith (String "r" (String quote (body ++ String last EmptyString)))
                       r_squote = true).
  { destruct Hquote as [-> | ->]; unfold startswith, r_dquote, r_squote; simpl;
      now destruct (body ++ String last EmptyString). }
  assert (Htext : pattern_text (String "r" (String quote (body ++ String last EmptyString)))
                  = body).
  { unfold pattern_text. rewrite Hmark. apply slice_2_m1_body. }
  split; [exact Htext|].
  unfold pattern_approves, _is_regex_pattern. rewrite Hmark, Htext. reflexivity.
Qed.

(** X10.  A pattern made of a star and a text without glob characters,
    which the engine refuses to compile (nothing to repeat), approves
    exactly the names that end with the text. *)
Theorem leading_star_pattern_selects_suffix (name suffix : string) :
  glob_free suffix = true ->
  re_compile (String "*" suffix) = None ->
  (pattern_approves re_compile re_match name (String "*" suffix) = true <->
   exists prefix, name = prefix ++ suffix).
Proof.
  intros Hfree Hrefused. unfold pattern_approves.
  replace (_is_regex_pattern (String "*" suffix)) with true
    by (symmetry; now apply glob_char_is_regex_char).
  replace (pattern_text (String "*" suffix)) with (String "*" suffix) by reflexivity.
  rewrite Hrefused. unfold fnmatch. cbn [String.length chars glob_tokens].
  replace (Ascii.eqb "*" "*") with true by reflexivity.
  rewrite glob_tokens_literal; [|rewrite chars_length; lia|exact Hfree].
  rewrite glob_match_star_literal. split.
  - intros (pre & H). exists (of_chars pre). apply chars_eq.
    now rewrite chars_app, chars_of_chars.
  - intros (prefix & ->). exists (chars prefix). apply chars_app.
Qed.

End PatternFacts.

(** ** The cache of the classifier *)

Section CacheFacts.

Variable Pattern : Type.
Variable re_compile : string -> option Pattern.
Variable re_match : Pattern -> string -> bool.

Local Abbreviation Controls := (CrudControls Pattern).
Local Abbreviation compile := (compile_patterns re_compile).
Local Abbreviation matches := (matches_pattern re_compile re_match).
Local Abbreviation approves := (pattern_approves re_compile re_match).





(** The answer of a query that finds something in the cache: the flag as
    it is now, and the cached entry of the bucket. *)
Lemma matches_pattern_cached (self : Controls) (name : string) (t : CrudType) :
  _compiled_patterns self <> [] ->
  snd (matches self name t) =
  Return (truthy (flag self t) &&
          (existsb (fun pattern => re_match pattern name)
             (regex (cache_get t (_compiled_patterns self)
                       {| regex := []; glob := [] |}))
           || existsb (fun pattern => fnmatch name pattern)
                (glob (cache_get t (_compiled_patterns self)
                         {| regex := []; glob := [] |})))).
Proof.
  intro Hcache. unfold matches_pattern.
  destruct (_compiled_patterns self) as [|entry cache] eqn:Hc; [congruence|].
  cbn [is_empty]. rewrite Hc.
  destruct (truthy (flag self t)); cbn [negb andb]; [|reflexivity].
  destruct (existsb _ (regex _)); [reflexivity|].
  destruct (existsb _ (glob _)); reflexivity.
Qed.


(** X13.  Once the patterns are compiled, a query reads the flag of the
    bucket as it is now and the patterns as they were compiled: a classifier
    that holds the cache compiled from other lists answers from those lists,
    until [compile_patterns] is called again. *)
Theorem compiled_cache_outlives_list_changes (self edited : CrudControls Pattern)
    (name : string) (t : CrudType) (patterns : list string) :
  lists_present self = true ->
  pattern_list self t = Some patterns ->
  _compiled_patterns edited = _compiled_patterns (synced re_compile self) ->
  snd (matches_pattern re_compile re_match edited name t) =
  Return (truthy (flag edited t) &&
          existsb (pattern_approves re_compile re_match name) patterns) /\
  (lists_present edited = true ->
   snd (matches_pattern re_compile re_match
          (fst (compile_patterns re_compile edited)) name t) =
   Return (approved re_compile re_match edited name t)).
Proof.
  intros Hp Hlist Hcache. split.
  - destruct (@lists_present_inv _ self Hp) as (lc & lr & lu & ld & Hc & Hr & Hu & Hd).
    assert (Hsync : _compiled_patterns (synced re_compile self) =
                    [(Create, compiled_of re_compile lc); (Read, compiled_of re_compile lr);
                     (Update, compiled_of re_compile lu);
                     (Delete, compiled_of re_compile ld)])
      by (unfold synced; now rewrite (@compile_present _ re_compile self lc lr lu ld Hc Hr Hu Hd)).
    rewrite Hsync in Hcache.
    rewrite matches_pattern_cached by (rewrite Hcache; discriminate).
    rewrite Hcache. f_equal. f_equal.
    destruct t; cbn in Hlist; cbn [cache_get CrudType_eqb compiled_of regex glob];
      rewrite parts_approve; congruence.
  - intro Hp'. fold (synced re_compile edited).
    destruct (@same_rules _ re_compile re_match _ _ (@synced_rules _ re_compile edited))
      as [Hp'' Ha].
    rewrite (@matches_pattern_approved _ re_compile re_match
               (synced re_compile edited) name t);
      [|now rewrite Hp''|apply synced_in_sync].
    cbn [snd]. now rewrite Ha.
Qed.

End CacheFacts.

(** ** The Operation Set and its classifier *)

Section OperationFacts.

Variable Pattern : Type.
Variable re_compile : string -> option Pattern.
Variable re_match : Pattern -> string -> bool.
Variable json_loads : string -> option PyVal.
Variable json_dumps : PyVal -> string.

Local Abbreviation Controls := (CrudControls Pattern).
Local Abbreviation init := (AutoToolWrapper_init re_compile re_match).
Local Abbreviation approved_by self :=
  (fun name => existsb (approved re_compile re_match self name) crud_types).



(** A query of a bucket that is not enabled, on a classifier with its
    four lists: the answer is [False] and the lists and flags stay. *)
Lemma disabled_query (self : Controls) (name : string) (t : CrudType) :
  lists_present self = true -> flag self t <> Some true ->
  snd (matches_pattern re_compile re_match self name t) = Return false /\
  set_cache (fst (matches_pattern re_compile re_match self name t)) []
  = set_cache self [].
Proof.
  intros Hp Hflag. split.
  - destruct (@lists_present_inv _ self Hp) as (lc & lr & lu & ld & Hc & Hr & Hu & Hd).
    unfold matches_pattern.
    destruct (is_empty (_compiled_patterns self)).
    + rewrite (@compile_present _ re_compile self lc lr lu ld Hc Hr Hu Hd).
      rewrite flag_set_cache, (truthy_false Hflag). reflexivity.
    + rewrite (truthy_false Hflag). reflexivity.
  - rewrite matches_pattern_state.
    destruct (is_empty _); [apply synced_rules|reflexivity].
Qed.




(** The classifier a construction leaves is the one it was given or the
    compiled one. *)
Lemma build_loop_visited (self : Controls) (client : Client) (sdk : SdkObject)
    (names : list string) :
  lists_present self = true -> in_sync re_compile self ->
  forall current operations, visited re_compile self current ->
  visited re_compile self
    (fst (build_loop re_compile re_match client sdk names current operations)).
Proof.
  intros Hp Hs.
  induction names as [|n names IH]; intros current ops Hv;
    cbn [build_loop]; [exact Hv|].
  destruct (getattr sdk n) as [func|e]; [|exact Hv].
  destruct (AutoTool_new client n (doc func)) as [op|e]; [|exact Hv].
  destruct (@any_matches_approved _ re_compile re_match self current n crud_types
              Hp Hs Hv) as (current' & Hany & Hv').
  rewrite Hany.
  destruct (existsb _ crud_types); now apply IH.
Qed.

Lemma build_with_ext (f g : string -> bool) (client : Client) (sdk : SdkObject)
    (names : list string) :
  (forall n, f n = g n) ->
  forall operations,
  build_with f client sdk names operations = build_with g client sdk names operations.
Proof.
  intro Hext. induction names as [|n names IH]; intro ops; cbn [build_with];
    [reflexivity|].
  destruct (getattr sdk n) as [func|e]; cbn [bind]; [|reflexivity].
  destruct (AutoTool_new client n (doc func)) as [op|e]; cbn [bind]; [|reflexivity].
  rewrite Hext. apply IH.
Qed.

Lemma built_operations_init (self : Controls) (client : Client) :
  lists_present self = true -> in_sync re_compile self ->
  built_operations (init client (Some self)) =
  (sdk <- getitem client "client" ;;
   build_with (approved_by self) client sdk (sdk_functions sdk) []).
Proof.
  intros Hp Hs. rewrite (@init_contract _ re_compile re_match self client Hp Hs).
  destruct (getitem client "client") as [sdk|e]; [|reflexivity].
  cbn [bind]. destruct (build_with _ _ _ _ _); reflexivity.
Qed.

(** X16.  Building a wrapper changes nothing of the classifier it is given
    but its cache, and the classifier it leaves can be given to another
    wrapper: over any client the second construction has the outcome it has
    with the classifier as it was first. *)
Theorem classifier_can_be_reused (self : CrudControls Pattern) (client other : Client)
    (wrapper : AutoToolWrapper Pattern) :
  lists_present self = true ->
  in_sync re_compile self ->
  AutoToolWrapper_init re_compile re_match client (Some self) = Return wrapper ->
  set_cache (crud_controls wrapper) [] = set_cache self [] /\
  built_operations
    (AutoToolWrapper_init re_compile re_match other (Some (crud_controls wrapper))) =
  built_operations (AutoToolWrapper_init re_compile re_match other (Some self)).
Proof.
  intros Hp Hs Hinit.
  assert (Hv : visited re_compile self (crud_controls wrapper)).
  { unfold AutoToolWrapper_init, _build_operations in Hinit. cbn [or_default] in Hinit.
    destruct (getitem client "client") as [sdk|e]; [|discriminate].
    pose proof (@build_loop_visited self client sdk (sdk_functions sdk) Hp Hs
                  self [] (or_introl eq_refl)) as Hv.
    destruct (build_loop _ _ _ _ _ _ _) as [current [ops|e]]; [|discriminate].
    cbn [bind] in Hinit. injection Hinit as <-. exact Hv. }
  assert (Hrules : set_cache (crud_controls wrapper) [] = set_cache self []).
  { destruct Hv as [-> | ->]; [reflexivity|apply synced_rules]. }
  assert (Hs' : in_sync re_compile (crud_controls wrapper)).
  { destruct Hv as [-> | ->]; [exact Hs|apply synced_in_sync]. }
  split; [exact Hrules|].
  destruct (@same_rules _ re_compile re_match _ _ Hrules) as [Hp' Ha].
  rewrite !built_operations_init; [|exact Hp|exact Hs|now rewrite Hp'|exact Hs'].
  destruct (getitem other "client") as [sdk|e]; [|reflexivity].
  cbn [bind]. apply build_with_ext. intro n.
  induction crud_types as [|t ts IH]; [reflexivity|].
  cbn [existsb]. now rewrite Ha, IH.
Qed.

(** X17.  Input text that decodes to a value that is not a mapping (a
    list, a number, a string, [null]): the member resolves and is not called,
    and the invocation raises [TypeError]. *)
Theorem decoded_non_mapping_raises_TypeError (self : AutoTool) (text : string)
    (decoded : PyVal) (args : list PyVal) (kwargs : Kwargs) (sdk : SdkObject)
    (func : Attr) :
  getitem (client self) "client" = Return sdk ->
  getattr sdk (name self) = Return func ->
  json_loads text = Some decoded ->
  (forall entries, decoded <> PyDict entries) ->
  call_member func args (load_params json_loads (PyStr text)) kwargs = Raise TypeError /\
  _run json_loads json_dumps self (PyStr text) args kwargs = Raise TypeError.
Proof.
  intros Hget Hattr Hdecoded Hshape.
  assert (Hcall : call_member func args (load_params json_loads (PyStr text)) kwargs
                  = Raise TypeError).
  { unfold load_params, call_member. rewrite Hdecoded.
    destruct decoded; try reflexivity. now destruct (Hshape entries). }
  split; [exact Hcall|].
  rewrite (@run_resolved json_loads json_dumps self (PyStr text) args kwargs sdk func
             Hget Hattr), Hcall.
  reflexivity.
Qed.


End OperationFacts.

(** ** The word-list variant *)

Lemma prefix_iff (a b : string) :
  String.prefix a b = true <-> exists post, b = a ++ post.
Proof.
  revert b; induction a as [|c a IH]; intro b.
  - split; [intros _; now exists b|intros _; now destruct b].
  - destruct b as [|d b]; cbn [String.prefix append];
      [split; [discriminate|intros (post & H); discriminate]|].
    destruct (ascii_dec c d) as [<- | Hne].
    + rewrite IH. split; intros (post & H); exists post; congruence.
    + split; [discriminate|]. intros (post & H). congruence.
Qed.

(** [needle in hay]: the needle stands somewhere in the text. *)
Lemma contains_iff (needle hay : string) :
  contains needle hay = true <-> exists pre post, hay = pre ++ needle ++ post.
Proof.
  induction hay as [|c hay IH]; cbn [contains]; rewrite orb_true_iff, prefix_iff.
  - split.
    + intros [(post & H) | H]; [now exists EmptyString, post|discriminate].
    + intros ([|d pre] & post & H); [left; now exists post|discriminate].
  - rewrite IH. split.
    + intros [(post & H) | (pre & post & ->)];
        [now exists EmptyString, post|now exists (String c pre), post].
    + intros ([|d pre] & post & H); [left; now exists post|].
      right. exists pre, post. cbn [append] in H. congruence.
Qed.

Lemma lower_char_idempotent (c : ascii) : lower_char (lower_char c) = lower_char c.
Proof. destruct c as [[] [] [] [] [] [] [] []]; reflexivity. Qed.

Lemma lower_idempotent (s : string) : lower (lower s) = lower s.
Proof.
  induction s as [|c s IH]; cbn [lower]; [reflexivity|].
  now rewrite lower_char_idempotent, IH.
Qed.

Lemma split_not_nil (sep : ascii) (s : string) : split sep s <> [].
Proof.
  induction s as [|c s IH]; cbn [split]; [discriminate|].
  destruct (Ascii.eqb c sep); [discriminate|].
  destruct (split sep s); discriminate.
Qed.

(** Joining the words with the separator gives the text back. *)
Lemma concat_split (sep : ascii) (s : string) :
  String.concat (String sep EmptyString) (split sep s) = s.
Proof.
  induction s as [|c s IH]; cbn [split]; [reflexivity|].
  pose proof (split_not_nil sep s) as Hne.
  destruct (Ascii.eqb_spec c sep) as [-> | Hc];
    destruct (split sep s) as [|w ws]; try congruence.
  - change (String.concat (String sep EmptyString) (EmptyString :: w :: ws))
      with (String sep (String.concat (String sep EmptyString) (w :: ws))).
    now rewrite IH.
  - rewrite <- IH. now destruct ws.
Qed.

Lemma split_words_free (sep : ascii) (s w : string) :
  In w (split sep s) -> char_in sep w = false.
Proof.
  revert w; induction s as [|c s IH]; cbn [split]; intros w Hin.
  - destruct Hin as [<- | []]. reflexivity.
  - pose proof (split_not_nil sep s) as Hne.
    destruct (Ascii.eqb_spec c sep) as [-> | Hc].
    + destruct Hin as [<- | Hin]; [reflexivity|now apply IH].
    + destruct (split sep s) as [|w0 ws]; [congruence|].
      destruct Hin as [<- | Hin]; [|apply IH; now right].
      unfold char_in in *. cbn [chars existsb].
      rewrite (IH w0 (or_introl eq_refl)), orb_false_r.
      apply Ascii.eqb_neq. congruence.
Qed.

(** Cutting a text at a separator cuts the list of its words. *)
Lemma split_app (sep : ascii) (a b : string) :
  split sep (a ++ String sep b) = (split sep a ++ split sep b)%list.
Proof.
  induction a as [|c a IH]; cbn [append split].
  - now rewrite Ascii.eqb_refl.
  - rewrite IH. pose proof (split_not_nil sep a) as Hne.
    destruct (Ascii.eqb c sep); [reflexivity|].
    destruct (split sep a) as [|w ws]; [congruence|reflexivity].
Qed.

Section WordListFacts.

Variable Tool : Type.
Variable AutoTool : Client -> string -> option string -> Outcome Tool.

Local Abbreviation build := (Utilities._build_operations AutoTool).

(** One block of the loop body appends the Operation once or not at all. *)
Lemma append_matching_repeat (self : Utilities.CrudControls) (t : CrudType)
    (func_name : string) (operation : Tool) (operations : list Tool) :
  Utilities.append_matching (Utilities.flag self t) (Utilities.word_list self t)
    func_name operation operations =
  (operations ++
   repeat operation
     (List.length (filter (Utilities.bucket_approves self func_name) [t])))%list.
Proof.
  unfold Utilities.append_matching, Utilities.bucket_approves. cbn [filter].
  destruct (truthy (Utilities.flag self t)); cbn [andb];
    [|now rewrite List.app_nil_r].
  destruct (Utilities.word_list self t) as [words|]; [|now rewrite List.app_nil_r].
  destruct (existsb _ words); [reflexivity|now rewrite List.app_nil_r].
Qed.

(** The loop of the word-list wrapper, when every tool can be constructed:
    each name gives as many Operations as there are blocks that append. *)
Lemma word_list_build_loop (self : Utilities.CrudControls) (owner : Client)
    (sdk : SdkObject) (tool_for : string -> Tool) (names : list string) :
  (forall n, In n names ->
     exists func, lookup n sdk = Some func /\
                  AutoTool owner n (doc func) = Return (tool_for n)) ->
  forall operations,
  Utilities.build_loop AutoTool self owner sdk names operations =
  Return (operations ++
          flat_map (fun n => repeat (tool_for n) (Utilities.approvals self n)) names)%list.
Proof.
  induction names as [|n names IH]; intros Htools ops; cbn [Utilities.build_loop flat_map].
  - now rewrite List.app_nil_r.
  - destruct (Htools n (or_introl eq_refl)) as (func & Hl & Hnew).
    unfold getattr. rewrite Hl. cbn [bind]. rewrite Hnew. cbn [bind].
    rewrite IH by (intros m Hm; apply Htools; now right).
    f_equal.
    change (Utilities.create self) with (Utilities.flag self Create).
    change (Utilities.create_list self) with (Utilities.word_list self Create).
    change (Utilities.read self) with (Utilities.flag self Read).
    change (Utilities.read_list self) with (Utilities.word_list self Read).
    change (Utilities.update self) with (Utilities.flag self Update).
    change (Utilities.update_list self) with (Utilities.word_list self Update).
    change (Utilities.delete self) with (Utilities.flag self Delete).
    change (Utilities.delete_list self) with (Utilities.word_list self Delete).
    rewrite !append_matching_repeat.
    unfold Utilities.approvals, crud_types. cbn [filter].
    destruct (Utilities.bucket_approves self n Create),
      (Utilities.bucket_approves self n Read),
      (Utilities.bucket_approves self n Update),
      (Utilities.bucket_approves self n Delete);
      cbn [List.length repeat]; rewrite ?List.app_nil_r, <- ?app_assoc;
      reflexivity.
Qed.

(** X19.  The word-list wrapper lists a member once for each enabled
    bucket that has a word of its name: a member that two buckets approve
    gives two Operations, one after the other, in the order of reflection. *)
Theorem word_list_member_listed_once_per_bucket (self : Utilities.CrudControls)
    (owner : Client) (sdk : SdkObject) (tool_for : string -> Tool) :
  getitem owner "client" = Return sdk ->
  (forall n, In n (sdk_functions sdk) ->
     exists func, lookup n sdk = Some func /\
                  AutoTool owner n (doc func) = Return (tool_for n)) ->
  Utilities._build_operations AutoTool owner self =
  Return (flat_map (fun n => repeat (tool_for n) (Utilities.approvals self n))
            (sdk_functions sdk)).
Proof.
  intros Hget Htools. unfold Utilities._build_operations. rewrite Hget. cbn [bind].
  now rewrite (@word_list_build_loop self owner sdk tool_for (sdk_functions sdk) Htools).
Qed.

(** X20.  An empty word is in every name: with an enabled bucket whose
    list holds the empty word, the word-list wrapper lists every public
    callable member of the client. *)
Theorem empty_word_approves_every_member (self : Utilities.CrudControls)
    (t : CrudType) (words : list string) (owner : Client) (sdk : SdkObject)
    (tool_for : string -> Tool) :
  getitem owner "client" = Return sdk ->
  (forall n, In n (sdk_functions sdk) ->
     exists func, lookup n sdk = Some func /\
                  AutoTool owner n (doc func) = Return (tool_for n)) ->
  Utilities.flag self t = Some true ->
  Utilities.word_list self t = Some words ->
  In EmptyString words ->
  exists operations,
    Utilities._build_operations AutoTool owner self = Return operations /\
    forall n, In n (sdk_functions sdk) -> In (tool_for n) operations.
Proof.
  intros Hget Htools Hflag Hwords Hempty.
  unfold Utilities._build_operations. rewrite Hget. cbn [bind].
  rewrite (@word_list_build_loop self owner sdk tool_for (sdk_functions sdk) Htools).
  eexists. split; [reflexivity|]. cbn [app]. intros n Hn.
  apply in_flat_map. exists n. split; [exact Hn|].
  assert (Happ : Utilities.bucket_approves self n t = true).
  { unfold Utilities.bucket_approves. rewrite Hflag, Hwords. cbn [truthy andb].
    apply existsb_exists. exists EmptyString. split; [exact Hempty|].
    unfold Utilities.word_matches. apply contains_iff.
    now exists EmptyString, (lower n). }
  assert (Hcount : 0 < Utilities.approvals self n).
  { unfold Utilities.approvals.
    assert (Hin : In t (filter (Utilities.bucket_approves self n) crud_types))
      by (apply filter_In; split; [destruct t; simpl; tauto|exact Happ]).
    destruct (filter _ crud_types); [destruct Hin|simpl; lia]. }
  destruct (Utilities.approvals self n); [lia|now left].
Qed.

End WordListFacts.

(** X21.  The validator of the word-list classifier keeps the text of
    every list: each bucket gets at least one word, no word holds a comma,
    and the words joined by commas are the text that was passed, or the
    default text of the bucket when none was. *)
Theorem word_lists_keep_the_text
    (create_kw : option (option bool)) (create_list_kw : option (option string))
    (read_kw : option (option bool)) (read_list_kw : option (option string))
    (update_kw : option (option bool)) (update_list_kw : option (option string))
    (delete_kw : option (option bool)) (delete_list_kw : option (option string))
    (self : Utilities.CrudControls) (t : CrudType) :
  Utilities.validate_environment create_kw create_list_kw read_kw read_list_kw
    update_kw update_list_kw delete_kw delete_list_kw = Return self ->
  exists words,
    Utilities.word_list self t = Some words /\
    words <> [] /\
    (forall word, In word words -> char_in "," word = false) /\
    Some (String.concat "," words) =
    match t with
    | Create => or_default create_list_kw (Some Utilities.AUTOTOOL_CRUD_CONTROLS_CREATE_LIST)
    | Read => or_default read_list_kw (Some Utilities.AUTOTOOL_CRUD_CONTROLS_READ_LIST)
    | Update => or_default update_list_kw (Some Utilities.AUTOTOOL_CRUD_CONTROLS_UPDATE_LIST)
    | Delete => or_default delete_list_kw (Some Utilities.AUTOTOOL_CRUD_CONTROLS_DELETE_LIST)
    end.
Proof.
  unfold Utilities.validate_environment, Utilities.split_words.
  destruct (or_default create_list_kw _) as [lc|]; [|discriminate].
  destruct (or_default read_list_kw _) as [lr|]; [|discriminate].
  destruct (or_default update_list_kw _) as [lu|]; [|discriminate].
  destruct (or_default delete_list_kw _) as [ld|]; [|discriminate].
  cbn [bind]. intro H. injection H as <-.
  destruct t; cbn [Utilities.word_list Utilities.create_list Utilities.read_list
                     Utilities.update_list Utilities.delete_list];
    eexists; (split; [reflexivity|]); (split; [apply split_not_nil|]);
    (split; [intros word Hin; now apply split_words_free with (s := _) (1 := Hin)|]);
    now rewrite concat_split.
Qed.

(** X22.  The word-list classifier approves a name when the word in lower
    case stands somewhere in the name in lower case; the case of the name and
    of the word does not matter. *)
Theorem word_matches_iff_contained (func_name word : string) :
  (Utilities.word_matches func_name word = true <->
   exists before after, lower func_name = before ++ lower word ++ after) /\
  Utilities.word_matches (lower func_name) word = Utilities.word_matches func_name word /\
  Utilities.word_matches func_name (lower word) = Utilities.word_matches func_name word.
Proof.
  unfold Utilities.word_matches. rewrite !lower_idempotent.
  split; [apply contains_iff|split; reflexivity].
Qed.

(** ** The classifier while a wrapper is built *)

Section ConstructionFacts.

Variable Pattern : Type.
Variable re_compile : string -> option Pattern.
Variable re_match : Pattern -> string -> bool.

Local Abbreviation Controls := (CrudControls Pattern).
Local Abbreviation init := (AutoToolWrapper_init re_compile re_match).
Local Abbreviation approved_by self :=
  (fun name => existsb (approved re_compile re_match self name) crud_types).

(** A classification that asks at least one bucket leaves the compiled
    classifier. *)
Lemma any_matches_state (self current : Controls) (name : string)
    (t : CrudType) (types : list CrudType) :
  lists_present self = true -> in_sync re_compile self ->
  visited re_compile self current ->
  fst (any_matches re_compile re_match current name (t :: types))
  = synced re_compile self.
Proof.
  intros Hp Hs Hv. cbn [any_matches].
  rewrite (@visited_query _ re_compile re_match self current name t Hp Hs Hv).
  destruct (approved re_compile re_match self name t); [reflexivity|].
  clear Hv. induction types as [|u types IH]; cbn [any_matches]; [reflexivity|].
  rewrite (@visited_query _ re_compile re_match self (synced re_compile self) name u
             Hp Hs (or_intror eq_refl)).
  destruct (approved re_compile re_match self name u); [reflexivity|exact IH].
Qed.

Lemma build_loop_synced (self : Controls) (owner : Client) (sdk : SdkObject)
    (names : list string) :
  lists_present self = true -> in_sync re_compile self ->
  forall operations,
  fst (build_loop re_compile re_match owner sdk names (synced re_compile self) operations)
  = synced re_compile self.
Proof.
  intros Hp Hs. induction names as [|n names IH]; intro ops; cbn [build_loop];
    [reflexivity|].
  destruct (getattr sdk n) as [func|e]; [|reflexivity].
  destruct (AutoTool_new owner n (doc func)) as [op|e]; [|reflexivity].
  pose proof (@any_matches_state self (synced re_compile self) n Create
                [Read; Update; Delete] Hp Hs (or_intror eq_refl)) as Hstate.
  fold crud_types in Hstate.
  destruct (any_matches re_compile re_match (synced re_compile self) n crud_types)
    as [current [[|]|e]]; cbn [fst] in Hstate; subst current;
    [apply IH|apply IH|reflexivity].
Qed.

(** X23.  Building a wrapper compiles the classifier it is given, as soon
    as the client has one public callable member: the wrapper holds the
    compiled classifier.  Over a client without such a member nothing is
    classified and the classifier stays as it was. *)
Theorem construction_compiles_the_classifier (self : CrudControls Pattern)
    (owner : Client) (sdk : SdkObject) (wrapper : AutoToolWrapper Pattern) :
  getitem owner "client" = Return sdk ->
  lists_present self = true ->
  in_sync re_compile self ->
  AutoToolWrapper_init re_compile re_match owner (Some self) = Return wrapper ->
  crud_controls wrapper =
  if is_empty (sdk_functions sdk) then self else fst (compile_patterns re_compile self).
Proof.
  intros Hget Hp Hs. unfold AutoToolWrapper_init, _build_operations.
  cbn [or_default]. rewrite Hget.
  destruct (sdk_functions sdk) as [|n names]; cbn [is_empty build_loop].
  - cbn [bind]. intro H. now injection H as <-.
  - destruct (getattr sdk n) as [func|e]; [|discriminate].
    destruct (AutoTool_new owner n (doc func)) as [op|e]; [|discriminate].
    pose proof (@any_matches_state self self n Create [Read; Update; Delete]
                  Hp Hs (or_introl eq_refl)) as Hstate.
    fold crud_types in Hstate.
    destruct (any_matches re_compile re_match self n crud_types)
      as [current [[|]|e]]; cbn [fst] in Hstate; subst current; [| |discriminate].
    + pose proof (@build_loop_synced self owner sdk names Hp Hs ([] ++ [op])%list)
        as Hend.
      destruct (build_loop _ _ _ _ _ _ _) as [current [ops|e]]; [|discriminate].
      cbn [bind fst] in *. intro H. injection H as <-. exact Hend.
    + pose proof (@build_loop_synced self owner sdk names Hp Hs []) as Hend.
      destruct (build_loop _ _ _ _ _ _ _) as [current [ops|e]]; [|discriminate].
      cbn [bind fst] in *. intro H. injection H as <-. exact Hend.
Qed.

Lemma existsb_incl {A : Type} (f : A -> bool) (l l' : list A) :
  incl l l' -> existsb f l = true -> existsb f l' = true.
Proof.
  intros Hincl H. apply existsb_exists in H as (x & Hx & Hf).
  apply existsb_exists. exists x. split; [now apply Hincl|exact Hf].
Qed.

(** X24.  Patterns and enabled buckets only add Operations: when every
    enabled bucket of a classifier is enabled in another one and holds there
    at least the same patterns, every Operation name of the wrapper built
    with the first is an Operation name of the wrapper built with the
    second, over the same client. *)
Theorem more_patterns_more_operations (self larger : CrudControls Pattern)
    (owner : Client) (sdk : SdkObject) :
  getitem owner "client" = Return sdk ->
  lists_present self = true -> in_sync re_compile self ->
  lists_present larger = true -> in_sync re_compile larger ->
  (forall n, In n (sdk_functions sdk) -> documented sdk n) ->
  (forall t patterns,
     flag self t = Some true -> pattern_list self t = Some patterns ->
     flag larger t = Some true /\
     exists patterns', pattern_list larger t = Some patterns' /\ incl patterns patterns') ->
  exists wrapper wrapper',
    AutoToolWrapper_init re_compile re_match owner (Some self) = Return wrapper /\
    AutoToolWrapper_init re_compile re_match owner (Some larger) = Return wrapper' /\
    incl (map name (operations wrapper)) (map name (operations wrapper')).
Proof.
  intros Hget Hp Hs Hp' Hs' Hdoc Hmore.
  rewrite (@init_contract _ re_compile re_match self owner Hp Hs),
    (@init_contract _ re_compile re_match larger owner Hp' Hs'), Hget.
  rewrite !(@build_with_documented _ owner sdk (sdk_functions sdk) Hdoc).
  eexists. eexists. split; [reflexivity|]. split; [reflexivity|].
  cbn [operations app].
  rewrite !tool_names
    by (intros n Hn; apply Hdoc; now apply filter_In in Hn as [Hn _]).
  intros n Hn. apply filter_In in Hn as [Hn Happ]. apply filter_In.
  split; [exact Hn|].
  apply existsb_exists in Happ as (t & Ht & Happ). apply existsb_exists.
  exists t. split; [exact Ht|].
  unfold approved in *. apply andb_true_iff in Happ as [Hflag Hsome].
  destruct (flag self t) as [[|]|] eqn:Hf; try discriminate.
  destruct (pattern_list self t) as [patterns|] eqn:Hl; [|discriminate].
  destruct (Hmore t patterns Hf Hl) as (Hf' & patterns' & Hl' & Hincl).
  rewrite Hf', Hl'. cbn [truthy andb]. now apply existsb_incl with patterns.
Qed.



End ConstructionFacts.

(** ** The generator of the test SDK *)

Section GeneratorFacts.

Variable json_loads : string -> option PyVal.
Variable json_dumps : PyVal -> string.


End GeneratorFacts.

(** ** The exceptions of the libraries *)

Section RaisingFacts.

Variable Pattern : Type.
Variable re_compile : string -> Outcome (option Pattern).
Variable re_match : Pattern -> string -> bool.

Local Abbreviation Controls := (CrudControls Pattern).

(** Where the engine raises nothing, the loops of [compile_patterns] are
    the ones over the engine that only refuses. *)
Lemma compile_list_quiet (patterns : list string) :
  (forall pattern, In pattern patterns -> _is_regex_pattern pattern = true ->
     exists compiled, re_compile (pattern_text pattern) = Return compiled) ->
  forall acc,
  Raising.compile_list re_compile patterns acc =
  Return (fold_left (compile_pattern (quiet re_compile)) patterns acc).
Proof.
  induction patterns as [|p l IH]; intros Hreturns [rs gs]; cbn [Raising.compile_list fold_left];
    [reflexivity|].
  assert (Hl : forall pattern, In pattern l -> _is_regex_pattern pattern = true ->
               exists compiled, re_compile (pattern_text pattern) = Return compiled)
    by (intros q Hq; apply Hreturns; now right).
  unfold Raising.compile_pattern, compile_pattern, quiet.
  destruct (_is_regex_pattern p) eqn:Hsniff; cbn [bind]; [|now apply IH].
  destruct (Hreturns p (or_introl eq_refl) Hsniff) as [compiled Hcompiled].
  rewrite Hcompiled. cbn [bind]. destruct compiled; cbn [bind]; now apply IH.
Qed.

Lemma compilable_set_cache (self : Controls)
    (cache : list (CrudType * CompiledPatterns Pattern)) :
  compilable re_compile self -> compilable re_compile (set_cache self cache).
Proof.
  intros H t patterns p Hl. apply (H t). now destruct t.
Qed.

Lemma compile_types_quiet (types : list CrudType) (self : Controls) :
  compilable re_compile self ->
  Raising.compile_types re_compile types self =
  compile_types (quiet re_compile) types self.
Proof.
  revert self; induction types as [|t ts IH]; intros self Hc;
    cbn [Raising.compile_types compile_types]; [reflexivity|].
  destruct (pattern_list self t) as [patterns|] eqn:Hl; [|reflexivity].
  rewrite compile_list_quiet by (intros p Hp; now apply (Hc t patterns)).
  destruct (fold_left _ patterns _) as [rs gs].
  apply IH. now apply compilable_set_cache.
Qed.

Lemma matches_pattern_quiet (self : Controls) (name : string) (t : CrudType) :
  compilable re_compile self ->
  Raising.matches_pattern re_compile re_match self name t =
  matches_pattern (quiet re_compile) re_match self name t.
Proof.
  intro Hc. unfold Raising.matches_pattern, matches_pattern,
    Raising.compile_patterns, compile_patterns.
  now rewrite compile_types_quiet by now apply compilable_set_cache.
Qed.

(** A pattern on which the engine raises stops the loops. *)
Lemma compile_list_raises (patterns : list string) :
  (exists pattern e, In pattern patterns /\ _is_regex_pattern pattern = true /\
                     re_compile (pattern_text pattern) = Raise e) ->
  forall acc, exists e, Raising.compile_list re_compile patterns acc = Raise e.
Proof.
  induction patterns as [|p l IH]; intros (q & e & Hin & Hsniff & Hraise) [rs gs];
    [destruct Hin|].
  cbn [Raising.compile_list]. unfold Raising.compile_pattern.
  destruct Hin as [-> | Hin].
  - rewrite Hsniff, Hraise. now exists e.
  - assert (Hl : exists pattern e, In pattern l /\ _is_regex_pattern pattern = true /\
                                   re_compile (pattern_text pattern) = Raise e)
      by (now exists q, e).
    destruct (_is_regex_pattern p); cbn [bind]; [|now apply IH].
    destruct (re_compile (pattern_text p)) as [[compiled|]|e0]; cbn [bind];
      [now apply IH|now apply IH|now exists e0].
Qed.

Lemma compile_types_raises (types : list CrudType) (self : Controls) :
  (exists t patterns pattern e,
     In t types /\ pattern_list self t = Some patterns /\ In pattern patterns /\
     _is_regex_pattern pattern = true /\ re_compile (pattern_text pattern) = Raise e) ->
  exists e, snd (Raising.compile_types re_compile types self) = Raise e.
Proof.
  revert self; induction types as [|u ts IH];
    intros self (t & patterns & q & e & Hin & Hl & Hq & Hsniff & Hraise);
    [destruct Hin|].
  cbn [Raising.compile_types].
  destruct (pattern_list self u) as [l|] eqn:Hu; [|now exists TypeError].
  destruct (Raising.compile_list re_compile l ([], [])) as [[rs gs]|e0] eqn:Hlist;
    [|now exists e0].
  destruct Hin as [-> | Hin].
  - assert (l = patterns) by congruence. subst l.
    destruct (@compile_list_raises patterns
                (ex_intro _ q (ex_intro _ e (conj Hq (conj Hsniff Hraise))))
                ([], [])) as [e1 He1].
    congruence.
  - apply IH. exists t, patterns, q, e. split; [exact Hin|].
    split; [now destruct t|]. now split.
Qed.

(** C5, as the program has it.  A query of a bucket whose enabled flag is
    not true ([False] or [None]) answers [False] for every name, whatever the
    patterns are, when it does not have to compile (the cache is not empty)
    or when the compilation succeeds: the four lists are present and the
    engine raises nothing but [re.error] on their patterns. *)
Theorem disabled_bucket_rejects_every_name (self : CrudControls Pattern) (name : string)
    (t : CrudType) :
  _compiled_patterns self <> [] \/
  (lists_present self = true /\ compilable re_compile self) ->
  flag self t <> Some true ->
  snd (Raising.matches_pattern re_compile re_match self name t) = Return false.
Proof.
  intros [Hcache | [Hp Hc]] Hflag.
  - unfold Raising.matches_pattern.
    destruct (_compiled_patterns self) as [|entry cache]; [congruence|].
    cbn [is_empty]. now rewrite (truthy_false Hflag).
  - rewrite (@matches_pattern_quiet self name t Hc).
    apply (@disabled_query _ (quiet re_compile) re_match self name t Hp Hflag).
Qed.

(** C6, as the program has it.  A pattern [P] of an enabled bucket that is
    sniffed as a regex and on which the engine raises [re.error] does not
    make the classification raise, when the lists are present, the engine
    raises nothing else on their patterns and the cache is empty or compiled
    from the lists: the query returns, the text that
    was compiled ([P], or [P[2:-1]] when [P] carries the marker) is tried as
    a glob, and when [P] is the only pattern of the bucket the decision is
    the glob match of that text.  When the engine raises an exception of
    another class on a sniffed pattern of one of the lists, the query that
    compiles raises. *)
Theorem uncompilable_regex_is_tried_as_glob (self : CrudControls Pattern) (name : string)
    (t : CrudType) :
  (forall patterns P,
     lists_present self = true ->
     compilable re_compile self ->
     in_sync (quiet re_compile) self ->
     flag self t = Some true ->
     pattern_list self t = Some patterns ->
     In P patterns ->
     _is_regex_pattern P = true ->
     re_compile (pattern_text P) = Return None ->
     exists answer,
       snd (Raising.matches_pattern re_compile re_match self name t) = Return answer /\
       (fnmatch name (pattern_text P) = true -> answer = true) /\
       (patterns = [P] -> answer = fnmatch name (pattern_text P))) /\
  (forall u patterns P e,
     _compiled_patterns self = [] ->
     pattern_list self u = Some patterns ->
     In P patterns ->
     _is_regex_pattern P = true ->
     re_compile (pattern_text P) = Raise e ->
     exists e', snd (Raising.matches_pattern re_compile re_match self name t) = Raise e').
Proof.
  split.
  - intros patterns P Hp Hc Hs Hflag Hlist Hin Hsniff Hrefused.
    rewrite (@matches_pattern_quiet self name t Hc).
    apply (@refused_pattern_is_tried_as_glob _ (quiet re_compile) re_match
             self name t patterns P Hp Hs Hflag Hlist Hin Hsniff).
    unfold quiet. now rewrite Hrefused.
  - intros u patterns P e Hempty Hlist Hin Hsniff Hraise.
    unfold Raising.matches_pattern, Raising.compile_patterns.
    rewrite Hempty. cbn [is_empty].
    destruct (@compile_types_raises crud_types (set_cache self [])) as [e' He'].
    { exists u, patterns, P, e. split; [destruct u; simpl; tauto|].
      split; [now destruct u|]. now split. }
    destruct (Raising.compile_types re_compile crud_types (set_cache self []))
      as [self' result].
    cbn [snd] in He'. subst result. now exists e'.
Qed.

End RaisingFacts.

Section RaisingAdapterFacts.

Variable json_loads : string -> Outcome (option PyVal).
Variable json_dumps : PyVal -> string.

(** C4, as the program has it.  The member name of the Operation is absent
    from the client at call time.  On an input that is not text, and on an
    input text that [json.loads] decodes or refuses with [JSONDecodeError],
    the invocation returns the text [Invalid function name: ] followed by
    the name and raises nothing.  When [json.loads] raises an exception of
    another class on the input text, that exception leaves the invocation:
    the text is decoded before the name is looked up. *)
Theorem absent_member_returns_diagnostic (self : AutoTool) (tool_input : PyVal)
    (args : list PyVal) (kwargs : Kwargs) (sdk : SdkObject) :
  getitem (client self) "client" = Return sdk ->
  lookup (name self) sdk = None ->
  ((forall text, tool_input = PyStr text ->
      exists decoded, json_loads text = Return decoded) ->
   Raising._run json_loads json_dumps self tool_input args kwargs =
   Return ("Invalid function name: " ++ name self) /\
   startswith ("Invalid function name: " ++ name self) "Invalid function name:" = true) /\
  (forall text e,
     tool_input = PyStr text ->
     json_loads text = Raise e ->
     is_AttributeError e = false ->
     Raising._run json_loads json_dumps self tool_input args kwargs = Raise e).
Proof.
  intros Hget Habsent. split.
  - intro Hdecodes. split; [|reflexivity].
    assert (Hparams : exists params,
               Raising.load_params json_loads tool_input = Return params).
    { destruct tool_input; try (eexists; reflexivity).
      destruct (Hdecodes s eq_refl) as [decoded Hdecoded].
      cbn [Raising.load_params]. rewrite Hdecoded. cbn [bind].
      destruct decoded; eexists; reflexivity. }
    destruct Hparams as [params Hparams].
    unfold Raising._run. rewrite Hparams. cbn [bind]. rewrite Hget. cbn [bind].
    unfold getattr. now rewrite Habsent.
  - intros text e -> Hraise Hclass.
    unfold Raising._run. cbn [Raising.load_params]. rewrite Hraise.
    cbn [bind try_except_AttributeError]. now rewrite Hclass.
Qed.

End RaisingAdapterFacts.

(** ** The further properties on the objects of the unit tests *)

(** The default pattern [get_*] holds a star and compiles: it is the
    regular expression that accepts [get] followed by underscores, so it
    accepts [get_things_generator] and, unlike the glob, [getaway]. *)
Lemma wildcard_pattern_witness :
  pattern_approves PyRe.compile PyRe.matches "getaway" "get_*" = true /\
  fnmatch "getaway" "get_*" = false.
Proof.
  split; [|reflexivity].
  rewrite (@wildcard_pattern_is_matched_as_regex _ PyRe.compile PyRe.matches
             "getaway" "get_*"
             (PyRe.RSeq (PyRe.RChar "g")
                (PyRe.RSeq (PyRe.RChar "e")
                   (PyRe.RSeq (PyRe.RChar "t")
                      (PyRe.RSeq (PyRe.RStar (PyRe.RChar "_")) PyRe.REmpty))))
             eq_refl eq_refl).
  reflexivity.
Defined.

(** A pattern written with the marker and no closing quote loses the
    dollar that ends it. *)
Lemma raw_marker_witness :
  pattern_text (String "r" (String dquote "^get_thing$")) = "^get_thing" /\
  pattern_approves PyRe.compile PyRe.matches "get_things"
    (String "r" (String dquote "^get_thing$")) = true.
Proof.
  destruct (@raw_marker_drops_the_last_character _ PyRe.compile PyRe.matches
              "get_things" "^get_thing" dquote "$" (or_introl eq_refl))
    as [Htext Happroves].
  split; [exact Htext|]. cbn [append] in Happroves. rewrite Happroves. reflexivity.
Defined.

Lemma leading_star_witness :
  pattern_approves PyRe.compile PyRe.matches "forget_thing" "*_thing" = true.
Proof.
  apply (@leading_star_pattern_selects_suffix _ PyRe.compile PyRe.matches
           "forget_thing" "_thing" eq_refl eq_refl).
  now exists "forget".
Defined.



(** The read list was changed to [['post_thing']] after the first query:
    [get_thing] is still approved, and [post_thing] is not before the
    patterns are compiled again. *)
Lemma compiled_cache_witness :
  snd (matches_pattern PyRe.compile PyRe.matches edited_controls "get_thing" Read)
  = Return true /\
  snd (matches_pattern PyRe.compile PyRe.matches edited_controls "post_thing" Read)
  = Return false /\
  snd (matches_pattern PyRe.compile PyRe.matches
         (fst (compile_patterns PyRe.compile edited_controls)) "post_thing" Read)
  = Return true.
Proof.
  destruct (@compiled_cache_outlives_list_changes _ PyRe.compile PyRe.matches
              UnitTests.default_controls edited_controls "get_thing" Read
              ["^get_[^_]+$"; "get_*"] eq_refl eq_refl eq_refl) as [Hget _].
  destruct (@compiled_cache_outlives_list_changes _ PyRe.compile PyRe.matches
              UnitTests.default_controls edited_controls "post_thing" Read
              ["^get_[^_]+$"; "get_*"] eq_refl eq_refl eq_refl) as [Hpost Hagain].
  split; [rewrite Hget; reflexivity|].
  split; [rewrite Hpost; reflexivity|].
  rewrite (Hagain eq_refl). reflexivity.
Defined.



(** The classifier of the first wrapper of the tests, given next to a
    wrapper over [forgetful_sdk]. *)
Lemma classifier_reuse_witness :
  exists wrapper,
    AutoToolWrapper_init PyRe.compile PyRe.matches FakeSdk.client
      (Some UnitTests.crud_controls) = Return wrapper /\
    _compiled_patterns (crud_controls wrapper) <> [] /\
    built_operations
      (AutoToolWrapper_init PyRe.compile PyRe.matches forgetful_client
         (Some (crud_controls wrapper))) =
    built_operations
      (AutoToolWrapper_init PyRe.compile PyRe.matches forgetful_client
         (Some UnitTests.crud_controls)).
Proof.
  eexists. split; [reflexivity|]. split; [discriminate|].
  eapply (@classifier_can_be_reused _ PyRe.compile PyRe.matches
            UnitTests.crud_controls FakeSdk.client forgetful_client _
            eq_refl (or_introl eq_refl)).
  reflexivity.
Defined.

(** The input text is a JSON list. *)
Lemma decoded_non_mapping_witness :
  PyJson.loads "[1, 2]" = Some (PyList [PyInt 1; PyInt 2]) /\
  _run PyJson.loads PyJson.dumps (UnitTests.tool "get_things" "Gets Thing")
    (PyStr "[1, 2]") [] [] = Raise TypeError.
Proof.
  split; [reflexivity|].
  apply (@decoded_non_mapping_raises_TypeError PyJson.loads PyJson.dumps
           (UnitTests.tool "get_things" "Gets Thing") "[1, 2]"
           (PyList [PyInt 1; PyInt 2]) [] [] FakeSdk.sdk
           (FakeSdk.method "Gets Thing" []
              (fun _ => FakeSdk._dummy_return (PyInt 123)))
           eq_refl eq_refl eq_refl).
  intros entries. discriminate.
Defined.


Lemma forgetful_tools (n : string) :
  In n (sdk_functions forgetful_sdk) ->
  exists func, lookup n forgetful_sdk = Some func /\
               AutoTool_new forgetful_client n (doc func) = Return (forgetful_tool n).
Proof.
  intro Hn. simpl in Hn.
  repeat (destruct Hn as [<- | Hn]; [eexists; split; reflexivity|]).
  destruct Hn.
Defined.

(** The word-list classifier with the create and the update bucket
    enabled and the update words [thing] and [post]: every member with
    [thing] in its name is listed by the update bucket, [create_thing] by the
    create bucket as well. *)
Lemma word_list_member_witness :
  exists self,
    Utilities.validate_environment (Some (Some true)) None (Some (Some false)) None
      (Some (Some true)) (Some (Some "thing,post")) None None = Return self /\
    Utilities._build_operations AutoTool_new forgetful_client self =
    Return [forgetful_tool "create_thing"; forgetful_tool "create_thing";
            forgetful_tool "delete_thing"; forgetful_tool "forget_thing";
            forgetful_tool "get_thing"].
Proof.
  eexists. split; [reflexivity|].
  rewrite (@word_list_member_listed_once_per_bucket _ AutoTool_new _
             forgetful_client forgetful_sdk forgetful_tool eq_refl forgetful_tools).
  reflexivity.
Defined.

(** The read list [get,]: its last word is empty, and the wrapper lists
    [delete_thing] too. *)
Lemma empty_word_witness :
  exists self operations,
    Utilities.validate_environment None None None (Some (Some "get,"))
      None None None None = Return self /\
    Utilities._build_operations AutoTool_new forgetful_client self = Return operations /\
    In (forgetful_tool "delete_thing") operations.
Proof.
  eexists.
  destruct (@empty_word_approves_every_member _ AutoTool_new
              {| Utilities.create := Some false; Utilities.create_list := Some ["create"];
                 Utilities.read := Some true; Utilities.read_list := Some ["get"; EmptyString];
                 Utilities.update := Some false;
                 Utilities.update_list := Some ["update"; "put"; "post"];
                 Utilities.delete := Some false;
                 Utilities.delete_list := Some ["delete"; "destroy"; "remove"] |}
              Read ["get"; EmptyString] forgetful_client forgetful_sdk forgetful_tool
              eq_refl forgetful_tools eq_refl eq_refl (or_intror (or_introl eq_refl)))
    as (operations & Hbuild & Hall).
  exists operations. split; [reflexivity|]. split; [exact Hbuild|].
  apply Hall. simpl. tauto.
Defined.

Lemma word_lists_witness :
  exists self words,
    Utilities.validate_environment None None None (Some (Some "get,,list"))
      None None None None = Return self /\
    Utilities.word_list self Read = Some words /\
    words <> [] /\
    (forall word, In word words -> char_in "," word = false) /\
    Some (String.concat "," words) = Some "get,,list".
Proof.
  eexists.
  destruct (@word_lists_keep_the_text None None None (Some (Some "get,,list"))
              None None None None _ Read eq_refl)
    as (words & Hwords & Hfilled & Hfree & Hjoin).
  exists words. split; [reflexivity|]. split; [exact Hwords|].
  split; [exact Hfilled|]. split; [exact Hfree|exact Hjoin].
Defined.

(** The first wrapper of the tests holds the compiled classifier. *)
Lemma construction_compiles_witness :
  exists wrapper,
    AutoToolWrapper_init PyRe.compile PyRe.matches FakeSdk.client
      (Some UnitTests.crud_controls) = Return wrapper /\
    _compiled_patterns UnitTests.crud_controls = [] /\
    crud_controls wrapper = fst (compile_patterns PyRe.compile UnitTests.crud_controls).
Proof.
  eexists. split; [reflexivity|]. split; [reflexivity|].
  apply (@construction_compiles_the_classifier _ PyRe.compile PyRe.matches
           UnitTests.crud_controls FakeSdk.client FakeSdk.sdk _
           eq_refl eq_refl (or_introl eq_refl) eq_refl).
Defined.

(** The classifier of [test_only_get_thing] and the one of the first
    wrapper, which enables more buckets and holds the default read
    patterns with [get_thing] added. *)
Lemma more_patterns_witness :
  exists wrapper wrapper',
    AutoToolWrapper_init PyRe.compile PyRe.matches FakeSdk.client
      (Some UnitTests.list_crud_controls) = Return wrapper /\
    AutoToolWrapper_init PyRe.compile PyRe.matches FakeSdk.client
      (Some (CrudControls_new PyRe.Regex (Some (Some true)) None (Some (Some true))
               (Some (Some ["^get_[^_]+$"; "get_*"; "get_thing"])) None None None None))
    = Return wrapper' /\
    incl (map name (operations wrapper)) (map name (operations wrapper')).
Proof.
  apply (@more_patterns_more_operations _ PyRe.compile PyRe.matches
           UnitTests.list_crud_controls
           (CrudControls_new PyRe.Regex (Some (Some true)) None (Some (Some true))
              (Some (Some ["^get_[^_]+$"; "get_*"; "get_thing"])) None None None None)
           FakeSdk.client FakeSdk.sdk eq_refl eq_refl (or_introl eq_refl)
           eq_refl (or_introl eq_refl) FakeSdk_documented).
  intros [] patterns Hflag Hlist; try discriminate.
  split; [reflexivity|]. eexists. split; [reflexivity|].
  injection Hlist as <-. intros p [<- | []]. simpl. tauto.
Defined.


(** ** The claims about the limits of the libraries, on closed inputs *)

(** The engine with its limit raises on no pattern of a classifier whose
    lists are given in full. *)
Ltac listed_patterns_compile :=
  intros t patterns p Hlist Hin Hsniff;
  destruct t; injection Hlist as <-;
  repeat (destruct Hin as [<- | Hin]; [eexists; reflexivity|]);
  destruct Hin.

(** C4 on a name [FakeSdk] does not have, with input text that decodes. *)
Lemma absent_member_witness :
  lookup "get_nothing" FakeSdk.sdk = None /\
  Raising._run Limits.loads PyJson.dumps (UnitTests.tool "get_nothing" "Gets Nothing")
    (PyStr (UnitTests.json_object [("thing_id", 123%Z)])) [] []
  = Return "Invalid function name: get_nothing".
Proof.
  split; [reflexivity|].
  destruct (@absent_member_returns_diagnostic Limits.loads PyJson.dumps
              (UnitTests.tool "get_nothing" "Gets Nothing")
              (PyStr (UnitTests.json_object [("thing_id", 123%Z)])) [] []
              FakeSdk.sdk eq_refl eq_refl) as [Hdecodes _].
  apply Hdecodes. intros text Htext. injection Htext as <-.
  eexists. reflexivity.
Defined.

(** C4 fails as stated: the member name is absent and the input text is an
    integer of 4301 digits; [json.loads] raises [ValueError], and so does the
    invocation. *)
Lemma long_integer_input_raises :
  lookup "get_nothing" FakeSdk.sdk = None /\
  Limits.loads long_integer_text = Raise ValueError /\
  Raising._run Limits.loads PyJson.dumps (UnitTests.tool "get_nothing" "Gets Nothing")
    (PyStr long_integer_text) [] []
  = Raise ValueError.
Proof.
  assert (Hraise : Limits.loads long_integer_text = Raise ValueError)
    by (vm_compute; reflexivity).
  split; [reflexivity|]. split; [exact Hraise|].
  unfold Raising._run. cbn [Raising.load_params]. rewrite Hraise. reflexivity.
Qed.

(** C5 on the classifier of [test_only_get_thing]: create is disabled and
    its default patterns would accept [create_thing]. *)
Lemma disabled_bucket_witness :
  flag UnitTests.list_crud_controls Create <> Some true /\
  pattern_approves PyRe.compile PyRe.matches "create_thing" "^create_[^_]+$" = true /\
  snd (Raising.matches_pattern Limits.compile PyRe.matches UnitTests.list_crud_controls
         "create_thing" Create) = Return false.
Proof.
  split; [discriminate|]. split; [reflexivity|].
  apply (@disabled_bucket_rejects_every_name _ Limits.compile PyRe.matches
           UnitTests.list_crud_controls "create_thing" Create).
  - right. split; [reflexivity|]. listed_patterns_compile.
  - discriminate.
Defined.

(** C5 fails as stated: the create bucket is not enabled and the first
    query of it raises, [TypeError] when the list of the delete bucket is
    [None], [OverflowError] when its own list holds [a{4294967296}]. *)
Lemma disabled_bucket_counterexample :
  (flag controls_without_delete_list Create = Some false /\
   snd (Raising.matches_pattern Limits.compile PyRe.matches
          controls_without_delete_list "create_thing" Create) = Raise TypeError) /\
  (flag overflow_in_create Create = Some false /\
   snd (Raising.matches_pattern Limits.compile PyRe.matches
          overflow_in_create "create_thing" Create) = Raise OverflowError).
Proof. repeat split; reflexivity. Qed.

(** C6 on the pattern [*_thing], which [re.compile] refuses (nothing to
    repeat): as a glob it accepts [get_thing]. *)
Lemma uncompilable_regex_witness :
  Limits.compile (pattern_text "*_thing") = Return None /\
  snd (Raising.matches_pattern Limits.compile PyRe.matches
         (CrudControls_new PyRe.Regex None None None (Some (Some ["*_thing"]))
            None None None None)
         "get_thing" Read) = Return true.
Proof.
  split; [reflexivity|].
  destruct (@uncompilable_regex_is_tried_as_glob _ Limits.compile PyRe.matches
              (CrudControls_new PyRe.Regex None None None (Some (Some ["*_thing"]))
                 None None None None)
              "get_thing" Read) as [Hrefused _].
  assert (Hcompile : compilable Limits.compile
                       (CrudControls_new PyRe.Regex None None None
                          (Some (Some ["*_thing"])) None None None None))
    by listed_patterns_compile.
  destruct (Hrefused ["*_thing"] "*_thing" eq_refl Hcompile (or_introl eq_refl)
              eq_refl eq_refl (or_introl eq_refl) eq_refl eq_refl)
    as (answer & Hrun & Hglob & _).
  rewrite Hrun. f_equal. apply Hglob. reflexivity.
Defined.

(** C6 fails as stated.  The pattern [a{4294967296}] of the enabled read
    bucket is sniffed as a regex and does not compile: [re.compile] raises
    [OverflowError], and so does the classification.  And for the pattern
    written with the marker, [r"*_thing"], the glob that is tried is not the
    pattern but [*_thing]: [get_thing] is approved, which the pattern as a
    glob does not match. *)
Lemma uncompilable_regex_counterexample :
  (flag overflow_in_read Read = Some true /\
   _is_regex_pattern "a{4294967296}" = true /\
   Limits.compile (pattern_text "a{4294967296}") = Raise OverflowError /\
   snd (Raising.matches_pattern Limits.compile PyRe.matches
          overflow_in_read "get_thing" Read) = Raise OverflowError) /\
  (_is_regex_pattern marked_star_pattern = true /\
   Limits.compile (pattern_text marked_star_pattern) = Return None /\
   snd (Raising.matches_pattern Limits.compile PyRe.matches
          controls_with_marked_pattern "get_thing" Read) = Return true /\
   fnmatch "get_thing" marked_star_pattern = false).
Proof. repeat split; reflexivity. Qed.
